(** * HDF5 to Delta Lake ingestion: a shallow embedding of the notebooks

    The development follows the conversion notebook of
    [phase_1_data_conversion] (the profiler [collect_hdf5_metadata],
    [schema], [parse_filename], [process_file], the thread-pool coordinator)
    and the read side of [verify_delta_lake.ipynb] (the count of distinct
    metadata tuples and the counts per label).

    Python exceptions are values of [PyException] carried by the [Result]
    monad; the [try ... except Exception] of the notebook is a [match] on a
    [Result].  Spark/Delta, h5py and the file system are modelled by explicit
    state: the Delta table at [DELTA_DIR] is an optional [DeltaTable] (absent
    until some writer creates it), the raw corpus is a [FileSystem]. *)

From Stdlib Require Import ZArith Bool Ascii String List Lia.
From Stdlib Require SpecFloat.
From stdpp Require Import base option list strings gmap.

Local Open Scope string_scope.
Local Open Scope list_scope.

(** ** Python exceptions and the result monad *)

Inductive ExcClass :=
  | IndexError | KeyError | ValueError | TypeError | AttributeError
  | OSError | AnalysisException.

Record PyException := mkExc { exc_class : ExcClass; exc_msg : string }.

(** [str(e)] as used in the f-strings of the notebook. *)
Definition str (e : PyException) : string := exc_msg e.

Inductive Result (A : Type) : Type :=
  | Return (a : A)
  | Raise (e : PyException).
Arguments Return {A} a.
Arguments Raise {A} e.

#[global] Instance Result_ret : MRet Result := fun _ a => Return a.
#[global] Instance Result_bind : MBind Result := fun _ _ f m =>
  match m with
  | Return a => f a
  | Raise e => Raise e
  end.

Definition raises {A} (m : Result A) : Prop := ∃ e, m = Raise e.

(** ** Python string operations used by the notebook *)

(** [s.split(sep)] for a one-character separator: never the empty list. *)
Fixpoint split (sep : ascii) (s : string) : list string :=
  match s with
  | EmptyString => [EmptyString]
  | String c s' =>
      if Ascii.eqb c sep then EmptyString :: split sep s'
      else match split sep s' with
           | [] => [String c EmptyString]
           | seg :: segs => String c seg :: segs
           end
  end.

(** The scan of [s.replace(old, "")]: [skip] counts the characters of the
    occurrence of [old] being dropped; scanning resumes after it, so the
    occurrences removed are the left-to-right non-overlapping ones. *)
Fixpoint drop_occurrences (old : string) (skip : nat) (s : string) : string :=
  match s with
  | EmptyString => EmptyString
  | String c s' =>
      match skip with
      | S k => drop_occurrences old k s'
      | O =>
          if String.prefix old s
          then drop_occurrences old (String.length old - 1) s'
          else String c (drop_occurrences old 0 s')
      end
  end.

(** [s.replace(old, "")]. *)
Definition replace_empty (old s : string) : string :=
  match old with
  | EmptyString => s
  | _ => drop_occurrences old 0 s
  end.

(** [s.count(c)] for a character. *)
Fixpoint count_char (c : ascii) (s : string) : nat :=
  match s with
  | EmptyString => 0
  | String a s' => (if Ascii.eqb a c then 1 else 0) + count_char c s'
  end.

(** [old in s] *)
Fixpoint occurs (old s : string) : bool :=
  String.prefix old s ||
  match s with
  | EmptyString => false
  | String _ s' => occurs old s'
  end.

(** [s.endswith(suffix)]. *)
Fixpoint endswith (s suffix : string) : bool :=
  String.eqb s suffix ||
  match s with
  | EmptyString => false
  | String _ s' => endswith s' suffix
  end.

Definition slash : ascii := "/"%char.

Fixpoint has_slash (s : string) : bool :=
  match s with
  | EmptyString => false
  | String c s' => Ascii.eqb c slash || has_slash s'
  end.

(** [p[p.rfind('/') + 1:]] *)
Fixpoint after_last_slash (p : string) : string :=
  match p with
  | EmptyString => EmptyString
  | String c p' => if has_slash p then after_last_slash p' else p
  end.

(** [p[:p.rfind('/') + 1]] *)
Fixpoint upto_last_slash (p : string) : string :=
  match p with
  | EmptyString => EmptyString
  | String c p' => if has_slash p then String c (upto_last_slash p') else EmptyString
  end.

Fixpoint all_slashes (s : string) : bool :=
  match s with
  | EmptyString => true
  | String c s' => Ascii.eqb c slash && all_slashes s'
  end.

(** [s.rstrip('/')] *)
Fixpoint rstrip_slash (s : string) : string :=
  match s with
  | EmptyString => EmptyString
  | String c s' =>
      match rstrip_slash s' with
      | EmptyString => if Ascii.eqb c slash then EmptyString else String c EmptyString
      | r => String c r
      end
  end.

(** [os.path.basename] (posixpath). *)
Definition basename (p : string) : string := after_last_slash p.

(** [os.path.dirname] (posixpath). *)
Definition dirname (p : string) : string :=
  let head := upto_last_slash p in
  if negb (String.eqb head EmptyString) && negb (all_slashes head)
  then rstrip_slash head
  else head.

(** [os.path.join(root, f)] for a relative file name [f]. *)
Definition path_join (root f : string) : string :=
  if String.eqb root EmptyString || endswith root "/" then root +:+ f
  else root +:+ "/" +:+ f.

(** ** The external collaborators: HDF5 files, the file system, Delta Lake *)

Section Pipeline.

(** [num] is the element type of the raw HDF5 arrays and [float64] the type
    of a pandas [float64] cell; [astype_float64] is the element-wise cast of
    [DataFrame.astype("float64")]. *)
Context {num float64 : Type}.
Variable astype_float64 : num → float64.

(** A numpy array as returned by [dataset[()]]: its shape and its items. *)
Record ndarray := mkArray {
  shape : list nat;
  item : list nat → num
}.

(** The value of an HDF5 attribute, as far as [list(...)] can tell them
    apart: an array of strings, a scalar string (iterated character by
    character), or a scalar that is not iterable. *)
Inductive AttrValue :=
  | AttrArray (names : list string)
  | AttrString (s : string)
  | AttrScalar.

Record Dataset := mkDataset {
  ds_data : ndarray;
  ds_column_names : option AttrValue   (* attrs.get("column_names") *)
}.

(** Members of an HDF5 file: groups have no [shape] and cannot be read with
    [obj[()]]. *)
Inductive H5Object :=
  | H5Group
  | H5Dataset (d : Dataset).

(** An open HDF5 file: its members in the order [f.keys()] yields them. *)
Definition H5File := list (string * H5Object).

(** The raw corpus: [os.walk] yields (root, files) for every directory below
    its argument, and [h5py.File(path, 'r')] opens a file or raises. *)
Record FileSystem := mkFS {
  os_walk : string → list (string * list string);
  h5py_File : string → Result H5File
}.

(** [key in h5f] *)
Definition h5_contains (h5f : H5File) (key : string) : bool :=
  existsb (λ kv, String.eqb (fst kv) key) h5f.

(** [h5f[key]] *)
Fixpoint h5_getitem (h5f : H5File) (key : string) : Result H5Object :=
  match h5f with
  | [] => Raise (mkExc KeyError "object does not exist")
  | (k, obj) :: rest => if String.eqb k key then Return obj else h5_getitem rest key
  end.

(** [obj[()]] *)
Definition read_all (obj : H5Object) : Result ndarray :=
  match obj with
  | H5Dataset d => Return (ds_data d)
  | H5Group => Raise (mkExc TypeError "Accessing a group is done with bytes or str")
  end.

(** [obj.shape] *)
Definition get_shape (obj : H5Object) : Result (list nat) :=
  match obj with
  | H5Dataset d => Return (shape (ds_data d))
  | H5Group => Raise (mkExc AttributeError "'Group' object has no attribute 'shape'")
  end.

(** [list(dataset.attrs.get("column_names", []))] *)
Definition column_names_of (d : Dataset) : Result (list string) :=
  match ds_column_names d with
  | None => Return []
  | Some (AttrArray names) => Return names
  | Some (AttrString s) => Return (map (λ c, String c EmptyString) (list_ascii_of_string s))
  | Some AttrScalar => Raise (mkExc TypeError "object is not iterable")
  end.

(** *** Spark schema and rows *)

Inductive DataType := DoubleType | StringType.

Record StructField := mkField {
  name : string;
  dataType : DataType;
  nullable : bool
}.

Definition StructType := list StructField.

#[global] Instance DataType_eq_dec : EqDecision DataType.
Proof. solve_decision. Defined.

(** One sample of the table: the three accelerations and the six metadata
    cells.  The string columns are nullable: [None] is the null cell, which
    the frames built by the worker never hold but a scan of the table can
    return. *)
Record Row := mkRow {
  x : float64;
  y : float64;
  z : float64;
  machine_id : option string;
  month : option string;
  year : option string;
  operation : option string;
  example_no : option string;
  label : option string
}.

(** The cell of a string column of a row, by the name of the column (null
    for any other name). *)
Definition string_column (c : string) (r : Row) : option string :=
  if String.eqb c "machine_id" then machine_id r
  else if String.eqb c "month" then month r
  else if String.eqb c "year" then year r
  else if String.eqb c "operation" then operation r
  else if String.eqb c "example_no" then example_no r
  else if String.eqb c "label" then label r
  else None.

(** The row with the cell of a string column replaced. *)
Definition set_string_column (c : string) (v : option string) (r : Row) : Row :=
  if String.eqb c "machine_id"
  then mkRow (x r) (y r) (z r) v (month r) (year r) (operation r) (example_no r) (label r)
  else if String.eqb c "month"
  then mkRow (x r) (y r) (z r) (machine_id r) v (year r) (operation r) (example_no r) (label r)
  else if String.eqb c "year"
  then mkRow (x r) (y r) (z r) (machine_id r) (month r) v (operation r) (example_no r) (label r)
  else if String.eqb c "operation"
  then mkRow (x r) (y r) (z r) (machine_id r) (month r) (year r) v (example_no r) (label r)
  else if String.eqb c "example_no"
  then mkRow (x r) (y r) (z r) (machine_id r) (month r) (year r) (operation r) v (label r)
  else if String.eqb c "label"
  then mkRow (x r) (y r) (z r) (machine_id r) (month r) (year r) (operation r) (example_no r) v
  else r.

(** *** The Delta table: metadata and an append-only log of commits *)

(** A data file added by a commit sits in the partition subdirectory
    [c1=v1/c2=v2/...] given by its partition values. *)
Record AddFile := mkAddFile {
  partitionValues : list (string * option string);
  file_rows : list Row
}.

Definition Commit := list AddFile.

Record DeltaTable := mkTable {
  dt_schema : StructType;
  dt_partitionColumns : list string;
  dt_log : list Commit
}.

Definition table_files (tbl : DeltaTable) : list AddFile := concat (dt_log tbl).

(** The value a scan gives to a partition column of a data file.  The
    value is kept with the file as a string, in which the empty string
    stands for null: a partition column written as the empty string is read
    back as null. *)
Definition partition_value_read (v : option string) : option string :=
  match v with
  | Some EmptyString => None
  | _ => v
  end.

(** A row as a scan returns it from a data file: the cells of the partition
    columns are those of the partition values of the file. *)
Definition read_row (values : list (string * option string)) (r : Row) : Row :=
  foldl (λ r cv, set_string_column (fst cv) (partition_value_read (snd cv)) r) r values.

Definition read_file (f : AddFile) : list Row :=
  map (read_row (partitionValues f)) (file_rows f).

(** The rows a scan of the table returns. *)
Definition table_rows (tbl : DeltaTable) : list Row :=
  concat (map read_file (table_files tbl)).

(** [spark.read.format("delta").load(DELTA_DIR)]: fails when no Delta table
    has been created at the path. *)
Definition delta_load (t : option DeltaTable) : Result DeltaTable :=
  match t with
  | Some tbl => Return tbl
  | None => Raise (mkExc AnalysisException "Path is not a Delta table")
  end.

Definition partition_key (cols : list string) (r : Row) : list (string * option string) :=
  map (λ c, (c, string_column c r)) cols.

(** Rows are written to one data file per distinct partition key, in order
    of first appearance; no file is written for a key without rows. *)
Fixpoint add_to_group (k : list (string * option string)) (r : Row)
    (gs : list AddFile) : list AddFile :=
  match gs with
  | [] => [mkAddFile k [r]]
  | g :: gs' =>
      if decide (partitionValues g = k)
      then mkAddFile k (file_rows g ++ [r]) :: gs'
      else g :: add_to_group k r gs'
  end.

Definition write_files (cols : list string) (rows : list Row) : list AddFile :=
  foldl (λ gs r, add_to_group (partition_key cols r) r gs) [] rows.

Definition field_accepted (tbl_schema : StructType) (f : StructField) : bool :=
  existsb (λ g, String.eqb (name g) (name f) && bool_decide (dataType g = dataType f))
          tbl_schema.

(** [df.write.format("delta").partitionBy(cols).mode("append").save(DELTA_DIR)]
    for a DataFrame with schema [df_schema] and rows [rows]: the first write
    creates the table with the DataFrame's schema and partitioning; a later
    one is one commit, rejected when the DataFrame has a column the table
    lacks (schema enforcement) or names other partition columns. *)
Definition delta_append (df_schema : StructType) (cols : list string)
    (rows : list Row) (t : option DeltaTable) : Result DeltaTable :=
  if negb (forallb (λ c, existsb (λ f, String.eqb (name f) c) df_schema) cols)
  then Raise (mkExc AnalysisException "Partition column not found in schema")
  else
    match t with
    | None => Return (mkTable df_schema cols [write_files cols rows])
    | Some tbl =>
        if negb (forallb (field_accepted (dt_schema tbl)) df_schema)
        then Raise (mkExc AnalysisException "A schema mismatch detected when writing to the Delta table")
        else if negb (bool_decide (cols = dt_partitionColumns tbl))
        then Raise (mkExc AnalysisException "Partition columns do not match the partition columns of the table")
        else Return (mkTable (dt_schema tbl) (dt_partitionColumns tbl)
                             (dt_log tbl ++ [write_files cols rows]))
    end.

(** ** The notebook *)

(** [schema] *)
Definition schema : StructType :=
  [ mkField "x" DoubleType true;
    mkField "y" DoubleType true;
    mkField "z" DoubleType true;
    mkField "machine_id" StringType true;
    mkField "month" StringType true;
    mkField "year" StringType true;
    mkField "operation" StringType true;
    mkField "example_no" StringType true;
    mkField "label" StringType true ].

(** The argument of [.partitionBy(...)] in [process_file]. *)
Definition partitionBy : list string := ["machine_id"; "operation"; "label"].

(** The dictionary [parse_filename] returns. *)
Record Meta := mkMeta {
  meta_machine_id : string;
  meta_month : string;
  meta_year : string;
  meta_operation : string;
  meta_example_no : string
}.

(** [parts[i]] *)
Definition py_index (parts : list string) (i : nat) : Result string :=
  match parts !! i with
  | Some s => Return s
  | None => Raise (mkExc IndexError "list index out of range")
  end.

Definition parse_filename (filename : string) : Result Meta :=
  let base := replace_empty ".h5" filename in
  let parts := split "_" base in
  p0 ← py_index parts 0;
  p1 ← py_index parts 1;
  p2 ← py_index parts 2;
  p3 ← py_index parts 3;
  p4 ← py_index parts 4;
  Return (mkMeta p0 p1 p2 p3 p4).

(** What a call of [process_file] returns; the rendered message also carries
    the elapsed wall-clock time, which is not modelled. *)
Inductive Status :=
  | Appended (file_path : string)
  | Skipped (file_path : string)
  | Failed (file_path : string) (e : PyException).

(** The state [process_file] works on: the Delta table at [DELTA_DIR], the two
    outcome logs (one entry per line written) and, for the one worker thread
    of the sequential schedule, its [thread_data.file_count] and the number
    of cache clean-ups it has requested. *)
Record World := mkWorld {
  delta : option DeltaTable;
  SUCCESS_LOG : list Status;
  FAILED_LOG : list string;
  file_count : nat;
  cleanups : nat
}.

(** [col(c) == value] as a filter condition: on a null cell the comparison
    is null, which a filter treats like false. *)
Definition col_eq (cell : option string) (value : string) : bool :=
  match cell with
  | Some s => String.eqb s value
  | None => false
  end.

(** The filter of the existence check: a row is kept when the six
    comparisons are all true. *)
Definition matches (meta : Meta) (lbl : string) (r : Row) : bool :=
  col_eq (machine_id r) (meta_machine_id meta) &&
  col_eq (operation r) (meta_operation meta) &&
  col_eq (example_no r) (meta_example_no meta) &&
  col_eq (year r) (meta_year meta) &&
  col_eq (month r) (meta_month meta) &&
  col_eq (label r) lbl.

(** [delta_df.filter(...).limit(1).count() > 0] *)
Definition exists_in (delta_df : DeltaTable) (meta : Meta) (lbl : string) : bool :=
  bool_decide (0 < length (take 1 (List.filter (matches meta lbl) (table_rows delta_df)))).

(** The three columns of an [n] x 3 array, row by row. *)
Definition samples (data : ndarray) (n : nat) : list (num * num * num) :=
  map (λ i, (item data [i; 0], item data [i; 1], item data [i; 2])) (seq 0 n).

(** [pd.DataFrame(data, columns=["x", "y", "z"])]: the array must be
    two-dimensional with three columns. *)
Definition pd_DataFrame (data : ndarray) : Result (list (num * num * num)) :=
  match shape data with
  | [n; 3] => Return (samples data n)
  | _ => Raise (mkExc ValueError "Shape of passed values does not fit columns x, y, z")
  end.

(** The pandas frame after the cast and after the metadata columns are
    broadcast onto every row. *)
Definition with_metadata (meta : Meta) (lbl : string) (df_pd : list (num * num * num))
    : list Row :=
  map (λ '(a, b, c),
         mkRow (astype_float64 a) (astype_float64 b) (astype_float64 c)
               (Some (meta_machine_id meta)) (Some (meta_month meta))
               (Some (meta_year meta)) (Some (meta_operation meta))
               (Some (meta_example_no meta)) (Some lbl))
      df_pd.

Definition log_success (msg : Status) (w : World) : World :=
  mkWorld (delta w) (SUCCESS_LOG w ++ [msg]) (FAILED_LOG w) (file_count w) (cleanups w).

Definition log_failure (line : string) (w : World) : World :=
  mkWorld (delta w) (SUCCESS_LOG w) (FAILED_LOG w ++ [line]) (file_count w) (cleanups w).

(** The bookkeeping after a successful write: the counter, and a clean-up
    every 25 files. *)
Definition after_write (tbl : DeltaTable) (w : World) : World :=
  let n := S (file_count w) in
  mkWorld (Some tbl) (SUCCESS_LOG w) (FAILED_LOG w) n
          (if Nat.eqb (n mod 25) 0 then S (cleanups w) else cleanups w).

Variable fs : FileSystem.

(** The rows [process_file] builds from an open source file. *)
Definition read_rows (h5f : H5File) (meta : Meta) (lbl : string) : Result (list Row) :=
  if negb (h5_contains h5f "vibration_data")
  then Raise (mkExc ValueError "Missing 'vibration_data'")
  else
    obj ← h5_getitem h5f "vibration_data";
    data ← read_all obj;
    df_pd ← pd_DataFrame data;
    Return (with_metadata meta lbl df_pd).

(** The body of the [try] block of [process_file]. *)
Definition try_process_file (file_path : string) (w : World) : Result (World * Status) :=
  meta ← parse_filename (basename file_path);
  let lbl := basename (dirname file_path) in
  delta_df ← delta_load (delta w);
  if exists_in delta_df meta lbl
  then Return (log_success (Skipped file_path) w, Skipped file_path)
  else
    h5f ← h5py_File fs file_path;
    rows ← read_rows h5f meta lbl;
    tbl ← delta_append schema partitionBy rows (delta w);
    Return (log_success (Appended file_path) (after_write tbl w), Appended file_path).

(** [process_file]: the [except Exception] handler turns any exception of the
    body into one line of the failure log and a failure status. *)
Definition process_file (file_path : string) (w : World) : World * Status :=
  match try_process_file file_path w with
  | Return r => r
  | Raise e => (log_failure (file_path +:+ " | " +:+ str e) w, Failed file_path e)
  end.

(** The list comprehension building [h5_files]. *)
Definition h5_files (base_dir : string) : list string :=
  concat (map (λ '(root, files),
                 map (path_join root) (List.filter (λ f, endswith f ".h5") files))
              (os_walk fs base_dir)).

(** The coordinator, for the schedule in which the submitted tasks run one
    after the other: every file is handed to [process_file], and the
    statuses are what the futures hold. *)
Fixpoint run (files : list string) (w : World) : World * list Status :=
  match files with
  | [] => (w, [])
  | f :: rest =>
      let '(w1, s) := process_file f w in
      let '(w2, ss) := run rest w1 in
      (w2, s :: ss)
  end.

(** *** The profiler *)

Record ProfileRecord := mkRecord {
  file_path : string;
  num_rows : option nat;
  num_columns : option nat;
  column_names : list string;
  error : option string
}.

Definition set_error (e : PyException) (r : ProfileRecord) : ProfileRecord :=
  mkRecord (file_path r) (num_rows r) (num_columns r) (column_names r) (Some (str e)).

(** The loop over [f.keys()] inside the [try]: the record is updated in
    place, so what was assigned before an exception stays assigned. *)
Fixpoint scan_keys (members : H5File) (record : ProfileRecord) : ProfileRecord :=
  match members with
  | [] => record
  | (_, dataset) :: rest =>
      match get_shape dataset with
      | Raise e => set_error e record
      | Return shp =>
          match shp, dataset with
          | [rows; cols], H5Dataset d =>
              let record1 := mkRecord (file_path record) (Some rows) (Some cols)
                                      (column_names record) (error record) in
              match column_names_of d with
              | Return names =>
                  mkRecord (file_path record1) (num_rows record1) (num_columns record1)
                           names (error record1)
              | Raise e => set_error e record1
              end
          | _, _ => scan_keys rest record
          end
      end
  end.

Definition profile_file (path : string) : ProfileRecord :=
  let record := mkRecord path None None [] None in
  match h5py_File fs path with
  | Raise e => set_error e record
  | Return f => scan_keys f record
  end.

(** [collect_hdf5_metadata]: the rows of the returned data frame. *)
Definition collect_hdf5_metadata (base_dir : string) : list ProfileRecord :=
  concat (map (λ '(root, files),
                 map (λ file, profile_file (path_join root file))
                     (List.filter (λ f, endswith f ".h5") files))
              (os_walk fs base_dir)).

(** *** The verification reader *)

(** The six cells that the two queries select; a cell can be null. *)
Definition MetaTuple : Type :=
  option string * option string * option string * option string * option string
  * option string.

(** [select("machine_id", "month", "year", "operation", "example_no", "label")] *)
Definition metadata_tuple (r : Row) : MetaTuple :=
  (machine_id r, month r, year r, operation r, example_no r, label r).

(** [.distinct().count()] *)
Definition distinct_count (tbl : DeltaTable) : nat :=
  length (remove_dups (map metadata_tuple (table_rows tbl))).

(** ** Vocabulary of the statements *)

(** The label [process_file] derives from a path. *)
Definition label_of (path : string) : string := basename (dirname path).

(** The metadata tuple of a file with parsed name [meta] under [lbl]: the
    six values its existence check compares the columns with. *)
Definition tuple_of (meta : Meta) (lbl : string) : MetaTuple :=
  (Some (meta_machine_id meta), Some (meta_month meta), Some (meta_year meta),
   Some (meta_operation meta), Some (meta_example_no meta), Some lbl).

(** The tuple a scan shows for the rows written for such a file: the
    partition columns machine_id, operation and label come back as null
    when they were written as the empty string. *)
Definition tuple_read (meta : Meta) (lbl : string) : MetaTuple :=
  (partition_value_read (Some (meta_machine_id meta)), Some (meta_month meta),
   Some (meta_year meta), partition_value_read (Some (meta_operation meta)),
   Some (meta_example_no meta), partition_value_read (Some lbl)).

(** A row of the worker as a scan returns it after the write. *)
Definition as_read (r : Row) : Row := read_row (partition_key partitionBy r) r.

(** The values of the three partition columns are not empty. *)
Definition partition_values_not_empty (meta : Meta) (lbl : string) : Prop :=
  meta_machine_id meta ≠ "" ∧ meta_operation meta ≠ "" ∧ lbl ≠ "".

(** The rows of the table with a given metadata tuple. *)
Definition rows_with_tuple (t : MetaTuple) (tbl : DeltaTable) : list Row :=
  filter (λ r, metadata_tuple r = t) (table_rows tbl).

(** The rows of the table that the existence check of a file looks at. *)
Definition matching_rows (tbl : DeltaTable) (meta : Meta) (lbl : string) : list Row :=
  List.filter (matches meta lbl) (table_rows tbl).

(** The table takes a write of [process_file]: it has the nine columns and
    is partitioned the same way. *)
Definition accepts_worker_writes (tbl : DeltaTable) : bool :=
  forallb (field_accepted (dt_schema tbl)) schema &&
  bool_decide (partitionBy = dt_partitionColumns tbl).

(** The partition values of the subdirectory
    [machine_id=m/operation=o/label=l]. *)
Definition partition_dir (m o l : string) : list (string * option string) :=
  [("machine_id", Some m); ("operation", Some o); ("label", Some l)].

(** The subdirectory exists and holds a data file with at least one row. *)
Definition has_data_file (tbl : DeltaTable) (dir : list (string * option string)) : Prop :=
  ∃ f, f ∈ table_files tbl ∧ partitionValues f = dir ∧ file_rows f ≠ [].

(** The four places of the [try] block an exception can come from. *)
Inductive Stage := Parsing | ExistenceCheck | Reading | Appending.

Inductive raised_at (path : string) (w : World) : Stage → PyException → Prop :=
  | raised_parsing e :
      parse_filename (basename path) = Raise e →
      raised_at path w Parsing e
  | raised_check meta e :
      parse_filename (basename path) = Return meta →
      delta_load (delta w) = Raise e →
      raised_at path w ExistenceCheck e
  | raised_opening meta tbl e :
      parse_filename (basename path) = Return meta →
      delta_load (delta w) = Return tbl →
      exists_in tbl meta (label_of path) = false →
      h5py_File fs path = Raise e →
      raised_at path w Reading e
  | raised_reading meta tbl h5f e :
      parse_filename (basename path) = Return meta →
      delta_load (delta w) = Return tbl →
      exists_in tbl meta (label_of path) = false →
      h5py_File fs path = Return h5f →
      read_rows h5f meta (label_of path) = Raise e →
      raised_at path w Reading e
  | raised_appending meta tbl h5f rows e :
      parse_filename (basename path) = Return meta →
      delta_load (delta w) = Return tbl →
      exists_in tbl meta (label_of path) = false →
      h5py_File fs path = Return h5f →
      read_rows h5f meta (label_of path) = Return rows →
      delta_append schema partitionBy rows (delta w) = Raise e →
      raised_at path w Appending e.

(** The three ways a call of [process_file] ends, with what each one does
    to the state. *)
Inductive worker_step (path : string) (w : World) : World → Status → Prop :=
  | step_failed stage e :
      raised_at path w stage e →
      worker_step path w (log_failure (path +:+ " | " +:+ str e) w) (Failed path e)
  | step_skipped meta tbl :
      parse_filename (basename path) = Return meta →
      delta w = Some tbl →
      exists_in tbl meta (label_of path) = true →
      worker_step path w (log_success (Skipped path) w) (Skipped path)
  | step_appended meta tbl h5f rows tbl' :
      parse_filename (basename path) = Return meta →
      delta w = Some tbl →
      exists_in tbl meta (label_of path) = false →
      h5py_File fs path = Return h5f →
      read_rows h5f meta (label_of path) = Return rows →
      delta_append schema partitionBy rows (Some tbl) = Return tbl' →
      worker_step path w (log_success (Appended path) (after_write tbl' w))
                  (Appended path).

(** The write of [process_file] for a batch of rows. *)
Definition worker_write (rows : list Row) (t : option DeltaTable) : Result DeltaTable :=
  delta_append schema partitionBy rows t.

Definition is_failed (s : Status) : bool :=
  match s with Failed _ _ => true | _ => false end.

Definition is_appended (s : Status) : bool :=
  match s with Appended _ => true | _ => false end.

(** The metadata tuple a path stands for, when its name parses. *)
Definition file_tuple (path : string) : option MetaTuple :=
  match parse_filename (basename path) with
  | Return meta => Some (tuple_of meta (label_of path))
  | Raise _ => None
  end.

(** The tuple a scan shows for the rows written for the file at [path]. *)
Definition file_tuple_read (path : string) : option MetaTuple :=
  match parse_filename (basename path) with
  | Return meta => Some (tuple_read meta (label_of path))
  | Raise _ => None
  end.

(** The source file at [path] opens and holds an [n] x 3 array under the
    required name. *)
Definition holds_samples (path : string) (n : nat) : Prop :=
  ∃ h5f d, h5py_File fs path = Return h5f ∧
           h5_getitem h5f "vibration_data" = Return (H5Dataset d) ∧
           shape (ds_data d) = [n; 3].

(** The table after one more commit of [process_file] with [rows]. *)
Definition appended (tbl : DeltaTable) (rows : list Row) : DeltaTable :=
  mkTable (dt_schema tbl) (dt_partitionColumns tbl)
          (dt_log tbl ++ [write_files partitionBy rows]).

(** A file the worker can ingest: its name parses and it holds an array
    with three columns under the required name. *)
Definition ingestible (path : string) : Prop :=
  (∃ meta, parse_filename (basename path) = Return meta) ∧ ∃ n, holds_samples path n.

(** The table exists and takes the worker's writes. *)
Definition table_ok (w : World) : Prop :=
  ∃ tbl, delta w = Some tbl ∧ accepts_worker_writes tbl = true.

(** The metadata tuples of the rows of the table, row by row. *)
Definition world_tuples (w : World) : list MetaTuple :=
  match delta w with
  | Some tbl => map metadata_tuple (table_rows tbl)
  | None => []
  end.

(** The set of metadata tuples in the table: what [distinct_count] counts. *)
Definition tuple_set (w : World) : gset MetaTuple := list_to_set (world_tuples w).

(** How many of [files] have a name that parses to a tuple of [tuples]. *)
Definition known_files (files : list string) (tuples : gset MetaTuple) : nat :=
  length (filter (λ t, t ∈ tuples) (omap file_tuple files)).

(** No tuple with a null is in the table for a file still to come: when
    the tuple a scan shows for such a file is in the table, it is the tuple
    of the file. *)
Definition no_null_twin (files : list string) (tuples : gset MetaTuple) : Prop :=
  ∀ p t', p ∈ files → file_tuple_read p = Some t' → t' ∈ tuples → file_tuple p = Some t'.

(** A member the profiler's loop passes over: a dataset that is not
    two-dimensional. *)
Definition passed_over (member : string * H5Object) : Prop :=
  ∃ d, member.2 = H5Dataset d ∧ length (shape (ds_data d)) ≠ 2.

End Pipeline.

(** ** The remaining cells of the notebooks *)

Section Notebooks.

Context {num float64 : Type}.
Variable astype_float64 : num → float64.
Variable fs : FileSystem (num := num).

(** The second construction of [h5_files], in the cell before the
    coordinator: two nested loops that append to the list. *)
Definition h5_files_loop (base_dir : string) : list string :=
  foldl (λ h5_files '(root, files),
           foldl (λ h5_files f,
                    if endswith f ".h5" then h5_files ++ [path_join root f] else h5_files)
                 h5_files files)
        [] (os_walk fs base_dir).

(** [df_files['file_path'].nunique()] on the profiler's records. *)
Definition nunique_file_path (df_files : list ProfileRecord) : nat :=
  length (remove_dups (map file_path df_files)).

(** [.groupBy("label").count()]: one pair of a label and a count per
    distinct label, the null label being a group of its own.  Spark does
    not fix the order of the groups; here they come in order of first
    appearance. *)
Fixpoint count_label (lbl : option string) (groups : list (option string * nat))
    : list (option string * nat) :=
  match groups with
  | [] => [(lbl, 1)]
  | (l, n) :: rest =>
      if bool_decide (l = lbl) then (l, S n) :: rest else (l, n) :: count_label lbl rest
  end.

(** The count recorded for a label, 0 when the label has no group. *)
Fixpoint count_for (lbl : option string) (groups : list (option string * nat)) : nat :=
  match groups with
  | [] => 0
  | (l, n) :: rest => if bool_decide (l = lbl) then n else count_for lbl rest
  end.

Definition groupBy_label_count (tuples : list MetaTuple) : list (option string * nat) :=
  foldl (λ groups (t : MetaTuple), count_label t.2 groups) [] tuples.

(** The second query of the verification notebook:
    [select(...).distinct().groupBy("label").count()]. *)
Definition label_counts (tbl : DeltaTable (float64 := float64))
    : list (option string * nat) :=
  groupBy_label_count (remove_dups (map metadata_tuple (table_rows tbl))).

(** *** Vocabulary of the further statements *)

(** The rows a scan of the table at [DELTA_DIR] returns; none without a
    table. *)
Definition world_rows (w : World (float64 := float64)) : list Row :=
  match delta w with
  | Some tbl => table_rows tbl
  | None => []
  end.

(** The lines the handler of [process_file] writes for the failed
    statuses. *)
Definition failure_lines (statuses : list Status) : list string :=
  omap (λ s, match s with
             | Failed path e => Some (path +:+ " | " +:+ str e)
             | _ => None
             end) statuses.

(** The paths of the calls that appended. *)
Definition appended_paths (statuses : list Status) : list string :=
  omap (λ s, match s with
             | Appended path => Some path
             | _ => None
             end) statuses.

(** Two states that agree on the table and on the counters of the worker;
    their logs may differ. *)
Definition same_table_and_counters (w w' : World (float64 := float64)) : Prop :=
  delta w = delta w' ∧ file_count w = file_count w' ∧ cleanups w = cleanups w'.

(** The rows [process_file] builds from the file at [path], when it gets
    that far; they depend on the file and its path only. *)
Definition frame_of (path : string) : list (Row (float64 := float64)) :=
  match parse_filename (basename path) with
  | Return meta =>
      match h5py_File fs path with
      | Return h5f =>
          match read_rows astype_float64 h5f meta (label_of path) with
          | Return rows => rows
          | Raise _ => []
          end
      | Raise _ => []
      end
  | Raise _ => []
  end.

(** These rows as a scan returns them once they are written. *)
Definition batch_of (path : string) : list (Row (float64 := float64)) :=
  map as_read (frame_of path).

(** The existence check of a file can find the rows written for it: the
    values of its three partition columns are not empty. *)
Definition matchable (path : string) : Prop :=
  ∀ meta, parse_filename (basename path) = Return meta →
          partition_values_not_empty meta (label_of path).

(** The name of the file parses and one of the three partition values is
    the empty string. *)
Definition has_empty_partition_value (path : string) : Prop :=
  ∃ meta, parse_filename (basename path) = Return meta ∧
          (meta_machine_id meta = "" ∨ meta_operation meta = "" ∨ label_of path = "").

(** What a call that ends with a given status has done to the state. *)
Definition effect (s : Status) (w : World (float64 := float64)) : World :=
  match s with
  | Failed path e => log_failure (path +:+ " | " +:+ str e) w
  | Skipped path => log_success s w
  | Appended path =>
      match delta w with
      | Some tbl => log_success s (after_write (appended tbl (frame_of path)) w)
      | None => w
      end
  end.

(** Two states with the same content: the same table metadata, the same
    data files and the same log lines up to their order, the same
    counters. *)
Definition same_table (t t' : option (DeltaTable (float64 := float64))) : Prop :=
  match t, t' with
  | None, None => True
  | Some tbl, Some tbl' =>
      dt_schema tbl = dt_schema tbl' ∧
      dt_partitionColumns tbl = dt_partitionColumns tbl' ∧
      table_files tbl ≡ₚ table_files tbl'
  | _, _ => False
  end.

Definition same_content (w w' : World (float64 := float64)) : Prop :=
  same_table (delta w) (delta w') ∧
  SUCCESS_LOG w ≡ₚ SUCCESS_LOG w' ∧
  FAILED_LOG w ≡ₚ FAILED_LOG w' ∧
  file_count w = file_count w' ∧
  cleanups w = cleanups w'.

(** A later state of the table: the same metadata, the rows of before and
    possibly more after them. *)
Definition later_table (t t' : option (DeltaTable (float64 := float64))) : Prop :=
  match t, t' with
  | None, None => True
  | Some tbl, Some tbl' =>
      dt_schema tbl' = dt_schema tbl ∧
      dt_partitionColumns tbl' = dt_partitionColumns tbl ∧
      ∃ more, table_rows tbl' = table_rows tbl ++ more
  | _, _ => False
  end.

(** Once a file is settled, a call for it in any later state appends only
    if the file holds an empty array or has an empty partition value, and
    adds no row if its partition values are not empty. *)
Definition settled (path : string) (t : option (DeltaTable (float64 := float64))) : Prop :=
  ∀ w', later_table t (delta w') →
    (matchable path →
     world_rows (process_file astype_float64 fs path w').1 = world_rows w') ∧
    ((process_file astype_float64 fs path w').2 = Appended path →
     holds_samples fs path 0 ∨ has_empty_partition_value path).

End Notebooks.

(** ** The file name as the specification reads it *)



(** ** A concrete corpus: 64-bit integer samples and IEEE double cells *)

(** The cast of an integer sample to the nearest binary64 value. *)
Definition to_double (n : Z) : SpecFloat.spec_float :=
  SpecFloat.binary_normalize 53 1024 n 0 false.

Definition array_of (rows : list (list Z)) : ndarray :=
  mkArray [length rows; 3]
          (λ idx, match idx with
                  | [i; j] => nth j (nth i rows []) 0%Z
                  | _ => 0%Z
                  end).

(** The first five samples of [M01_Feb_2019_OP00_004.h5]. *)
Definition vibration_rows : list (list Z) :=
  [ [1227; -407; -894]; [1079; -19; -853]; [1100; 314; -860];
    [1323; -68; -1056]; [1389; -491; -1139] ]%Z.

Definition sample_file : H5File :=
  [("vibration_data", H5Dataset (mkDataset (array_of vibration_rows) None))].

(** A file that opens but has no ["vibration_data"]. *)
Definition no_dataset_file : H5File :=
  [("temperature", H5Dataset (mkDataset (array_of vibration_rows) None))].

(** A file whose array has shape (0, 3). *)
Definition zero_row_file : H5File :=
  [("vibration_data", H5Dataset (mkDataset (array_of []) None))].

(** A file whose two-dimensional dataset carries a scalar, not iterable,
    [column_names] attribute. *)
Definition scalar_attr_file : H5File :=
  [("vibration_data", H5Dataset (mkDataset (array_of vibration_rows) (Some AttrScalar)))].

(** A file with a group in front of its dataset. *)
Definition group_first_file : H5File :=
  [("calibration", H5Group);
   ("vibration_data", H5Dataset (mkDataset (array_of vibration_rows) None))].

(** A file whose ["vibration_data"] is a group. *)
Definition group_named_file : H5File (num := Z) :=
  [("vibration_data", H5Group)].

(** A file whose array has two columns. *)
Definition two_column_file : H5File :=
  [("vibration_data",
    H5Dataset (mkDataset (mkArray [5; 2] (item (array_of vibration_rows))) None))].

(** A file system from a listing of directories with their files. *)
Definition mount (disk : list (string * list (string * Result (H5File (num := Z)))))
    : FileSystem :=
  mkFS (λ _, map (λ d, (fst d, map fst (snd d))) disk)
       (λ path,
          let files := concat (map (λ d, map (λ f, (path_join (fst d) (fst f), snd f)) (snd d)) disk) in
          match List.find (λ f, String.eqb (fst f) path) files with
          | Some f => snd f
          | None => Raise (mkExc OSError "Unable to open file")
          end).

Definition good_dir : string := "../data/raw/M01/OP00/good".

Definition file_004 : string := "../data/raw/M01/OP00/good/M01_Feb_2019_OP00_004.h5".

(** A Delta table created with the notebook's schema and partitioning that
    holds no commit yet. *)
Definition empty_table : DeltaTable (float64 := SpecFloat.spec_float) :=
  mkTable schema partitionBy [].

Definition start (t : option (DeltaTable (float64 := SpecFloat.spec_float))) : World :=
  mkWorld t [] [] 0 0.

Definition one_file_fs : FileSystem :=
  mount [(good_dir, [("M01_Feb_2019_OP00_004.h5", Return sample_file)])].

(** A Delta table with the nine columns that was created partitioned by
    year: it rejects the writes of [process_file]. *)
Definition year_partitioned_table : DeltaTable (float64 := SpecFloat.spec_float) :=
  mkTable schema ["year"] [].

(** A directory with a file whose name has three segments and a file that
    h5py cannot open. *)
Definition faulty_fs : FileSystem :=
  mount [(good_dir,
          [("M01_Feb_2019.h5", Return sample_file);
           ("M01_Feb_2019_OP00_004.h5",
            Raise (mkExc OSError "Unable to open file (file signature not found)"))])].

(** Ten files of one directory; the fifth has no ["vibration_data"]. *)
Definition batch_names : list string :=
  [ "M01_Feb_2019_OP00_000.h5"; "M01_Feb_2019_OP00_001.h5"; "M01_Feb_2019_OP00_002.h5";
    "M01_Feb_2019_OP00_003.h5"; "M01_Feb_2019_OP00_004.h5"; "M01_Feb_2019_OP00_005.h5";
    "M01_Feb_2019_OP00_006.h5"; "M01_Feb_2019_OP00_007.h5"; "M01_Feb_2019_OP00_008.h5";
    "M01_Feb_2019_OP00_009.h5" ].

Definition batch_fs : FileSystem :=
  mount [(good_dir,
          map (λ n, (n, if String.eqb n "M01_Feb_2019_OP00_004.h5"
                        then Return no_dataset_file else Return sample_file))
              batch_names)].

Definition batch_files : list string := h5_files batch_fs "../data/raw".

Definition batch_before : list string := take 4 batch_files.

Definition batch_after : list string := drop 5 batch_files.

(** A table left by an earlier run over a corpus that held one other file. *)
Definition earlier_file : string := "../data/raw/M02/OP03/bad/M02_Aug_2019_OP03_000.h5".

Definition earlier_fs : FileSystem :=
  mount [("../data/raw/M02/OP03/bad", [("M02_Aug_2019_OP03_000.h5", Return sample_file)])].

Definition earlier_table : option DeltaTable :=
  delta (run to_double earlier_fs [earlier_file] (start (Some empty_table))).1.

(** The table at the path, the empty one when there is none. *)
Definition the_table (t : option (DeltaTable (float64 := SpecFloat.spec_float)))
    : DeltaTable :=
  match t with
  | Some tbl => tbl
  | None => empty_table
  end.

(** A directory whose files have an empty machine_id in their names. *)
Definition nameless_file : string := "../data/raw/M01/OP00/good/_Feb_2019_OP00_004.h5".

Definition nameless_copy : string := "../data/raw/M01/OP00/good/_Feb_2019_OP00_004_copy.h5".

Definition nameless_fs : FileSystem :=
  mount [(good_dir, [("_Feb_2019_OP00_004.h5", Return sample_file);
                     ("_Feb_2019_OP00_004_copy.h5", Return sample_file)])].

(** A Delta table created with a tenth column next to the nine of the
    notebook. *)
Definition ten_column_table : DeltaTable (float64 := SpecFloat.spec_float) :=
  mkTable (schema ++ [mkField "sensor" StringType true]) partitionBy [].

(** A directory with two files whose names agree on the first five
    segments. *)
Definition twin_fs : FileSystem :=
  mount [(good_dir, [("M01_Feb_2019_OP00_004.h5", Return sample_file);
                     ("M01_Feb_2019_OP00_004_copy.h5", Return sample_file)])].

(** A directory whose only file holds an array of shape (0, 3). *)
Definition zero_row_fs : FileSystem :=
  mount [(good_dir, [("M01_Feb_2019_OP00_004.h5", Return zero_row_file)])].

(** A corpus for the profiler: a regular file, one that cannot be opened,
    one whose [column_names] cannot be listed, one with a leading group. *)
Definition profiler_fs : FileSystem :=
  mount [(good_dir,
          [("M01_Feb_2019_OP00_004.h5", Return sample_file);
           ("M01_Feb_2019_OP00_005.h5", Raise (mkExc OSError "Unable to open file (file signature not found)"));
           ("M01_Feb_2019_OP00_006.h5", Return scalar_attr_file);
           ("M01_Feb_2019_OP00_007.h5", Return group_first_file);
           ("notes.txt", Raise (mkExc OSError "Unable to open file (file signature not found)"))])].

(** A directory with a file whose dataset name holds a group and a file
    whose array has two columns. *)
Definition unreadable_fs : FileSystem :=
  mount [(good_dir, [("M01_Feb_2019_OP00_004.h5", Return group_named_file);
                     ("M01_Feb_2019_OP00_005.h5", Return two_column_file)])].

Definition file_005 : string := "../data/raw/M01/OP00/good/M01_Feb_2019_OP00_005.h5".

Definition file_006 : string := "../data/raw/M01/OP00/good/M01_Feb_2019_OP00_006.h5".

Definition file_007 : string := "../data/raw/M01/OP00/good/M01_Feb_2019_OP00_007.h5".

(** Proof steps for statements about the files of the concrete corpus. *)
Ltac ingestible_here :=
  split;
  [ eexists; vm_compute; reflexivity
  | exists 5, sample_file, (mkDataset (array_of vibration_rows) None);
    repeat split; vm_compute; reflexivity ].

Ltac not_empty_here :=
  intros (h5f & d & Hopen & Hget & Hshape);
  vm_compute in Hopen; injection Hopen as <-;
  vm_compute in Hget; try discriminate Hget; injection Hget as <-;
  vm_compute in Hshape; discriminate Hshape.

Ltac matchable_here :=
  let meta := fresh "meta" in
  let H := fresh "H" in
  intros meta H; vm_compute in H; injection H as <-;
  split; [|split]; by vm_compute.

(** * Facts *)

(** ** Strings and paths *)

Example split_ex : split "_" "M01_Feb_2019_OP00_004" = ["M01"; "Feb"; "2019"; "OP00"; "004"].
Proof. reflexivity. Qed.

Example replace_ex : replace_empty ".h5" "M01_Feb.h5x.h.h5" = "M01_Febx.h".
Proof. reflexivity. Qed.

Example dirname_ex :
  dirname "../data/raw/M01/OP00/good/a.h5" = "../data/raw/M01/OP00/good" ∧
  dirname "//a.h5" = "//" ∧ dirname "a.h5" = "" ∧ dirname "x//a" = "x".
Proof. repeat split; reflexivity. Qed.

Example path_join_ex :
  path_join "../data/raw" "a.h5" = "../data/raw/a.h5" ∧ path_join "r/" "a" = "r/a".
Proof. split; reflexivity. Qed.

Lemma app_cons c (a b : string) : String c a +:+ b = String c (a +:+ b).
Proof. reflexivity. Qed.

Lemma app_empty_l (b : string) : "" +:+ b = b.
Proof. reflexivity. Qed.

Lemma string_app_assoc (a b c : string) : (a +:+ b) +:+ c = a +:+ (b +:+ c).
Proof.
  induction a as [|x a IH]; [done|].
  rewrite !app_cons. by rewrite IH.
Qed.

Lemma app_not_empty a b : b ≠ "" → a +:+ b ≠ "".
Proof. destruct a; [done | discriminate]. Qed.

Lemma has_slash_app a b : has_slash (a +:+ b) = has_slash a || has_slash b.
Proof.
  induction a as [|c a IH]; [done|].
  rewrite app_cons. cbn [has_slash]. rewrite IH. by rewrite orb_assoc.
Qed.

Lemma has_slash_before pre f : has_slash (pre +:+ String slash f) = true.
Proof. rewrite has_slash_app. cbn. by rewrite orb_true_r. Qed.

Lemma has_slash_cons_before c pre f : has_slash (String c (pre +:+ String slash f)) = true.
Proof. apply (has_slash_before (String c pre)). Qed.

Lemma after_last_slash_plain f : has_slash f = false → after_last_slash f = f.
Proof. destruct f as [|c f]; [done|]. intros H. unfold after_last_slash. by rewrite H. Qed.

Lemma after_last_slash_app pre f :
  has_slash f = false → after_last_slash (pre +:+ String slash f) = f.
Proof.
  intros Hf. induction pre as [|c pre IH].
  - rewrite app_empty_l. cbn. by apply after_last_slash_plain.
  - rewrite app_cons. cbn [after_last_slash].
    by rewrite has_slash_cons_before.
Qed.

Lemma upto_last_slash_app pre f :
  has_slash f = false → upto_last_slash (pre +:+ String slash f) = pre +:+ String slash "".
Proof.
  intros Hf. induction pre as [|c pre IH].
  - rewrite !app_empty_l. cbn. destruct f as [|c' f]; [done|].
    cbn [upto_last_slash]. by rewrite Hf.
  - rewrite !app_cons. cbn [upto_last_slash].
    by rewrite has_slash_cons_before, IH.
Qed.

Lemma all_slashes_app a b : all_slashes (a +:+ b) = all_slashes a && all_slashes b.
Proof.
  induction a as [|c a IH]; [done|].
  rewrite app_cons. cbn [all_slashes]. rewrite IH. by rewrite andb_assoc.
Qed.

Lemma no_slash_not_all_slashes d : d ≠ "" → has_slash d = false → all_slashes d = false.
Proof.
  destruct d as [|c d]; [done|]. cbn. intros _ H.
  apply orb_false_iff in H as [-> _]. done.
Qed.

Lemma rstrip_slash_plain d : has_slash d = false → rstrip_slash d = d.
Proof.
  induction d as [|c d IH]; [done|]. cbn [has_slash rstrip_slash]. intros H.
  apply orb_false_iff in H as [Hc Hd]. rewrite IH by done.
  destruct d; [by rewrite Hc | done].
Qed.

Lemma rstrip_slash_keep pre d :
  d ≠ "" → rstrip_slash d = d → rstrip_slash (pre +:+ d) = pre +:+ d.
Proof.
  intros Hne Hd. induction pre as [|c pre IH]; [done|].
  rewrite app_cons. cbn [rstrip_slash]. rewrite IH.
  destruct (pre +:+ d) eqn:E; [|done].
  by apply app_not_empty in E.
Qed.

Lemma rstrip_slash_trailing s : rstrip_slash (s +:+ String slash "") = rstrip_slash s.
Proof.
  induction s as [|c s IH]; [done|].
  rewrite app_cons. cbn [rstrip_slash]. by rewrite IH.
Qed.

(** *** Segments and the extension *)

Lemma length_split sep s : length (split sep s) = S (count_char sep s).
Proof.
  induction s as [|a s IH]; [done|]. cbn [split count_char].
  destruct (Ascii.eqb a sep); cbn [length].
  - by rewrite IH.
  - destruct (split sep s); cbn in *; lia.
Qed.

Lemma prefix_cons_inv old a s :
  old ≠ "" → String.prefix old (String a s) = true →
  ∃ old', old = String a old' ∧ String.prefix old' s = true.
Proof.
  destruct old as [|b old']; [done|]. intros _. cbn.
  destruct (ascii_dec b a) as [->|]; [|done]. intros H. by exists old'.
Qed.

Lemma count_char_drop_occurrences sep old s t :
  old ≠ "" → count_char sep old = 0 →
  String.prefix t s = true → count_char sep t = 0 →
  count_char sep (drop_occurrences old (String.length t) s) = count_char sep s.
Proof.
  intros Hne Hold. revert t. induction s as [|a s IH]; intros t Hpre Ht.
  - by destruct t.
  - destruct t as [|b t].
    + cbn [String.length drop_occurrences].
      destruct (String.prefix old (String a s)) eqn:Hp.
      * destruct (prefix_cons_inv old a s Hne Hp) as (old' & -> & Hp').
        replace (String.length (String a old') - 1) with (String.length old')
          by (cbn [String.length]; lia).
        cbn [count_char] in Hold |- *.
        destruct (Ascii.eqb a sep); [done|]. cbn in Hold |- *.
        by apply IH.
      * cbn [count_char]. f_equal. apply (IH ""); [|done]. by destruct s.
    + cbn in Hpre. destruct (ascii_dec b a) as [->|]; [|done].
      cbn [String.length drop_occurrences count_char] in *.
      destruct (Ascii.eqb a sep); [done|]. cbn in Ht |- *. by apply IH.
Qed.

Lemma count_char_replace_empty sep old s :
  count_char sep old = 0 → count_char sep (replace_empty old s) = count_char sep s.
Proof.
  intros Hold. unfold replace_empty. destruct old as [|b old'] eqn:E; [done|].
  apply (count_char_drop_occurrences sep (String b old') s ""); try done.
  by destruct s.
Qed.

Lemma segments_without_extension filename :
  length (split "_" (replace_empty ".h5" filename)) = length (split "_" filename).
Proof. rewrite !length_split. f_equal. by apply count_char_replace_empty. Qed.

Lemma prefix_String a s1 b s2 :
  String.prefix (String a s1) (String b s2)
  = if ascii_dec a b then String.prefix s1 s2 else false.
Proof. reflexivity. Qed.

Lemma prefix_h5_app stem :
  stem ≠ "" → String.prefix ".h5" stem = false → String.prefix ".h5" (stem +:+ ".h5") = false.
Proof.
  destruct stem as [|c1 [|c2 [|c3 s]]]; [done|..]; intros _ H;
    rewrite ?app_cons, ?app_empty_l; rewrite ?prefix_String in *;
    repeat destruct (ascii_dec _ _); try reflexivity; try done.
  by destruct s.
Qed.

Lemma replace_extension stem :
  occurs ".h5" stem = false → replace_empty ".h5" (stem +:+ ".h5") = stem.
Proof.
  unfold replace_empty. induction stem as [|c stem IH]; [done|].
  cbn [occurs]. intros [Hp Ho]%orb_false_iff.
  change (String c stem +:+ ".h5") with (String c (stem +:+ ".h5")).
  cbn [drop_occurrences].
  change (String c (stem +:+ ".h5")) with (String c stem +:+ ".h5").
  rewrite prefix_h5_app by done.
  f_equal. by apply IH.
Qed.

Example replace_inner_occurrence :
  replace_empty ".h5" "M01.h5_Feb_2019_OP00_004.h5" = "M01_Feb_2019_OP00_004".
Proof. reflexivity. Qed.


(** *** The stem of the specification *)




(** *** Segments as pieces of the string *)


Lemma split_no_sep sep a : count_char sep a = 0 → split sep a = [a].
Proof.
  induction a as [|c a IH]; [done|]. cbn [count_char split].
  destruct (Ascii.eqb c sep); [done|]. intros H. by rewrite IH.
Qed.

Lemma split_app_sep sep a b :
  count_char sep a = 0 → split sep (a +:+ String sep b) = a :: split sep b.
Proof.
  induction a as [|c a IH].
  - intros _. rewrite app_empty_l. cbn [split]. by rewrite Ascii.eqb_refl.
  - rewrite app_cons. cbn [count_char split].
    destruct (Ascii.eqb c sep); [done|]. intros H. by rewrite IH.
Qed.

Lemma sep_app (a b : string) : a +:+ "_" +:+ b = a +:+ String "_" b.
Proof. reflexivity. Qed.




(** The base name and the label of [pre/d/f]. *)
Lemma basename_in_dir pre f :
  has_slash f = false → basename (pre +:+ String slash f) = f.
Proof. apply after_last_slash_app. Qed.

Lemma dirname_in_dir pre d f :
  d ≠ "" → has_slash d = false → has_slash f = false →
  dirname (pre +:+ String slash (d +:+ String slash f)) = pre +:+ String slash d.
Proof.
  intros Hne Hd Hf. unfold dirname.
  replace (pre +:+ String slash (d +:+ String slash f))
    with ((pre +:+ String slash d) +:+ String slash f)
    by (by rewrite string_app_assoc).
  rewrite upto_last_slash_app by done.
  assert (Hhead : (pre +:+ String slash d) +:+ String slash "" ≠ "")
    by (by apply app_not_empty).
  apply String.eqb_neq in Hhead. rewrite Hhead.
  rewrite !all_slashes_app. cbn [all_slashes].
  rewrite (no_slash_not_all_slashes d) by done.
  rewrite !andb_false_r. cbn [negb andb].
  rewrite rstrip_slash_trailing.
  change (String slash d) with (String slash "" +:+ d).
  rewrite <- string_app_assoc.
  apply rstrip_slash_keep; [done|]. by apply rstrip_slash_plain.
Qed.

Lemma label_in_dir pre d f :
  d ≠ "" → has_slash d = false → has_slash f = false →
  label_of (pre +:+ String slash (d +:+ String slash f)) = d.
Proof.
  intros. unfold label_of. rewrite dirname_in_dir by done.
  by apply basename_in_dir.
Qed.

(** ** The Delta table under the worker's writes *)

Section DeltaFacts.

Context {float64 : Type}.

Implicit Types (tbl : DeltaTable (float64 := float64)) (r : Row (float64 := float64)).
Implicit Types (rows : list (Row (float64 := float64))).
Implicit Types (meta : Meta) (lbl : string).

Lemma col_eq_true cell value : col_eq cell value = true ↔ cell = Some value.
Proof.
  destruct cell as [s|]; cbn; [|done]. rewrite String.eqb_eq.
  split; [by intros -> | by intros [= ->]].
Qed.

(** The existence check keeps exactly the rows whose six cells are the six
    values of the file; a row with a null among them is not kept. *)
Lemma matches_tuple meta lbl r :
  matches meta lbl r = true ↔ metadata_tuple r = tuple_of meta lbl.
Proof.
  unfold matches, metadata_tuple, tuple_of.
  rewrite !andb_true_iff, !col_eq_true. split.
  - intros [[[[[-> ->] ->] ->] ->] ->]. done.
  - intros [= -> -> -> -> -> ->]. done.
Qed.

(** *** Reading back *)

Lemma partition_value_read_not_empty s : s ≠ "" → partition_value_read (Some s) = Some s.
Proof. by destruct s. Qed.

Lemma partition_value_read_Some v s : partition_value_read v = Some s → v = Some s ∧ s ≠ "".
Proof. destruct v as [[|c v]|]; cbn; try done. by intros [= <-]. Qed.

Lemma partition_value_read_inj s s' :
  partition_value_read (Some s) = partition_value_read (Some s') → s = s'.
Proof. destruct s, s'; cbn; try done. by intros [= -> ->]. Qed.

Lemma tuple_read_not_empty meta lbl :
  partition_values_not_empty meta lbl → tuple_read meta lbl = tuple_of meta lbl.
Proof.
  intros (H1 & H2 & H3). unfold tuple_read, tuple_of.
  by rewrite !partition_value_read_not_empty.
Qed.

Lemma tuple_read_tuple_of meta lbl meta' lbl' :
  tuple_read meta lbl = tuple_of meta' lbl' →
  meta = meta' ∧ lbl = lbl' ∧ partition_values_not_empty meta lbl.
Proof.
  destruct meta as [m mo y op ex], meta' as [m' mo' y' op' ex'].
  unfold tuple_read, tuple_of, partition_values_not_empty.
  cbn [meta_machine_id meta_month meta_year meta_operation meta_example_no].
  destruct m, op, lbl; cbn [partition_value_read]; intros H; simplify_eq; by repeat split.
Qed.

Lemma tuple_read_inj meta lbl meta' lbl' :
  tuple_read meta lbl = tuple_read meta' lbl' → meta = meta' ∧ lbl = lbl'.
Proof.
  destruct meta as [m mo y op ex], meta' as [m' mo' y' op' ex'].
  unfold tuple_read.
  cbn [meta_machine_id meta_month meta_year meta_operation meta_example_no].
  intros H.
  assert (partition_value_read (Some m) = partition_value_read (Some m') ∧ mo = mo' ∧
          y = y' ∧ partition_value_read (Some op) = partition_value_read (Some op') ∧
          ex = ex' ∧ partition_value_read (Some lbl) = partition_value_read (Some lbl'))
    as (?%partition_value_read_inj & ? & ? & ?%partition_value_read_inj & ?
        & ?%partition_value_read_inj)
    by (repeat split; congruence).
  by subst.
Qed.

Lemma tuple_of_inj meta lbl meta' lbl' :
  tuple_of meta lbl = tuple_of meta' lbl' → meta = meta' ∧ lbl = lbl'.
Proof. destruct meta, meta'. unfold tuple_of. cbn. by intros [= -> -> -> -> -> ->]. Qed.

(** A row with the three partition columns of the worker is read back with
    these three cells passed through [partition_value_read]. *)
Lemma as_read_row (r : Row (float64 := float64)) :
  as_read r
  = mkRow (x r) (y r) (z r) (partition_value_read (machine_id r)) (month r) (year r)
          (partition_value_read (operation r)) (example_no r)
          (partition_value_read (label r)).
Proof. reflexivity. Qed.

Lemma metadata_tuple_as_read (r : Row (float64 := float64)) meta lbl :
  metadata_tuple r = tuple_of meta lbl → metadata_tuple (as_read r) = tuple_read meta lbl.
Proof.
  rewrite as_read_row. unfold metadata_tuple, tuple_of, tuple_read.
  cbn [machine_id month year operation example_no label].
  by intros [= -> -> -> -> -> ->].
Qed.

Lemma as_read_not_empty (r : Row (float64 := float64)) meta lbl :
  metadata_tuple r = tuple_of meta lbl →
  partition_values_not_empty meta lbl → as_read r = r.
Proof.
  intros Ht (H1 & H2 & H3). rewrite as_read_row. destruct r.
  unfold metadata_tuple, tuple_of in Ht.
  cbn [x y z machine_id month year operation example_no label] in *.
  injection Ht as -> -> -> -> -> ->.
  by rewrite !partition_value_read_not_empty.
Qed.

Lemma exists_in_matching tbl meta lbl :
  exists_in tbl meta lbl = true ↔ matching_rows tbl meta lbl ≠ [].
Proof.
  unfold exists_in, matching_rows. rewrite bool_decide_eq_true.
  destruct (List.filter _ _); cbn; split; intros; try done; lia.
Qed.

Lemma exists_in_tuple tbl meta lbl :
  exists_in tbl meta lbl = true ↔
  tuple_of meta lbl ∈ map metadata_tuple (table_rows tbl).
Proof.
  rewrite exists_in_matching. unfold matching_rows. rewrite list_elem_of_fmap. split.
  - intros Hne. destruct (List.filter _ _) as [|r l] eqn:E; [done|].
    assert (In r (List.filter (matches meta lbl) (table_rows tbl))) as Hin
      by (rewrite E; by left).
    apply filter_In in Hin as [Hin Hm]. exists r. split.
    + symmetry. by apply matches_tuple.
    + by apply list_elem_of_In.
  - intros (r & Heq & Hin) Hnil.
    assert (In r (List.filter (matches meta lbl) (table_rows tbl))) as Hin'.
    { apply filter_In. split; [by apply list_elem_of_In|]. by apply matches_tuple. }
    by rewrite Hnil in Hin'.
Qed.

Lemma exists_in_false_matching tbl meta lbl :
  exists_in tbl meta lbl = false ↔ matching_rows tbl meta lbl = [].
Proof.
  destruct (exists_in tbl meta lbl) eqn:E.
  - apply exists_in_matching in E. split; [done|]. intros; done.
  - split; [|done]. intros _.
    destruct (matching_rows tbl meta lbl) eqn:E'; [done|].
    assert (exists_in tbl meta lbl = true) as E''
      by (apply exists_in_matching; by rewrite E').
    congruence.
Qed.

(** *** The data files of one write *)

Lemma write_files_into k rows (acc : list (Row (float64 := float64))) cols :
  Forall (λ r, partition_key cols r = k) rows →
  foldl (λ gs r, add_to_group (partition_key cols r) r gs) [mkAddFile k acc] rows
  = [mkAddFile k (acc ++ rows)].
Proof.
  intros H. revert acc. induction H as [|r rows Hr _ IH]; intros acc.
  - by rewrite app_nil_r.
  - cbn [foldl add_to_group partitionValues file_rows]. rewrite Hr.
    rewrite decide_True by done. rewrite IH. by rewrite <- app_assoc.
Qed.

(** A batch whose rows agree on the partition columns goes to one data file
    of their partition directory; an empty batch writes no file. *)
Lemma write_files_same_key cols k rows :
  Forall (λ r, partition_key cols r = k) rows →
  write_files cols rows = match rows with [] => [] | _ => [mkAddFile k rows] end.
Proof.
  destruct rows as [|r rows]; [done|].
  intros H. apply Forall_cons in H as [Hr H].
  unfold write_files. cbn [foldl add_to_group]. rewrite Hr.
  by rewrite (write_files_into k rows [r] cols H).
Qed.

Lemma partition_key_worker r :
  partition_key partitionBy r
  = [("machine_id", machine_id r); ("operation", operation r); ("label", label r)].
Proof. reflexivity. Qed.

(** What a scan returns from the data files of such a batch. *)
Lemma rows_of_write_files_same_key cols k rows :
  Forall (λ r, partition_key cols r = k) rows →
  concat (map read_file (write_files cols rows)) = map (read_row k) rows.
Proof.
  intros H. rewrite (write_files_same_key cols k rows H).
  destruct rows; [done|]. cbn [map concat]. by rewrite app_nil_r.
Qed.

(** *** Appending to an existing table *)

Lemma partition_columns_in_schema :
  forallb (λ c, existsb (λ f, String.eqb (name f) c) schema) partitionBy = true.
Proof. reflexivity. Qed.

Lemma delta_append_existing tbl rows tbl' :
  delta_append schema partitionBy rows (Some tbl) = Return tbl' ↔
  accepts_worker_writes tbl = true ∧ tbl' = appended tbl rows.
Proof.
  unfold delta_append, accepts_worker_writes. rewrite partition_columns_in_schema.
  cbn [negb]. destruct (forallb (field_accepted (dt_schema tbl)) schema); cbn [negb andb].
  2: { split; [done | by intros [? _]]. }
  destruct (bool_decide (partitionBy = dt_partitionColumns tbl)); cbn [negb].
  - split; [intros [= <-]; done | intros [_ ->]; done].
  - split; [done | by intros [? _]].
Qed.

Lemma delta_append_rejected tbl rows :
  accepts_worker_writes tbl = false →
  raises (delta_append schema partitionBy rows (Some tbl)).
Proof.
  intros H. destruct (delta_append schema partitionBy rows (Some tbl)) as [tbl'|e] eqn:E.
  - apply delta_append_existing in E as [E _]. congruence.
  - by exists e.
Qed.

Lemma delta_append_create rows :
  delta_append schema partitionBy rows None
  = Return (mkTable schema partitionBy [write_files partitionBy rows]).
Proof. reflexivity. Qed.

Lemma table_files_appended tbl rows :
  table_files (appended tbl rows) = table_files tbl ++ write_files partitionBy rows.
Proof.
  unfold table_files, appended. cbn [dt_log]. rewrite concat_app. cbn.
  by rewrite app_nil_r.
Qed.

(** After the write a scan returns the rows of before, then the batch as
    it is read back. *)
Lemma table_rows_appended tbl rows k :
  Forall (λ r, partition_key partitionBy r = k) rows →
  table_rows (appended tbl rows) = table_rows tbl ++ map as_read rows.
Proof.
  intros H. unfold table_rows. rewrite table_files_appended, map_app, concat_app.
  rewrite (rows_of_write_files_same_key _ k) by done. f_equal.
  apply map_ext_Forall. eapply Forall_impl; [exact H|].
  intros r Hr. cbv beta in Hr. unfold as_read. by rewrite Hr.
Qed.

Lemma table_rows_appended_nil tbl :
  table_rows (appended tbl []) = table_rows tbl.
Proof.
  rewrite (table_rows_appended tbl [] []) by constructor. apply app_nil_r.
Qed.

End DeltaFacts.

(** ** The ingestion worker *)

Lemma bind_Return {A B} (f : A → Result B) a : (Return a ≫= f) = f a.
Proof. reflexivity. Qed.

Lemma bind_Raise {A B} (f : A → Result B) e : (Raise e ≫= f) = Raise (A := B) e.
Proof. reflexivity. Qed.

Section WorkerFacts.

Context {num float64 : Type}.
Variable astype_float64 : num → float64.
Variable fs : FileSystem (num := num).

Implicit Types (w : World (float64 := float64)) (tbl : DeltaTable (float64 := float64)).
Implicit Types (path : string) (e : PyException).

Lemma delta_load_Return w tbl : delta_load (delta w) = Return tbl ↔ delta w = Some tbl.
Proof. unfold delta_load. destruct (delta w); split; intros; simplify_eq; done. Qed.

(** An exception of the body, wherever it comes from, is what the handler
    sees. *)
Lemma raised_at_body path w stage e :
  raised_at astype_float64 fs path w stage e →
  try_process_file astype_float64 fs path w = Raise e.
Proof.
  destruct 1 as [e H1 | meta e H1 H2 | meta tbl e H1 H2 H3 H4
                | meta tbl h5f e H1 H2 H3 H4 H5
                | meta tbl h5f rows e H1 H2 H3 H4 H5 H6];
    unfold try_process_file, label_of in *;
    repeat first [ rewrite H1 | rewrite H2 | rewrite H3 | rewrite H4
                 | rewrite H5 | rewrite H6 | rewrite bind_Return | rewrite bind_Raise ];
    reflexivity.
Qed.

Lemma process_file_raised path w stage e :
  raised_at astype_float64 fs path w stage e →
  process_file astype_float64 fs path w
  = (log_failure (path +:+ " | " +:+ str e) w, Failed path e).
Proof.
  intros H. unfold process_file. by rewrite (raised_at_body _ _ _ _ H).
Qed.

(** Every call of [process_file] is one of the three steps. *)
Lemma process_file_step path w :
  worker_step astype_float64 fs path w
    (process_file astype_float64 fs path w).1 (process_file astype_float64 fs path w).2.
Proof.
  destruct (parse_filename (basename path)) as [meta|e] eqn:H1.
  2: { assert (raised_at astype_float64 fs path w Parsing e) as Hr by by constructor.
       rewrite (process_file_raised _ _ _ _ Hr). by eapply step_failed. }
  destruct (delta_load (delta w)) as [tbl|e] eqn:H2.
  2: { assert (raised_at astype_float64 fs path w ExistenceCheck e) as Hr
         by by econstructor.
       rewrite (process_file_raised _ _ _ _ Hr). by eapply step_failed. }
  pose proof H2 as H2'. apply delta_load_Return in H2'.
  destruct (exists_in tbl meta (label_of path)) eqn:H3.
  { unfold process_file, try_process_file.
    fold (label_of path). rewrite H1, bind_Return, H2, bind_Return, H3.
    by eapply step_skipped. }
  destruct (h5py_File fs path) as [h5f|e] eqn:H4.
  2: { assert (raised_at astype_float64 fs path w Reading e) as Hr
         by by eapply raised_opening.
       rewrite (process_file_raised _ _ _ _ Hr). by eapply step_failed. }
  destruct (read_rows astype_float64 h5f meta (label_of path)) as [rows|e] eqn:H5.
  2: { assert (raised_at astype_float64 fs path w Reading e) as Hr
         by by eapply raised_reading.
       rewrite (process_file_raised _ _ _ _ Hr). by eapply step_failed. }
  destruct (delta_append schema partitionBy rows (delta w)) as [tbl'|e] eqn:H6.
  2: { assert (raised_at astype_float64 fs path w Appending e) as Hr
         by by eapply raised_appending.
       rewrite (process_file_raised _ _ _ _ Hr). by eapply step_failed. }
  unfold process_file, try_process_file.
  fold (label_of path).
  rewrite H1, bind_Return, H2, bind_Return, H3, H4, bind_Return, H5, bind_Return,
    H6, bind_Return.
  rewrite H2' in H6. by eapply step_appended.
Qed.

Lemma process_file_inv path w w' s :
  process_file astype_float64 fs path w = (w', s) →
  worker_step astype_float64 fs path w w' s.
Proof. intros H. pose proof (process_file_step path w) as Hs. by rewrite H in Hs. Qed.

(** *** Reading a source file *)

Lemma h5_getitem_contains (h5f : H5File (num := num)) key obj :
  h5_getitem h5f key = Return obj → h5_contains h5f key = true.
Proof.
  induction h5f as [|[k o] rest IH]; [done|]. cbn.
  destruct (String.eqb k key); [done|]. by rewrite orb_false_l.
Qed.

Lemma h5_contains_getitem (h5f : H5File (num := num)) key :
  h5_contains h5f key = true → ∃ obj, h5_getitem h5f key = Return obj.
Proof.
  induction h5f as [|[k o] rest IH]; [done|]. cbn.
  destruct (String.eqb k key); [by eauto|]. by rewrite orb_false_l.
Qed.

Lemma read_rows_samples (h5f : H5File (num := num)) d n meta lbl :
  h5_getitem h5f "vibration_data" = Return (H5Dataset d) →
  shape (ds_data d) = [n; 3] →
  read_rows astype_float64 h5f meta lbl
  = Return (with_metadata astype_float64 meta lbl (samples (ds_data d) n)).
Proof.
  intros Hget Hshape. unfold read_rows.
  rewrite (h5_getitem_contains _ _ _ Hget). cbn [negb].
  rewrite Hget, bind_Return. cbn [read_all]. rewrite bind_Return.
  unfold pd_DataFrame. rewrite Hshape. by rewrite bind_Return.
Qed.

Lemma read_rows_missing (h5f : H5File (num := num)) meta lbl :
  h5_contains h5f "vibration_data" = false →
  read_rows astype_float64 h5f meta lbl = Raise (mkExc ValueError "Missing 'vibration_data'").
Proof. intros H. unfold read_rows. by rewrite H. Qed.

(** Whatever [read_rows] returns is a frame with the metadata on every row. *)
Lemma read_rows_with_metadata (h5f : H5File (num := num)) meta lbl rows :
  read_rows astype_float64 h5f meta lbl = Return rows →
  ∃ df_pd, rows = with_metadata astype_float64 meta lbl df_pd.
Proof.
  unfold read_rows. destruct (negb _); [done|].
  destruct (h5_getitem h5f "vibration_data") as [obj|]; [|done].
  rewrite bind_Return. destruct (read_all obj) as [data|]; [|done].
  rewrite bind_Return. destruct (pd_DataFrame data) as [df|]; [|done].
  rewrite bind_Return. intros [= <-]. by exists df.
Qed.

Lemma length_with_metadata meta lbl (df_pd : list (num * num * num)) :
  length (with_metadata astype_float64 meta lbl df_pd) = length df_pd.
Proof. unfold with_metadata. by rewrite length_map. Qed.

Lemma length_samples (data : ndarray (num := num)) n : length (samples data n) = n.
Proof. unfold samples. by rewrite length_map, length_seq. Qed.

Lemma with_metadata_tuple meta lbl (df_pd : list (num * num * num)) r :
  r ∈ with_metadata astype_float64 meta lbl df_pd →
  metadata_tuple r = tuple_of meta lbl.
Proof.
  unfold with_metadata. intros ([[a b] c] & -> & _)%list_elem_of_fmap. done.
Qed.

End WorkerFacts.

(** ** What one call of the worker does *)

Section WorkerOutcomes.

Context {num float64 : Type}.
Variable astype_float64 : num → float64.
Variable fs : FileSystem (num := num).

Implicit Types (w : World (float64 := float64)) (tbl : DeltaTable (float64 := float64)).
Implicit Types (path : string) (e : PyException) (meta : Meta).

Lemma worker_rows_key meta lbl (df_pd : list (num * num * num)) :
  Forall (λ r, partition_key partitionBy r
               = partition_dir (meta_machine_id meta) (meta_operation meta) lbl)
         (with_metadata astype_float64 meta lbl df_pd).
Proof.
  apply Forall_forall. intros r Hr. unfold with_metadata in Hr.
  apply list_elem_of_fmap in Hr as ([[a b] c] & -> & _). reflexivity.
Qed.

Lemma worker_rows_match meta lbl (df_pd : list (num * num * num)) :
  Forall (λ r, matches meta lbl r = true) (with_metadata astype_float64 meta lbl df_pd).
Proof.
  apply Forall_forall. intros r Hr. apply matches_tuple.
  by eapply with_metadata_tuple.
Qed.

Lemma filter_all_true {A} (f : A → bool) l :
  Forall (λ a, f a = true) l → List.filter f l = l.
Proof.
  induction 1 as [|a l Ha _ IH]; [done|]. cbn. by rewrite Ha, IH.
Qed.

Lemma filter_all_false {A} (f : A → bool) l :
  Forall (λ a, f a = false) l → List.filter f l = [].
Proof. induction 1 as [|a l Ha _ IH]; [done|]. cbn. by rewrite Ha. Qed.

(** The rows of the worker as a scan returns them: the tuple they show. *)
Lemma worker_rows_read meta lbl (df_pd : list (num * num * num)) :
  Forall (λ r, metadata_tuple r = tuple_read meta lbl)
         (map as_read (with_metadata astype_float64 meta lbl df_pd)).
Proof.
  apply Forall_forall. intros r (r0 & -> & Hr0)%list_elem_of_fmap.
  apply metadata_tuple_as_read. by eapply with_metadata_tuple.
Qed.

(** With no empty partition value the rows are read back as written. *)
Lemma worker_rows_as_written meta lbl (df_pd : list (num * num * num)) :
  partition_values_not_empty meta lbl →
  map as_read (with_metadata astype_float64 meta lbl df_pd)
  = with_metadata astype_float64 meta lbl df_pd.
Proof.
  intros Hne. rewrite <- (map_id (with_metadata _ _ _ _)) at 2.
  apply map_ext_Forall, Forall_forall. intros r Hr.
  eapply as_read_not_empty; [|done]. by eapply with_metadata_tuple.
Qed.

Lemma table_rows_worker tbl meta lbl (df_pd : list (num * num * num)) :
  table_rows (appended tbl (with_metadata astype_float64 meta lbl df_pd))
  = table_rows tbl ++ map as_read (with_metadata astype_float64 meta lbl df_pd).
Proof. apply (table_rows_appended _ _ _ (worker_rows_key meta lbl df_pd)). Qed.

(** The rows that the existence check of a file looks at are those with
    the tuple of the file. *)
Lemma matching_rows_tuple tbl meta lbl :
  matching_rows tbl meta lbl = rows_with_tuple (tuple_of meta lbl) tbl.
Proof.
  unfold matching_rows, rows_with_tuple.
  induction (table_rows tbl) as [|r rows IH]; [done|]. cbn [List.filter].
  destruct (matches meta lbl r) eqn:Hm.
  - rewrite filter_cons_True by by apply matches_tuple. by rewrite IH.
  - rewrite filter_cons_False; [done|]. intros Ht%matches_tuple. congruence.
Qed.

(** After the worker's write the rows with a given tuple are those of
    before, then the batch as it is read back if it shows this tuple. *)
Lemma rows_with_tuple_appended t tbl meta lbl (df_pd : list (num * num * num)) :
  rows_with_tuple t (appended tbl (with_metadata astype_float64 meta lbl df_pd))
  = rows_with_tuple t tbl
    ++ (if decide (t = tuple_read meta lbl)
        then map as_read (with_metadata astype_float64 meta lbl df_pd) else []).
Proof.
  unfold rows_with_tuple. rewrite table_rows_worker, filter_app. f_equal.
  pose proof (worker_rows_read meta lbl df_pd) as Hread.
  induction Hread as [|r rows Hr _ IH]; [by destruct (decide _)|].
  destruct (decide (t = tuple_read meta lbl)) as [->|Hne].
  - rewrite filter_cons_True by done. by rewrite IH.
  - rewrite filter_cons_False by congruence. done.
Qed.

(** After the worker's write for a file without empty partition value the
    rows matching the file are the ones that matched before, then the
    batch. *)
Lemma matching_rows_appended tbl meta lbl (df_pd : list (num * num * num)) :
  partition_values_not_empty meta lbl →
  matching_rows (appended tbl (with_metadata astype_float64 meta lbl df_pd)) meta lbl
  = matching_rows tbl meta lbl ++ with_metadata astype_float64 meta lbl df_pd.
Proof.
  intros Hne. rewrite !matching_rows_tuple, rows_with_tuple_appended.
  rewrite (tuple_read_not_empty _ _ Hne), decide_True by done.
  by rewrite worker_rows_as_written.
Qed.

(** A batch written for a file with another tuple, or with an empty
    partition value, adds nothing to the rows that the existence check of a
    file looks at. *)
Lemma matching_rows_other tbl meta lbl meta' lbl' (df_pd : list (num * num * num)) :
  tuple_read meta' lbl' ≠ tuple_of meta lbl →
  matching_rows (appended tbl (with_metadata astype_float64 meta' lbl' df_pd)) meta lbl
  = matching_rows tbl meta lbl.
Proof.
  intros Hne. rewrite !matching_rows_tuple, rows_with_tuple_appended.
  rewrite decide_False by done. apply app_nil_r.
Qed.

Lemma exists_in_other tbl meta lbl meta' lbl' (df_pd : list (num * num * num)) :
  tuple_read meta' lbl' ≠ tuple_of meta lbl →
  exists_in (appended tbl (with_metadata astype_float64 meta' lbl' df_pd)) meta lbl
  = exists_in tbl meta lbl.
Proof.
  intros Hne. unfold exists_in.
  fold (matching_rows tbl meta lbl).
  fold (matching_rows (appended tbl (with_metadata astype_float64 meta' lbl' df_pd)) meta lbl).
  by rewrite matching_rows_other.
Qed.

Lemma process_file_skipped path w meta tbl :
  parse_filename (basename path) = Return meta →
  delta w = Some tbl →
  exists_in tbl meta (label_of path) = true →
  process_file astype_float64 fs path w = (log_success (Skipped path) w, Skipped path).
Proof.
  intros H1 H2 H3. unfold process_file, try_process_file. fold (label_of path).
  rewrite H1, bind_Return, H2. cbn [delta_load]. by rewrite bind_Return, H3.
Qed.

Lemma process_file_appended path w meta tbl h5f rows :
  parse_filename (basename path) = Return meta →
  delta w = Some tbl →
  accepts_worker_writes tbl = true →
  exists_in tbl meta (label_of path) = false →
  h5py_File fs path = Return h5f →
  read_rows astype_float64 h5f meta (label_of path) = Return rows →
  process_file astype_float64 fs path w
  = (log_success (Appended path) (after_write (appended tbl rows) w), Appended path).
Proof.
  intros H1 H2 Hacc H3 H4 H5. unfold process_file, try_process_file. fold (label_of path).
  rewrite H1, bind_Return, H2. cbn [delta_load].
  rewrite bind_Return, H3, H4, bind_Return, H5, bind_Return.
  assert (delta_append schema partitionBy rows (Some tbl) = Return (appended tbl rows)) as ->
    by by apply delta_append_existing.
  by rewrite bind_Return.
Qed.

Lemma missing_dataset_raised path w meta tbl h5f :
  parse_filename (basename path) = Return meta →
  delta w = Some tbl →
  exists_in tbl meta (label_of path) = false →
  h5py_File fs path = Return h5f →
  h5_contains h5f "vibration_data" = false →
  raised_at astype_float64 fs path w Reading (mkExc ValueError "Missing 'vibration_data'").
Proof.
  intros H1 H2 H3 H4 H5. eapply raised_reading; try done.
  - by apply delta_load_Return.
  - by apply read_rows_missing.
Qed.

(** *** Reading what a status says about the step *)

Lemma step_Appended_inv path w w' :
  worker_step astype_float64 fs path w w' (Appended path) →
  ∃ meta tbl h5f rows,
    parse_filename (basename path) = Return meta ∧
    delta w = Some tbl ∧
    accepts_worker_writes tbl = true ∧
    exists_in tbl meta (label_of path) = false ∧
    h5py_File fs path = Return h5f ∧
    read_rows astype_float64 h5f meta (label_of path) = Return rows ∧
    w' = log_success (Appended path) (after_write (appended tbl rows) w).
Proof.
  inversion 1 as [| |meta tbl h5f rows tbl' H1 H2 H3 H4 H5 H6]; subst.
  apply delta_append_existing in H6 as [Hacc ->].
  by exists meta, tbl, h5f, rows.
Qed.

Lemma step_Skipped_inv path w w' :
  worker_step astype_float64 fs path w w' (Skipped path) →
  ∃ meta tbl,
    parse_filename (basename path) = Return meta ∧
    delta w = Some tbl ∧
    exists_in tbl meta (label_of path) = true ∧
    w' = log_success (Skipped path) w.
Proof.
  inversion 1 as [|meta tbl H1 H2 H3|]; subst. by exists meta, tbl.
Qed.

Lemma step_Failed_inv path w w' e :
  worker_step astype_float64 fs path w w' (Failed path e) →
  (∃ stage, raised_at astype_float64 fs path w stage e) ∧
  w' = log_failure (path +:+ " | " +:+ str e) w.
Proof.
  inversion 1 as [stage e' Hr| |]; subst. split; [by exists stage | done].
Qed.

(** The status names the file it was computed for. *)
Lemma step_status_path path w w' s :
  worker_step astype_float64 fs path w w' s →
  s = Appended path ∨ s = Skipped path ∨ ∃ e, s = Failed path e.
Proof. destruct 1; eauto. Qed.

End WorkerOutcomes.

(** ** Claims about a single file *)

Section SingleFile.

Context {num float64 : Type}.
Variable astype_float64 : num → float64.
Variable fs : FileSystem (num := num).

Implicit Types (w : World (float64 := float64)) (tbl : DeltaTable (float64 := float64)).
Implicit Types (path : string) (e : PyException) (meta : Meta).

Lemma rows_with_tuple_none t tbl :
  t ∉ map metadata_tuple (table_rows tbl) → rows_with_tuple t tbl = [].
Proof.
  unfold rows_with_tuple. induction (table_rows tbl) as [|r rows IH]; [done|].
  cbn [map]. intros [Hne Hin]%not_elem_of_cons.
  rewrite filter_cons_False by congruence. by apply IH.
Qed.

Lemma exists_in_false_tuple tbl meta lbl :
  exists_in tbl meta lbl = false ↔
  tuple_of meta lbl ∉ map metadata_tuple (table_rows tbl).
Proof.
  rewrite <- exists_in_tuple. by destruct (exists_in tbl meta lbl).
Qed.

(** What the call does for a file that can be read, on a table that takes
    the write and has no row with the six values of the file. *)
Lemma process_file_fresh path w tbl meta h5f d n :
  parse_filename (basename path) = Return meta →
  h5py_File fs path = Return h5f →
  h5_getitem h5f "vibration_data" = Return (H5Dataset d) →
  shape (ds_data d) = [n; 3] →
  delta w = Some tbl →
  accepts_worker_writes tbl = true →
  tuple_of meta (label_of path) ∉ map metadata_tuple (table_rows tbl) →
  let rows := with_metadata astype_float64 meta (label_of path) (samples (ds_data d) n) in
  process_file astype_float64 fs path w
  = (log_success (Appended path) (after_write (appended tbl rows) w), Appended path) ∧
  table_rows (appended tbl rows) = table_rows tbl ++ map as_read rows ∧
  length rows = n.
Proof.
  intros Hparse Hopen Hget Hshape Hw Hacc Hnew rows. split; [|split].
  - eapply process_file_appended; try done.
    + by apply exists_in_false_tuple.
    + by apply read_rows_samples.
  - apply table_rows_worker.
  - unfold rows. by rewrite length_with_metadata, length_samples.
Qed.

(** C1 (idempotency, as the code has it).  Take a source file whose name
    parses, whose machine_id, operation and label are not empty and which
    holds [n] > 0 samples, and a table that takes the worker's writes and
    has no row with the six values of the file.  The first call of
    [process_file] appends: the table has the rows of before, then the [n]
    rows of the file, all with the tuple of the file.  The second call, run
    on the resulting state, returns the skip status, writes the skip to the
    success log and leaves the table as it is, so the rows of the table
    with the tuple of the file are exactly the one batch of the first
    call. *)
Theorem ingest_twice_appends_once path w tbl meta n :
  parse_filename (basename path) = Return meta →
  partition_values_not_empty meta (label_of path) →
  holds_samples fs path n →
  0 < n →
  delta w = Some tbl →
  accepts_worker_writes tbl = true →
  tuple_of meta (label_of path) ∉ map metadata_tuple (table_rows tbl) →
  let r1 := process_file astype_float64 fs path w in
  let r2 := process_file astype_float64 fs path r1.1 in
  r1.2 = Appended path ∧
  r2.2 = Skipped path ∧
  ∃ tbl1 rows,
    delta r1.1 = Some tbl1 ∧
    table_rows tbl1 = table_rows tbl ++ rows ∧
    length rows = n ∧
    Forall (λ r, metadata_tuple r = tuple_of meta (label_of path)) rows ∧
    rows_with_tuple (tuple_of meta (label_of path)) tbl1 = rows ∧
    delta r2.1 = Some tbl1 ∧
    SUCCESS_LOG r2.1 = SUCCESS_LOG w ++ [Appended path; Skipped path] ∧
    FAILED_LOG r2.1 = FAILED_LOG w.
Proof.
  intros Hparse Hne (h5f & d & Hopen & Hget & Hshape) Hn Hw Hacc Hnew. cbv zeta.
  destruct (process_file_fresh path w tbl meta h5f d n Hparse Hopen Hget Hshape Hw Hacc Hnew)
    as (Hfirst & Hrows & Hlen).
  rewrite (worker_rows_as_written astype_float64 _ _ _ Hne) in Hrows.
  set (rows := with_metadata astype_float64 meta (label_of path) (samples (ds_data d) n)) in *.
  assert (rows_with_tuple (tuple_of meta (label_of path)) (appended tbl rows) = rows) as Hbatch.
  { unfold rows. rewrite rows_with_tuple_appended.
    rewrite (tuple_read_not_empty _ _ Hne), decide_True by done.
    rewrite (worker_rows_as_written astype_float64 _ _ _ Hne).
    by rewrite (rows_with_tuple_none _ _ Hnew). }
  assert (exists_in (appended tbl rows) meta (label_of path) = true) as Hex.
  { apply exists_in_matching. rewrite matching_rows_tuple, Hbatch.
    intros Hnil. rewrite Hnil in Hlen. cbn in Hlen. lia. }
  rewrite Hfirst. cbn [fst snd].
  set (w1 := log_success (Appended path) (after_write (appended tbl rows) w)).
  assert (process_file astype_float64 fs path w1 = (log_success (Skipped path) w1, Skipped path))
    as Hsecond by by eapply process_file_skipped.
  rewrite Hsecond. cbn [fst snd]. split; [done|]. split; [done|].
  exists (appended tbl rows), rows. repeat split; try done.
  - apply Forall_forall. intros r Hr. by eapply with_metadata_tuple.
  - cbn. by rewrite <- app_assoc.
Qed.

(** C3 (metadata fidelity).  A file named [M01_Feb_2019_OP00_004.h5] in a
    directory named [good], whose ["vibration_data"] has shape (5, 3), on
    an existing table that takes the worker's writes and has no row with
    these six values: the call of [process_file] returns the success
    status, and the table it leaves has the rows of before followed by
    exactly five rows, each with the casts of the three samples of its line
    and with machine_id M01, month Feb, year 2019, operation OP00,
    example_no 004 and label good. *)
Theorem metadata_fidelity pre w tbl h5f d :
  let path := pre +:+ "/good/M01_Feb_2019_OP00_004.h5" in
  let rows :=
    map (λ i, mkRow (astype_float64 (item (ds_data d) [i; 0]))
                    (astype_float64 (item (ds_data d) [i; 1]))
                    (astype_float64 (item (ds_data d) [i; 2]))
                    (Some "M01") (Some "Feb") (Some "2019") (Some "OP00") (Some "004")
                    (Some "good"))
        [0; 1; 2; 3; 4] in
  h5py_File fs path = Return h5f →
  h5_getitem h5f "vibration_data" = Return (H5Dataset d) →
  shape (ds_data d) = [5; 3] →
  delta w = Some tbl →
  accepts_worker_writes tbl = true →
  (Some "M01", Some "Feb", Some "2019", Some "OP00", Some "004", Some "good")
    ∉ map metadata_tuple (table_rows tbl) →
  (process_file astype_float64 fs path w).2 = Appended path ∧
  ∃ tbl',
    delta (process_file astype_float64 fs path w).1 = Some tbl' ∧
    table_rows tbl' = table_rows tbl ++ rows ∧
    length rows = 5 ∧
    dt_schema tbl' = dt_schema tbl.
Proof.
  intros path rows Hopen Hget Hshape Htbl Hacc Hnew.
  assert (basename path = "M01_Feb_2019_OP00_004.h5") as Hbase.
  { replace path with ((pre +:+ "/good") +:+ String slash "M01_Feb_2019_OP00_004.h5")
      by (unfold path; by rewrite string_app_assoc).
    by apply basename_in_dir. }
  assert (label_of path = "good") as Hlabel
    by (apply (label_in_dir pre "good" "M01_Feb_2019_OP00_004.h5"); done).
  assert (parse_filename (basename path) = Return (mkMeta "M01" "Feb" "2019" "OP00" "004"))
    as Hparse by (rewrite Hbase; reflexivity).
  destruct (process_file_fresh path w tbl _ h5f d 5 Hparse Hopen Hget Hshape Htbl Hacc)
    as (Hcall & Hrows & _).
  { by rewrite Hlabel. }
  rewrite Hcall. cbn [fst snd]. split; [done|].
  eexists. split; [reflexivity|]. rewrite Hrows, Hlabel. done.
Qed.

(** C7 (missing dataset).  A file that opens but has no ["vibration_data"],
    and whose metadata is not in the table: the call ends in the handler
    with the missing-dataset error; the table and the success log are as
    before, and the failure log has one more line, the path and the error
    text. *)
Theorem missing_dataset_fails path w meta tbl h5f :
  parse_filename (basename path) = Return meta →
  delta w = Some tbl →
  exists_in tbl meta (label_of path) = false →
  h5py_File fs path = Return h5f →
  h5_contains h5f "vibration_data" = false →
  let e := mkExc ValueError "Missing 'vibration_data'" in
  let w' := (process_file astype_float64 fs path w).1 in
  raised_at astype_float64 fs path w Reading e ∧
  (process_file astype_float64 fs path w).2 = Failed path e ∧
  delta w' = delta w ∧
  SUCCESS_LOG w' = SUCCESS_LOG w ∧
  FAILED_LOG w' = FAILED_LOG w ++ [path +:+ " | Missing 'vibration_data'"].
Proof.
  intros H1 H2 H3 H4 H5 e.
  assert (raised_at astype_float64 fs path w Reading e) as Hr
    by by eapply missing_dataset_raised.
  cbv zeta. rewrite (process_file_raised _ _ _ _ _ _ Hr). done.
Qed.

End SingleFile.

(** The first five rows of the table of the notebook. *)
Example file_004_rows :
  (process_file to_double one_file_fs file_004 (start (Some empty_table))).2
  = Appended file_004 ∧
  (table_rows <$> delta (process_file to_double one_file_fs file_004
                           (start (Some empty_table))).1)
  = Some (map (λ s, mkRow (to_double (s.1.1)) (to_double (s.1.2)) (to_double (s.2))
                          (Some "M01") (Some "Feb") (Some "2019") (Some "OP00")
                          (Some "004") (Some "good"))
              [ (1227, -407, -894); (1079, -19, -853); (1100, 314, -860);
                (1323, -68, -1056); (1389, -491, -1139) ]%Z).
Proof. split; vm_compute; reflexivity. Qed.

(** The file of the notebook, twice, on the table an earlier run left with
    the rows of another file. *)
Lemma ingest_twice_appends_once_witness :
  let r1 := process_file to_double one_file_fs file_004 (start earlier_table) in
  let r2 := process_file to_double one_file_fs file_004 r1.1 in
  r1.2 = Appended file_004 ∧
  r2.2 = Skipped file_004 ∧
  ∃ tbl1 rows,
    delta r1.1 = Some tbl1 ∧
    table_rows tbl1 = table_rows (the_table earlier_table) ++ rows ∧
    length rows = 5 ∧
    Forall (λ r, metadata_tuple r
                 = tuple_of (mkMeta "M01" "Feb" "2019" "OP00" "004") (label_of file_004))
           rows ∧
    rows_with_tuple (tuple_of (mkMeta "M01" "Feb" "2019" "OP00" "004") (label_of file_004))
                    tbl1 = rows ∧
    delta r2.1 = Some tbl1 ∧
    SUCCESS_LOG r2.1 = SUCCESS_LOG (start earlier_table)
                       ++ [Appended file_004; Skipped file_004] ∧
    FAILED_LOG r2.1 = FAILED_LOG (start earlier_table).
Proof.
  apply (ingest_twice_appends_once to_double one_file_fs file_004 (start earlier_table)
           (the_table earlier_table) (mkMeta "M01" "Feb" "2019" "OP00" "004") 5).
  - reflexivity.
  - repeat split; vm_compute; discriminate.
  - exists sample_file, (mkDataset (array_of vibration_rows) None). by vm_compute.
  - lia.
  - vm_compute. reflexivity.
  - reflexivity.
  - apply (bool_decide_unpack _). vm_compute. exact I.
Defined.

(** C1 as stated fails.  The name [_Feb_2019_OP00_004.h5] parses, with the
    empty machine_id; the file holds five samples.  The first call appends
    its five rows, which a scan returns with a null machine_id; the second
    call finds no row equal to the six values, appends the five rows again
    and reports a success, not a skip: ten rows, two batches for the one
    file. *)
Lemma empty_machine_id_is_appended_twice :
  let r1 := process_file to_double nameless_fs nameless_file (start (Some empty_table)) in
  let r2 := process_file to_double nameless_fs nameless_file r1.1 in
  parse_filename (basename nameless_file) = Return (mkMeta "" "Feb" "2019" "OP00" "004") ∧
  r1.2 = Appended nameless_file ∧
  r2.2 = Appended nameless_file ∧
  (map metadata_tuple <$> (table_rows <$> delta r1.1))
  = Some (repeat (None, Some "Feb", Some "2019", Some "OP00", Some "004", Some "good") 5) ∧
  (map metadata_tuple <$> (table_rows <$> delta r2.1))
  = Some (repeat (None, Some "Feb", Some "2019", Some "OP00", Some "004", Some "good") 10) ∧
  SUCCESS_LOG r2.1 = [Appended nameless_file; Appended nameless_file].
Proof. cbv zeta. repeat split; vm_compute; reflexivity. Qed.

(** ** The coordinator *)

Section Batches.

Context {num float64 : Type}.
Variable astype_float64 : num → float64.
Variable fs : FileSystem (num := num).

Implicit Types (w : World (float64 := float64)) (tbl : DeltaTable (float64 := float64)).
Implicit Types (path : string) (e : PyException) (meta : Meta) (files : list string).

Lemma run_cons path files w :
  run astype_float64 fs (path :: files) w
  = ((run astype_float64 fs files (process_file astype_float64 fs path w).1).1,
     (process_file astype_float64 fs path w).2
       :: (run astype_float64 fs files (process_file astype_float64 fs path w).1).2).
Proof.
  cbn [run]. destruct (process_file astype_float64 fs path w) as [w1 s].
  cbn [fst snd]. by destruct (run astype_float64 fs files w1).
Qed.

Lemma run_app files1 files2 w :
  run astype_float64 fs (files1 ++ files2) w
  = ((run astype_float64 fs files2 (run astype_float64 fs files1 w).1).1,
     (run astype_float64 fs files1 w).2
       ++ (run astype_float64 fs files2 (run astype_float64 fs files1 w).1).2).
Proof.
  revert w. induction files1 as [|p files1 IH]; intros w.
  - cbn. by destruct (run astype_float64 fs files2 w).
  - rewrite <- app_comm_cons, !run_cons. cbn [fst snd]. by rewrite IH.
Qed.

(** The coordinator hands every file to the worker and every call returns:
    one status per file, whatever the calls did. *)
Lemma run_length files w : length (run astype_float64 fs files w).2 = length files.
Proof.
  revert w. induction files as [|p files IH]; intros w; [done|].
  rewrite run_cons. cbn. by rewrite IH.
Qed.

Lemma run_statuses files w i s :
  (run astype_float64 fs files w).2 !! i = Some s →
  ∃ path, files !! i = Some path ∧
          (s = Appended path ∨ s = Skipped path ∨ ∃ e, s = Failed path e).
Proof.
  revert w i. induction files as [|p files IH]; intros w i; [done|].
  rewrite run_cons. destruct i as [|i]; cbn.
  - intros [= <-]. exists p. split; [done|].
    eapply step_status_path, process_file_step.
  - apply IH.
Qed.

(** *** Files that can be ingested *)

Lemma accepts_appended tbl rows :
  accepts_worker_writes (appended tbl rows) = accepts_worker_writes tbl.
Proof. reflexivity. Qed.

Lemma process_ingestible path w :
  ingestible fs path → table_ok w →
  let r := process_file astype_float64 fs path w in
  is_failed r.2 = false ∧
  table_ok r.1 ∧
  FAILED_LOG r.1 = FAILED_LOG w ∧
  length (SUCCESS_LOG r.1) = S (length (SUCCESS_LOG w)) ∧
  (∀ t, t ∈ world_tuples r.1 → t ∈ world_tuples w ∨ file_tuple_read path = Some t).
Proof.
  intros [[meta Hparse] (n & h5f & d & Hopen & Hget & Hshape)] (tbl & Htbl & Hacc) r.
  destruct (exists_in tbl meta (label_of path)) eqn:Hex; subst r.
  - rewrite (process_file_skipped _ _ _ _ _ _ Hparse Htbl Hex). cbn.
    repeat split; try done.
    + by exists tbl.
    + by rewrite length_app, Nat.add_comm.
    + intros t Ht. by left.
  - rewrite (process_file_appended _ _ _ _ _ _ _ _ Hparse Htbl Hacc Hex Hopen
               (read_rows_samples _ _ _ _ _ _ Hget Hshape)).
    cbn [fst snd is_failed log_success after_write delta FAILED_LOG SUCCESS_LOG].
    repeat split; try done.
    + by eexists.
    + by rewrite length_app, Nat.add_comm.
    + intros t. unfold world_tuples.
      cbn [fst snd log_success after_write delta]. rewrite Htbl.
      rewrite table_rows_worker, map_app.
      intros [Ht|Ht]%elem_of_app; [by left|]. right.
      apply list_elem_of_fmap in Ht as (r & -> & Hr).
      unfold file_tuple_read. rewrite Hparse. f_equal. symmetry.
      pose proof (worker_rows_read astype_float64 meta (label_of path)
                    (samples (ds_data d) n)) as Hall.
      rewrite Forall_forall in Hall. by apply Hall.
Qed.

Lemma run_ingestible files w :
  Forall (ingestible fs) files → table_ok w →
  let r := run astype_float64 fs files w in
  Forall (λ s, is_failed s = false) r.2 ∧
  table_ok r.1 ∧
  FAILED_LOG r.1 = FAILED_LOG w ∧
  length (SUCCESS_LOG r.1) = length (SUCCESS_LOG w) + length files ∧
  (∀ t, t ∈ world_tuples r.1 → t ∈ world_tuples w ∨ Some t ∈ map file_tuple_read files).
Proof.
  intros Hfiles. revert w. induction Hfiles as [|p files Hp _ IH]; intros w Hok.
  - cbn. repeat split; try done; try lia. intros t Ht. by left.
  - cbv zeta. rewrite run_cons. cbn [fst snd].
    destruct (process_ingestible p w Hp Hok) as (Hs & Hok1 & Hf & Hl & Ht).
    destruct (IH _ Hok1) as (Hss & Hok2 & Hf2 & Hl2 & Ht2).
    repeat split; try done.
    + by constructor.
    + by rewrite Hf2.
    + rewrite Hl2, Hl. cbn. lia.
    + intros t Hin. apply Ht2 in Hin as [Hin|Hin].
      * apply Ht in Hin as [Hin|Hin]; [by left|]. right. rewrite <- Hin. by left.
      * right. by right.
Qed.

(** A tuple that a scan shows for a file and that is made of six values is
    the tuple of that file. *)
Lemma file_tuple_read_tuple_of path meta lbl :
  file_tuple_read path = Some (tuple_of meta lbl) → file_tuple path = Some (tuple_of meta lbl).
Proof.
  unfold file_tuple_read, file_tuple.
  destruct (parse_filename (basename path)) as [meta'|]; [|done].
  intros H.
  assert (tuple_read meta' (label_of path) = tuple_of meta lbl)
    as (-> & <- & _)%tuple_read_tuple_of by congruence.
  done.
Qed.

Lemma not_read_of_files meta lbl files :
  Some (tuple_of meta lbl) ∉ map file_tuple files →
  Some (tuple_of meta lbl) ∉ map file_tuple_read files.
Proof.
  intros Hnew (p & Hp & Hin)%list_elem_of_fmap. apply Hnew.
  apply list_elem_of_fmap. exists p. split; [|done].
  symmetry. by apply file_tuple_read_tuple_of.
Qed.

End Batches.

(** ** Claims about failures *)

Lemma parse_filename_parts filename :
  match split "_" (replace_empty ".h5" filename) with
  | p0 :: p1 :: p2 :: p3 :: p4 :: _ => parse_filename filename = Return (mkMeta p0 p1 p2 p3 p4)
  | _ => parse_filename filename = Raise (mkExc IndexError "list index out of range")
  end.
Proof.
  unfold parse_filename.
  destruct (split "_" (replace_empty ".h5" filename))
    as [|p0 [|p1 [|p2 [|p3 [|p4 rest]]]]]; reflexivity.
Qed.

Section Failures.

Context {num float64 : Type}.
Variable astype_float64 : num → float64.
Variable fs : FileSystem (num := num).

Implicit Types (w : World (float64 := float64)) (tbl : DeltaTable (float64 := float64)).
Implicit Types (path : string) (e : PyException) (meta : Meta) (files : list string).

(** C2 (failure policy and isolation).  An exception raised while parsing,
    in the existence check, while reading the source file or while appending
    ends the call in the handler: the call returns the failure status, the
    failure log gets one line made of the path and the error text, and the
    table and the success log are untouched.  Every call returns, so the
    coordinator gets one status per submitted file.  In a batch whose file
    after [l1] opens but lacks the dataset (and is not in the table yet)
    while the files of [l1] and [l2] can be ingested, the statuses are those
    of [l1], the one failure, those of [l2]; none of the others is a
    failure, the failure log gains exactly the one line and the success log
    one line per other file.  With four files in [l1] and five in [l2] this
    is the batch of ten whose fifth file lacks the dataset. *)
Theorem failures_are_caught :
  (∀ path w stage e,
     raised_at astype_float64 fs path w stage e →
     let r := process_file astype_float64 fs path w in
     r.2 = Failed path e ∧
     FAILED_LOG r.1 = FAILED_LOG w ++ [path +:+ " | " +:+ str e] ∧
     delta r.1 = delta w ∧
     SUCCESS_LOG r.1 = SUCCESS_LOG w) ∧
  (∀ files w, length (run astype_float64 fs files w).2 = length files) ∧
  (∀ l1 p l2 w meta h5f,
     table_ok w →
     Forall (ingestible fs) l1 →
     Forall (ingestible fs) l2 →
     parse_filename (basename p) = Return meta →
     h5py_File fs p = Return h5f →
     h5_contains h5f "vibration_data" = false →
     tuple_of meta (label_of p) ∉ world_tuples w →
     Some (tuple_of meta (label_of p)) ∉ map file_tuple l1 →
     let r := run astype_float64 fs (l1 ++ p :: l2) w in
     ∃ s1 s2,
       r.2 = s1 ++ Failed p (mkExc ValueError "Missing 'vibration_data'") :: s2 ∧
       length s1 = length l1 ∧
       length s2 = length l2 ∧
       Forall (λ s, is_failed s = false) (s1 ++ s2) ∧
       FAILED_LOG r.1 = FAILED_LOG w ++ [p +:+ " | Missing 'vibration_data'"] ∧
       length (SUCCESS_LOG r.1) = length (SUCCESS_LOG w) + length l1 + length l2).
Proof.
  split; [|split].
  - intros path w stage e Hr. cbv zeta. by rewrite (process_file_raised _ _ _ _ _ _ Hr).
  - apply run_length.
  - intros l1 p l2 w meta h5f Hok Hl1 Hl2 Hparse Hopen Hmiss Hnew Hnew1 r.
    destruct (run_ingestible astype_float64 fs l1 w Hl1 Hok) as (Hs1 & Hok1 & Hf1 & Hn1 & Ht1).
    set (w1 := (run astype_float64 fs l1 w).1) in *.
    destruct Hok1 as (tbl1 & Htbl1 & Hacc1).
    assert (exists_in tbl1 meta (label_of p) = false) as Hex.
    { destruct (exists_in tbl1 meta (label_of p)) eqn:E; [|done].
      apply exists_in_tuple in E.
      destruct (Ht1 (tuple_of meta (label_of p))) as [?|Hin]; try done.
      - unfold world_tuples. by rewrite Htbl1.
      - by apply not_read_of_files in Hnew1. }
    pose proof (process_file_raised _ _ _ _ _ _
                  (missing_dataset_raised astype_float64 fs p w1 meta tbl1 h5f
                     Hparse Htbl1 Hex Hopen Hmiss)) as Hp.
    assert ((process_file astype_float64 fs p w1).2
            = Failed p (mkExc ValueError "Missing 'vibration_data'")) as Hs
      by by rewrite Hp.
    assert (delta (process_file astype_float64 fs p w1).1 = delta w1) as Hd
      by by rewrite Hp.
    assert (SUCCESS_LOG (process_file astype_float64 fs p w1).1 = SUCCESS_LOG w1) as Hsl
      by by rewrite Hp.
    assert (FAILED_LOG (process_file astype_float64 fs p w1).1
            = FAILED_LOG w1 ++ [p +:+ " | Missing 'vibration_data'"]) as Hfl
      by by rewrite Hp.
    clear Hp.
    set (w2 := (process_file astype_float64 fs p w1).1) in *.
    assert (table_ok w2) as Hok2 by (exists tbl1; by rewrite Hd).
    destruct (run_ingestible astype_float64 fs l2 w2 Hl2 Hok2) as (Hs2 & _ & Hf2 & Hn2 & _).
    exists (run astype_float64 fs l1 w).2, (run astype_float64 fs l2 w2).2.
    subst r. rewrite run_app, run_cons. cbn [fst snd]. fold w1. fold w2.
    rewrite Hs, !run_length. repeat split; try done.
    + by apply Forall_app.
    + by rewrite Hf2, Hfl, Hf1.
    + rewrite Hn2, Hsl, Hn1. lia.
Qed.

(** C10 (no table).  When no Delta table exists at the output path, every
    call fails and leaves the path without a table: a file whose name
    parses fails in the existence check, before anything is read or
    written.  A run against the missing table therefore returns a failure
    for every file, writes one failure line per file, in order, and nothing
    to the success log; no table exists afterwards. *)
Theorem no_table_all_fail w :
  delta w = None →
  (∀ path, ∃ e,
     process_file astype_float64 fs path w
     = (log_failure (path +:+ " | " +:+ str e) w, Failed path e) ∧
     ∀ meta, parse_filename (basename path) = Return meta →
             raised_at astype_float64 fs path w ExistenceCheck e ∧
             e = mkExc AnalysisException "Path is not a Delta table") ∧
  (∀ files,
     let r := run astype_float64 fs files w in
     ∃ errors,
       length errors = length files ∧
       r.2 = zip_with Failed files errors ∧
       FAILED_LOG r.1
       = FAILED_LOG w ++ zip_with (λ path e, path +:+ " | " +:+ str e) files errors ∧
       SUCCESS_LOG r.1 = SUCCESS_LOG w ∧
       delta r.1 = None).
Proof.
  intros Hnone.
  assert (∀ w' path, delta w' = None → ∃ e,
            process_file astype_float64 fs path w'
            = (log_failure (path +:+ " | " +:+ str e) w', Failed path e) ∧
            ∀ meta, parse_filename (basename path) = Return meta →
                    raised_at astype_float64 fs path w' ExistenceCheck e ∧
                    e = mkExc AnalysisException "Path is not a Delta table") as Hone.
  { intros w' path Hw'. destruct (parse_filename (basename path)) as [meta|e] eqn:Hparse.
    - exists (mkExc AnalysisException "Path is not a Delta table").
      assert (raised_at astype_float64 fs path w' ExistenceCheck
                (mkExc AnalysisException "Path is not a Delta table")) as Hr
        by (eapply raised_check; [done | by rewrite Hw']).
      split; [by apply (process_file_raised _ _ _ _ _ _ Hr) | done].
    - exists e. split; [|done].
      eapply process_file_raised. by apply raised_parsing. }
  split; [intros path; by apply Hone|].
  intros files. cbv zeta. revert w Hnone.
  induction files as [|p files IH]; intros w Hnone.
  - exists []. cbn. by rewrite app_nil_r.
  - destruct (Hone w p Hnone) as (e & Hp & _).
    rewrite run_cons, Hp. cbn [fst snd].
    destruct (IH (log_failure (p +:+ " | " +:+ str e) w) Hnone)
      as (errors & Hlen & Hst & Hfl & Hsl & Hd).
    exists (e :: errors). cbn [zip_with length]. rewrite Hlen, Hst, Hfl, Hsl, Hd.
    cbn [log_failure FAILED_LOG SUCCESS_LOG]. by rewrite <- app_assoc.
Qed.


End Failures.

(** ** Claims about the table: schema and partitioning *)

Section TableInvariants.

Context {num float64 : Type}.
Variable astype_float64 : num → float64.
Variable fs : FileSystem (num := num).

Implicit Types (w : World (float64 := float64)) (tbl : DeltaTable (float64 := float64)).
Implicit Types (t : option (DeltaTable (float64 := float64))).
Implicit Types (rows : list (Row (float64 := float64))).
Implicit Types (path : string) (e : PyException) (meta : Meta) (files : list string).

(** The only thing a call of the worker does to the table is one write
    with the notebook's schema and partition columns. *)
Lemma process_file_table path w :
  let r := process_file astype_float64 fs path w in
  delta r.1 = delta w ∨
  ∃ tbl rows, r.2 = Appended path ∧
              delta w = Some tbl ∧
              worker_write rows (delta w) = Return (appended tbl rows) ∧
              delta r.1 = Some (appended tbl rows) ∧
              ∃ meta df_pd,
                parse_filename (basename path) = Return meta ∧
                rows = with_metadata astype_float64 meta (label_of path) df_pd.
Proof.
  cbv zeta. pose proof (process_file_step astype_float64 fs path w) as Hstep.
  destruct Hstep as [stage e Hr|meta tbl H1 H2 H3|meta tbl h5f rows tbl' H1 H2 H3 H4 H5 H6].
  - by left.
  - by left.
  - right. pose proof H6 as H6'. apply delta_append_existing in H6' as [_ ->].
    exists tbl, rows. repeat split; try done.
    + unfold worker_write. by rewrite H2.
    + destruct (read_rows_with_metadata _ _ _ _ _ H5) as [df_pd ->]. by exists meta, df_pd.
Qed.

(** *** Data files and partition directories *)

Lemma add_to_group_files k (r : Row (float64 := float64)) gs :
  Forall (λ f, file_rows f ≠ []) gs →
  Forall (λ f, file_rows f ≠ []) (add_to_group k r gs).
Proof.
  induction 1 as [|g gs Hg Hgs IH]; cbn [add_to_group].
  - by repeat constructor.
  - destruct (decide (partitionValues g = k)); constructor; try done.
    cbn [file_rows]. intros Hnil. by apply app_eq_nil in Hnil as [_ ?].
Qed.

Lemma add_to_group_keys cols k (r : Row (float64 := float64)) gs :
  map fst k = cols →
  Forall (λ f, map fst (partitionValues f) = cols) gs →
  Forall (λ f, map fst (partitionValues f) = cols) (add_to_group k r gs).
Proof.
  intros Hk. induction 1 as [|g gs Hg Hgs IH]; cbn [add_to_group].
  - by repeat constructor.
  - destruct (decide (partitionValues g = k)); by constructor.
Qed.

Lemma partition_key_columns cols (r : Row (float64 := float64)) :
  map fst (partition_key cols r) = cols.
Proof. unfold partition_key. rewrite map_map. cbn. by rewrite map_id. Qed.

(** Every data file of a write lies in a directory named by the partition
    columns, in their order, and holds at least one row. *)
Lemma write_files_partitioned cols rows :
  Forall (λ f, map fst (partitionValues f) = cols ∧ file_rows f ≠ [])
         (write_files cols rows).
Proof.
  unfold write_files.
  assert (∀ gs, Forall (λ f, map fst (partitionValues f) = cols ∧ file_rows f ≠ []) gs →
    Forall (λ f, map fst (partitionValues f) = cols ∧ file_rows f ≠ [])
      (foldl (λ gs r, add_to_group (partition_key cols r) r gs) gs rows)) as H.
  { induction rows as [|r rows IH]; intros gs Hgs; [done|].
    cbn [foldl]. apply IH. apply Forall_and in Hgs as [H1 H2]. apply Forall_and. split.
    - apply add_to_group_keys; [apply partition_key_columns | done].
    - by apply add_to_group_files. }
  by apply H.
Qed.

Lemma has_data_file_appended tbl rows dir :
  has_data_file tbl dir → has_data_file (appended tbl rows) dir.
Proof.
  intros (f & Hf & Hd & Hr). exists f. rewrite table_files_appended.
  split; [|done]. apply elem_of_app. by left.
Qed.

(** Writes only add data files: a partition directory with a data file
    keeps it through later calls of the worker. *)
Lemma process_file_keeps_files path w tbl dir :
  delta w = Some tbl → has_data_file tbl dir →
  ∃ tbl', delta (process_file astype_float64 fs path w).1 = Some tbl' ∧
          has_data_file tbl' dir.
Proof.
  intros Hw Hdir.
  destruct (process_file_table path w) as [->|(tbl0 & rows & _ & Hw0 & _ & -> & _)].
  - by exists tbl.
  - exists (appended tbl0 rows). split; [done|].
    rewrite Hw in Hw0. injection Hw0 as <-. by apply has_data_file_appended.
Qed.

Lemma run_keeps_files files w tbl dir :
  delta w = Some tbl → has_data_file tbl dir →
  ∃ tbl', delta (run astype_float64 fs files w).1 = Some tbl' ∧ has_data_file tbl' dir.
Proof.
  revert w tbl. induction files as [|p files IH]; intros w tbl Hw Hdir.
  - by exists tbl.
  - rewrite run_cons. cbn [fst].
    destruct (process_file_keeps_files p w tbl dir Hw Hdir) as (tbl1 & Hw1 & Hdir1).
    by eapply IH.
Qed.

(** The call that appends a non-empty batch creates a data file in the
    partition directory of the file. *)
Lemma appended_file_directory path w w' n meta :
  process_file astype_float64 fs path w = (w', Appended path) →
  holds_samples fs path n → 0 < n →
  parse_filename (basename path) = Return meta →
  ∃ tbl', delta w' = Some tbl' ∧
          has_data_file tbl' (partition_dir (meta_machine_id meta) (meta_operation meta)
                                            (label_of path)).
Proof.
  intros Hp (h5f & d & Hopen & Hget & Hshape) Hn Hparse.
  apply process_file_inv, step_Appended_inv in Hp
    as (meta' & tbl & h5f' & rows & H1 & H2 & Hacc & H3 & H4 & H5 & ->).
  rewrite Hparse in H1. injection H1 as <-.
  rewrite Hopen in H4. injection H4 as <-.
  rewrite (read_rows_samples _ _ _ _ _ _ Hget Hshape) in H5. injection H5 as <-.
  eexists. split; [reflexivity|].
  set (rows := with_metadata _ _ _ _).
  set (dir := partition_dir _ _ _).
  assert (rows ≠ []) as Hne.
  { intros Hnil. assert (length rows = n) as Hlen
      by (unfold rows; by rewrite length_with_metadata, length_samples).
    rewrite Hnil in Hlen. cbn in Hlen. lia. }
  exists (mkAddFile dir rows). rewrite table_files_appended.
  rewrite (write_files_same_key _ dir rows (worker_rows_key _ _ _ _)).
  destruct rows as [|r rows'] eqn:E; [done|]. repeat split; try done.
  apply elem_of_app. right. by left.
Qed.

Lemma run_lookup files w i s :
  (run astype_float64 fs files w).2 !! i = Some s →
  ∃ l1 p l2, files = l1 ++ p :: l2 ∧ length l1 = i ∧
             s = (process_file astype_float64 fs p (run astype_float64 fs l1 w).1).2.
Proof.
  revert w i. induction files as [|q files IH]; intros w i; [done|].
  rewrite run_cons. destruct i as [|i]; cbn [lookup list_lookup snd].
  - intros [= <-]. by exists [], q, files.
  - intros (l1 & p & l2 & -> & <- & ->)%IH.
    exists (q :: l1), p, l2. repeat split. by rewrite run_cons.
Qed.

(** A run keeps the table, with the schema and the partition columns it
    has. *)
Lemma run_schema files w tbl :
  delta w = Some tbl →
  ∃ tbl', delta (run astype_float64 fs files w).1 = Some tbl' ∧
          dt_schema tbl' = dt_schema tbl ∧
          dt_partitionColumns tbl' = dt_partitionColumns tbl.
Proof.
  revert w tbl. induction files as [|p files IH]; intros w tbl Hw.
  - by exists tbl.
  - rewrite run_cons. cbn [fst].
    destruct (process_file_table p w) as [Heq|(tbl0 & rows & _ & Hw0 & _ & Heq & _)].
    + rewrite Hw in Heq. destruct (IH _ _ Heq) as (tbl' & H1 & H2 & H3). by exists tbl'.
    + rewrite Hw in Hw0. injection Hw0 as <-.
      destruct (IH _ _ Heq) as (tbl' & H1 & H2 & H3). by exists tbl'.
Qed.

(** C5 (schema invariant, as the code has it).  The worker writes to a
    table that exists, and a run leaves that table with the schema and the
    partition columns it had before, however many files are appended.  So
    when the table has the notebook's [schema] before a run, the schema
    read after it is exactly the nine columns x, y, z of type double and
    machine_id, month, year, operation, example_no, label of type string.
    Every append is one write made with that [schema] and these partition
    columns, and a call appends only to a table that has each of the nine
    columns with its type and is partitioned by machine_id, operation,
    label. *)
Theorem schema_invariant files w tbl :
  delta w = Some tbl →
  ∃ tbl',
    delta (run astype_float64 fs files w).1 = Some tbl' ∧
    dt_schema tbl' = dt_schema tbl ∧
    dt_partitionColumns tbl' = dt_partitionColumns tbl ∧
    (dt_schema tbl = schema →
     length (dt_schema tbl') = 9 ∧
     map (λ f, (name f, dataType f)) (dt_schema tbl')
     = [ ("x", DoubleType); ("y", DoubleType); ("z", DoubleType);
         ("machine_id", StringType); ("month", StringType); ("year", StringType);
         ("operation", StringType); ("example_no", StringType);
         ("label", StringType) ]) ∧
    (∀ i path,
       (run astype_float64 fs files w).2 !! i = Some (Appended path) →
       forallb (field_accepted (dt_schema tbl)) schema = true ∧
       dt_partitionColumns tbl = ["machine_id"; "operation"; "label"] ∧
       ∃ tbl0 rows,
         delta (run astype_float64 fs (take i files) w).1 = Some tbl0 ∧
         delta_append schema ["machine_id"; "operation"; "label"] rows (Some tbl0)
         = Return (appended tbl0 rows) ∧
         delta (run astype_float64 fs (take (S i) files) w).1 = Some (appended tbl0 rows)).
Proof.
  intros Hw. destruct (run_schema files w tbl Hw) as (tbl' & Hw' & Hs & Hp).
  exists tbl'. split; [done|]. split; [done|]. split; [done|]. split.
  - intros Hnine. rewrite Hs, Hnine. done.
  - intros i path (l1 & p & l2 & -> & <- & Happ)%run_lookup.
    destruct (run_schema l1 w tbl Hw) as (tbl1 & Hw1 & Hs1 & Hp1).
    assert (take (length l1) (l1 ++ p :: l2) = l1) as Htake by by rewrite take_app_length.
    assert (take (S (length l1)) (l1 ++ p :: l2) = l1 ++ [p]) as Htake'.
    { rewrite take_app, take_ge by lia.
      by replace (S (length l1) - length l1) with 1 by lia. }
    rewrite Htake, Htake', run_app. cbn [fst].
    set (w1 := (run astype_float64 fs l1 w).1) in *.
    assert (p = path) as ->.
    { destruct (step_status_path _ _ _ _ _ _ (process_file_step astype_float64 fs p w1))
        as [H|[H|[e H]]]; rewrite H in Happ; by simplify_eq. }
    rewrite run_cons. cbn [run fst].
    destruct (process_file astype_float64 fs path w1) as [w2 s] eqn:Hcall.
    cbn [fst snd] in *. subst s.
    apply process_file_inv, step_Appended_inv in Hcall
      as (meta & tbl0 & h5f & rows & _ & Hw0 & Hacc & _ & _ & _ & ->).
    rewrite Hw1 in Hw0. injection Hw0 as <-.
    unfold accepts_worker_writes in Hacc. apply andb_true_iff in Hacc as [Hcols Hpart].
    apply bool_decide_eq_true in Hpart. rewrite Hs1 in Hcols. rewrite Hp1 in Hpart.
    split; [done|]. split; [done|].
    exists tbl1, rows. split; [done|]. split; [|done].
    apply delta_append_existing. split; [|done].
    unfold accepts_worker_writes. rewrite Hs1, Hp1, Hcols, <- Hpart. cbn.
    by apply bool_decide_eq_true.
Qed.

(** C8 (partition scheme; completeness as the code has it).  A call of the
    worker either leaves the table alone or makes one write with the
    partition columns machine_id, operation, label: the write only adds
    data files, each in a directory named by these three columns and each
    with at least one row.  For every file of a run that the worker
    appended and that holds at least one sample, the table after the run
    has the partition directory of the file's machine_id, operation and
    label, with a data file in it. *)
Theorem partition_scheme_and_completeness :
  (∀ path w,
     let r := process_file astype_float64 fs path w in
     delta r.1 = delta w ∨
     ∃ tbl rows,
       delta w = Some tbl ∧
       delta_append schema ["machine_id"; "operation"; "label"] rows (Some tbl)
       = Return (appended tbl rows) ∧
       delta r.1 = Some (appended tbl rows) ∧
       table_files (appended tbl rows)
       = table_files tbl ++ write_files ["machine_id"; "operation"; "label"] rows ∧
       Forall (λ f, map fst (partitionValues f) = ["machine_id"; "operation"; "label"] ∧
                    file_rows f ≠ [])
              (write_files ["machine_id"; "operation"; "label"] rows)) ∧
  (∀ files w i path n meta,
     (run astype_float64 fs files w).2 !! i = Some (Appended path) →
     holds_samples fs path n →
     0 < n →
     parse_filename (basename path) = Return meta →
     ∃ tbl, delta (run astype_float64 fs files w).1 = Some tbl ∧
            has_data_file tbl (partition_dir (meta_machine_id meta) (meta_operation meta)
                                             (label_of path))).
Proof.
  split.
  - intros path w.
    destruct (process_file_table path w) as [?|(tbl & rows & _ & Hw & Hwr & Hd & _)];
      [by left|right].
    exists tbl, rows. unfold worker_write in Hwr. rewrite Hw in Hwr.
    repeat split; try done.
    + apply table_files_appended.
    + apply (write_files_partitioned partitionBy).
  - intros files w i path n meta Hi Hholds Hn Hparse.
    apply run_lookup in Hi as (l1 & p & l2 & -> & <- & Hs).
    set (w1 := (run astype_float64 fs l1 w).1) in *.
    assert (p = path) as ->.
    { destruct (step_status_path _ _ _ _ _ _ (process_file_step astype_float64 fs p w1))
        as [H|[H|[e H]]]; rewrite H in Hs; by simplify_eq. }
    destruct (process_file astype_float64 fs path w1) as [w2 s] eqn:Hp.
    cbn in Hs. subst s.
    destruct (appended_file_directory _ _ _ _ _ Hp Hholds Hn Hparse) as (tbl2 & Hw2 & Hdir).
    rewrite run_app, run_cons. cbn [fst]. fold w1. rewrite Hp. cbn [fst].
    by eapply run_keeps_files.
Qed.

End TableInvariants.

(** ** The count of distinct metadata tuples *)

Section Counting.

Context {num float64 : Type}.
Variable astype_float64 : num → float64.
Variable fs : FileSystem (num := num).

Implicit Types (w : World (float64 := float64)) (tbl : DeltaTable (float64 := float64)).
Implicit Types (path : string) (e : PyException) (meta : Meta) (files : list string).
Implicit Types (t : MetaTuple) (tuples : gset MetaTuple).

Lemma distinct_count_size w tbl :
  delta w = Some tbl → distinct_count tbl = size (tuple_set w).
Proof.
  intros Hw. unfold distinct_count, tuple_set, world_tuples. rewrite Hw.
  rewrite <- (size_list_to_set (C := gset MetaTuple)) by apply NoDup_remove_dups.
  f_equal. apply set_eq. intros t. by rewrite !elem_of_list_to_set, elem_of_remove_dups.
Qed.

Lemma exists_in_tuple_set w tbl meta lbl :
  delta w = Some tbl →
  exists_in tbl meta lbl = true ↔ tuple_of meta lbl ∈ tuple_set w.
Proof.
  intros Hw. unfold tuple_set, world_tuples. rewrite Hw, elem_of_list_to_set.
  apply exists_in_tuple.
Qed.

Lemma pd_DataFrame_inv (data : ndarray (num := num)) df_pd :
  pd_DataFrame data = Return df_pd →
  ∃ n, shape data = [n; 3] ∧ df_pd = samples data n.
Proof.
  unfold pd_DataFrame. destruct (shape data) as [|n [|m l]]; try done.
  destruct m as [|[|[|[|m]]]]; try done; destruct l; try done.
  intros [= <-]. by exists n.
Qed.

Lemma read_rows_inv (h5f : H5File (num := num)) meta lbl rows :
  read_rows astype_float64 h5f meta lbl = Return rows →
  ∃ d n, h5_getitem h5f "vibration_data" = Return (H5Dataset d) ∧
         shape (ds_data d) = [n; 3] ∧
         rows = with_metadata astype_float64 meta lbl (samples (ds_data d) n).
Proof.
  unfold read_rows. destruct (negb _); [done|].
  destruct (h5_getitem h5f "vibration_data") as [[|d]|]; [done| |done].
  rewrite bind_Return. cbn [read_all]. rewrite bind_Return.
  destruct (pd_DataFrame (ds_data d)) as [df_pd|] eqn:Hdf; [|done].
  apply pd_DataFrame_inv in Hdf as (n & Hshape & ->).
  rewrite bind_Return. intros [= <-]. by exists d, n.
Qed.

Lemma tuple_set_batch w tbl meta lbl (df_pd : list (num * num * num)) :
  delta w = Some tbl →
  df_pd ≠ [] →
  list_to_set (map metadata_tuple
                   (table_rows (appended tbl (with_metadata astype_float64 meta lbl df_pd))))
  = ({[ tuple_read meta lbl ]} ∪ tuple_set w : gset MetaTuple).
Proof.
  intros Hw Hne. unfold tuple_set, world_tuples. rewrite Hw.
  rewrite table_rows_worker, map_app.
  rewrite list_to_set_app_L.
  assert (list_to_set (map metadata_tuple
                           (map as_read (with_metadata astype_float64 meta lbl df_pd)))
          = ({[ tuple_read meta lbl ]} : gset MetaTuple)) as ->;
    [|by rewrite (comm_L (∪))].
  pose proof (worker_rows_read astype_float64 meta lbl df_pd) as Hall.
  rewrite Forall_forall in Hall.
  apply set_eq. intros t. rewrite elem_of_list_to_set, elem_of_singleton, list_elem_of_fmap.
  split.
  - intros (r & -> & Hr). by apply Hall.
  - intros ->. destruct df_pd as [|[[a b] c] df_pd]; [done|].
    eexists. split; [|by left]. symmetry. apply Hall. by left.
Qed.

(** The effect of one call on the tuples of the table and on the success
    log, for a file that does not hold an empty array. *)
Lemma process_file_count path w :
  (∃ tbl, delta w = Some tbl) →
  ¬ holds_samples fs path 0 →
  let r := process_file astype_float64 fs path w in
  (∃ tbl', delta r.1 = Some tbl') ∧
  ( (tuple_set r.1 = tuple_set w ∧ SUCCESS_LOG r.1 = SUCCESS_LOG w ∧
     ∀ t, file_tuple path = Some t → t ∉ tuple_set w)
  ∨ (tuple_set r.1 = tuple_set w ∧ SUCCESS_LOG r.1 = SUCCESS_LOG w ++ [Skipped path] ∧
     ∃ t, file_tuple path = Some t ∧ t ∈ tuple_set w)
  ∨ (SUCCESS_LOG r.1 = SUCCESS_LOG w ++ [Appended path] ∧
     ∃ t t', file_tuple path = Some t ∧ file_tuple_read path = Some t' ∧
             (t ∉ tuple_set w) ∧
             tuple_set r.1 = ({[ t' ]} ∪ tuple_set w)) ).
Proof.
  intros [tbl Hw] Hnonempty. cbv zeta.
  pose proof (process_file_step astype_float64 fs path w) as Hstep.
  destruct Hstep as [stage e Hr|meta tbl' H1 H2 H3|meta tbl' h5f rows tbl'' H1 H2 H3 H4 H5 H6].
  - split; [by exists tbl|]. left. repeat split; try done.
    intros t Ht. unfold file_tuple in Ht.
    destruct Hr as [e H1 | meta e H1 H2 | meta tbl' e H1 H2 H3 H4
                   | meta tbl' h5f e H1 H2 H3 H4 H5
                   | meta tbl' h5f rows e H1 H2 H3 H4 H5 H6];
      rewrite H1 in Ht; try done; injection Ht as <-.
    + by rewrite Hw in H2.
    + apply delta_load_Return in H2. intros Hin.
      apply (exists_in_tuple_set w tbl' meta _ H2) in Hin. congruence.
    + apply delta_load_Return in H2. intros Hin.
      apply (exists_in_tuple_set w tbl' meta _ H2) in Hin. congruence.
    + apply delta_load_Return in H2. intros Hin.
      apply (exists_in_tuple_set w tbl' meta _ H2) in Hin. congruence.
  - split; [by exists tbl|]. right. left. repeat split; try done.
    exists (tuple_of meta (label_of path)). unfold file_tuple. rewrite H1. split; [done|].
    by apply (exists_in_tuple_set w tbl' meta _ H2).
  - apply delta_append_existing in H6 as [Hacc ->].
    split; [by eexists|]. right. right. split; [done|].
    exists (tuple_of meta (label_of path)), (tuple_read meta (label_of path)).
    unfold file_tuple, file_tuple_read. rewrite H1.
    split; [done|]. split; [done|]. split.
    + intros Hin. apply (exists_in_tuple_set w tbl' meta _ H2) in Hin. congruence.
    + apply read_rows_inv in H5 as (d & n & Hget & Hshape & ->).
      unfold tuple_set at 1, world_tuples. cbn [delta log_success after_write].
      apply tuple_set_batch; [done|].
      destruct n as [|n]; [|done].
      exfalso. apply Hnonempty. by exists h5f, d.
Qed.

(** Two files with the same tuple as a scan shows it have the same
    tuple. *)
Lemma file_tuple_read_inj p q t :
  file_tuple_read p = Some t → file_tuple_read q = Some t → file_tuple p = file_tuple q.
Proof.
  unfold file_tuple_read, file_tuple.
  destruct (parse_filename (basename p)) as [mp|]; [|done].
  destruct (parse_filename (basename q)) as [mq|]; [|done].
  intros Hp Hq.
  assert (tuple_read mp (label_of p) = tuple_read mq (label_of q))
    as (-> & ->)%tuple_read_inj by congruence.
  done.
Qed.

Lemma file_tuple_read_Some p t :
  file_tuple p = Some t → ∃ t', file_tuple_read p = Some t'.
Proof.
  unfold file_tuple_read, file_tuple.
  destruct (parse_filename (basename p)); [by eexists | done].
Qed.

Lemma NoDup_file_tuple_head p files t :
  NoDup (omap file_tuple (p :: files)) → file_tuple p = Some t →
  ∀ q, q ∈ files → file_tuple q ≠ Some t.
Proof.
  cbn [omap list_omap]. intros Hnodup Hp q Hq Hqt. rewrite Hp in Hnodup.
  apply NoDup_cons in Hnodup as [Hnew _]. apply Hnew.
  apply list_elem_of_omap. by exists q.
Qed.

Lemma known_files_cons_None path files tuples :
  (∀ t, file_tuple path = Some t → t ∉ tuples) →
  known_files (path :: files) tuples
  = known_files files tuples.
Proof.
  intros H. unfold known_files. cbn [omap list_omap].
  destruct (file_tuple path) as [t|]; [|done].
  rewrite filter_cons_False; [done|]. by apply H.
Qed.

Lemma known_files_cons_Some path files tuples t :
  file_tuple path = Some t → t ∈ tuples →
  known_files (path :: files) tuples
  = S (known_files files tuples).
Proof.
  intros H Hin. unfold known_files. cbn [omap list_omap]. rewrite H.
  by rewrite filter_cons_True.
Qed.

Lemma known_files_fresh files tuples t :
  t ∉ omap (file_tuple) files →
  known_files files ({[ t ]} ∪ tuples)
  = known_files files tuples.
Proof.
  unfold known_files. generalize (omap file_tuple files). intros l Hfresh. f_equal.
  induction l as [|t' l IH]; [done|].
  apply not_elem_of_cons in Hfresh as [Hne Hfresh].
  destruct (decide (t' ∈ tuples)) as [Hin|Hin].
  - rewrite !filter_cons_True; [by rewrite IH | done | by apply elem_of_union_r].
  - rewrite !filter_cons_False; [by apply IH | done |].
    intros [Heq%elem_of_singleton|?]%elem_of_union; [congruence | done].
Qed.

(** When the tuples are those of distinct files of the list, every one of
    them is counted once. *)
Lemma known_files_all files tuples :
  NoDup (omap (file_tuple) files) →
  (∀ t, t ∈ tuples → t ∈ omap (file_tuple) files) →
  known_files files tuples = size tuples.
Proof.
  intros Hnodup Hall. unfold known_files.
  rewrite <- (size_list_to_set (C := gset MetaTuple)) by by apply NoDup_filter.
  f_equal. apply set_eq. intros t.
  rewrite elem_of_list_to_set, list_elem_of_filter.
  split; [by intros [? _] | intros Ht; split; [done | by apply Hall]].
Qed.

Lemma run_count files w :
  (∃ tbl, delta w = Some tbl) →
  NoDup (omap file_tuple files) →
  Forall (λ p, ¬ holds_samples fs p 0) files →
  no_null_twin files (tuple_set w) →
  let r := run astype_float64 fs files w in
  (∃ tbl', delta r.1 = Some tbl') ∧
  size (tuple_set r.1) + length (SUCCESS_LOG w) + known_files files (tuple_set w)
  = size (tuple_set w) + length (SUCCESS_LOG r.1).
Proof.
  intros Hw Hnodup Hfiles. cbv zeta. revert w Hw Hnodup.
  induction Hfiles as [|p files Hp _ IH]; intros w Hw Hnodup Htwin.
  - split; [done|]. cbn. lia.
  - rewrite run_cons. cbn [fst].
    destruct (process_file_count p w Hw Hp) as [Hw1 Hcases].
    set (w1 := (process_file astype_float64 fs p w).1) in *.
    assert (NoDup (omap file_tuple files)) as Hnodup'.
    { cbn [omap list_omap] in Hnodup. destruct (file_tuple p); [|done].
      by apply NoDup_cons in Hnodup as [_ ?]. }
    assert (no_null_twin files (tuple_set w)) as Htwin'
      by (intros q t' Hq; apply Htwin; by right).
    destruct Hcases as [(Ht & Hs & Hnew)|[(Ht & Hs & t & Hp' & Hin)
                                         |(Hs & t & t' & Hp' & Hp'' & Hnew & Ht)]].
    + destruct (IH w1 Hw1 Hnodup') as [Hw2 Hcount]; [by rewrite Ht|].
      split; [done|].
      rewrite (known_files_cons_None _ _ _ Hnew). rewrite Ht, Hs in Hcount. lia.
    + destruct (IH w1 Hw1 Hnodup') as [Hw2 Hcount]; [by rewrite Ht|].
      split; [done|].
      rewrite (known_files_cons_Some _ _ _ _ Hp' Hin).
      rewrite Ht, Hs, length_app in Hcount. cbn in Hcount. lia.
    + assert (t' ∉ tuple_set w) as Hnew'.
      { intros Hin. apply Hnew.
        assert (file_tuple p = Some t') as Heq by (apply Htwin; [by left|done..]).
        rewrite Hp' in Heq. by injection Heq as ->. }
      assert (t' ∉ omap file_tuple files) as Hfresh.
      { intros (q & Hq & Hqt)%list_elem_of_omap.
        unfold file_tuple in Hqt.
        destruct (parse_filename (basename q)) as [mq|] eqn:Eq; [|done].
        injection Hqt as <-.
        assert (file_tuple p = Some (tuple_of mq (label_of q))) as Hpt
          by by apply file_tuple_read_tuple_of.
        apply (NoDup_file_tuple_head p files _ Hnodup Hpt q Hq).
        unfold file_tuple. by rewrite Eq. }
      destruct (IH w1 Hw1 Hnodup') as [Hw2 Hcount].
      { rewrite Ht. intros q tq Hq Hqt [->%elem_of_singleton|Hin]%elem_of_union.
        - exfalso. pose proof (file_tuple_read_inj p q _ Hp'' Hqt) as Heq.
          apply (NoDup_file_tuple_head p files t Hnodup Hp' q Hq). by rewrite <- Heq.
        - by apply Htwin'. }
      split; [done|].
      rewrite known_files_cons_None
        by (intros t0 Ht0; rewrite Hp' in Ht0; by injection Ht0 as <-).
      rewrite Ht, Hs, length_app in Hcount.
      rewrite known_files_fresh in Hcount by done.
      rewrite size_union in Hcount by (by apply disjoint_singleton_l).
      rewrite size_singleton in Hcount. cbn in Hcount. lia.
Qed.

(** When every tuple of the table is the tuple of a file of the list, no
    tuple of the table has a null. *)
Lemma no_null_twin_known files (tuples : gset MetaTuple) :
  (∀ t, t ∈ tuples → t ∈ omap file_tuple files) → no_null_twin files tuples.
Proof.
  intros Hknown p t' Hp Hread Hin.
  apply Hknown, list_elem_of_omap in Hin as (q & Hq & Hqt).
  unfold file_tuple in Hqt.
  destruct (parse_filename (basename q)) as [mq|]; [|done]. injection Hqt as <-.
  by apply file_tuple_read_tuple_of.
Qed.

(** C4 (count invariant, as the code has it).  Take a run, one call after
    the other, that starts with an empty success log on an existing table,
    over files whose metadata tuples are pairwise distinct, none of which
    holds an empty array, and such that every tuple already in the table is
    the tuple of a file of the run.  After the run the number of distinct
    metadata tuples of the table equals the number of lines of the success
    log, which are the appended and the skipped files. *)
Theorem count_invariant files w tbl :
  delta w = Some tbl →
  SUCCESS_LOG w = [] →
  NoDup (omap file_tuple files) →
  (∀ t, t ∈ world_tuples w → t ∈ omap file_tuple files) →
  Forall (λ p, ¬ holds_samples fs p 0) files →
  ∃ tbl', delta (run astype_float64 fs files w).1 = Some tbl' ∧
          distinct_count tbl' = length (SUCCESS_LOG (run astype_float64 fs files w).1).
Proof.
  intros Hw Hlog Hnodup Hknown Hfiles.
  assert (∀ t, t ∈ tuple_set w → t ∈ omap file_tuple files) as Hknown'.
  { intros t Ht. apply Hknown. unfold tuple_set in Ht. by apply elem_of_list_to_set in Ht. }
  destruct (run_count files w (ex_intro _ tbl Hw) Hnodup Hfiles
              (no_null_twin_known _ _ Hknown')) as [[tbl' Hw'] Hcount].
  exists tbl'. split; [done|]. rewrite (distinct_count_size _ _ Hw').
  rewrite known_files_all in Hcount; [|done|done].
  rewrite Hlog in Hcount. cbn in Hcount. lia.
Qed.

End Counting.

(** ** The profiler *)

Section Profiler.

Context {num : Type}.
Variable fs : FileSystem (num := num).

Implicit Types (path : string) (e : PyException) (record : ProfileRecord).

Lemma scan_keys_file_path (members : H5File (num := num)) record :
  file_path (scan_keys members record) = file_path record.
Proof.
  induction members as [|[key obj] rest IH]; [done|]. cbn [scan_keys].
  destruct obj as [|d]; cbn [get_shape]; [done|].
  destruct (shape (ds_data d)) as [|rows [|cols [|]]]; try done.
  by destruct (column_names_of d).
Qed.

Lemma profile_file_path path : file_path (profile_file fs path) = path.
Proof.
  unfold profile_file. destruct (h5py_File fs path); [|done].
  by rewrite scan_keys_file_path.
Qed.

Lemma scan_keys_passed_over (pre rest : H5File (num := num)) record :
  Forall passed_over pre → scan_keys (pre ++ rest) record = scan_keys rest record.
Proof.
  induction 1 as [|[key obj] pre (d & Hobj & Hdim) _ IH]; [done|].
  cbn in Hobj. subst obj. cbn [app scan_keys get_shape].
  destruct (shape (ds_data d)) as [|rows [|cols [|]]]; try done.
Qed.

(** C9 (profiler, as the code has it).  The profiler returns one record per
    file of the walk whose name ends in [.h5], in the order of the walk and
    with that file's path.  When opening the file raises, or when the loop
    meets a group before any two-dimensional dataset, the record has the
    error text and no row or column count.  When the loop reaches a first
    two-dimensional dataset, the record has its row and column counts; it
    has the column names and no error if the [column_names] attribute can
    be listed, and the error text (besides the counts) if listing it
    raises.  A file without two-dimensional dataset and without group gives
    a record with neither counts nor error. *)
Theorem profiler_records :
  (∀ base_dir,
     map file_path (collect_hdf5_metadata fs base_dir) = h5_files fs base_dir) ∧
  (∀ path e,
     h5py_File fs path = Raise e →
     profile_file fs path = mkRecord path None None [] (Some (str e))) ∧
  (∀ path pre key rest,
     h5py_File fs path = Return (pre ++ (key, H5Group) :: rest) →
     Forall passed_over pre →
     profile_file fs path
     = mkRecord path None None [] (Some "'Group' object has no attribute 'shape'")) ∧
  (∀ path pre key d rest rows cols,
     h5py_File fs path = Return (pre ++ (key, H5Dataset d) :: rest) →
     Forall passed_over pre →
     shape (ds_data d) = [rows; cols] →
     profile_file fs path
     = match column_names_of d with
       | Return names => mkRecord path (Some rows) (Some cols) names None
       | Raise e => mkRecord path (Some rows) (Some cols) [] (Some (str e))
       end) ∧
  (∀ path members,
     h5py_File fs path = Return members →
     Forall passed_over members →
     profile_file fs path = mkRecord path None None [] None).
Proof.
  repeat split.
  - intros base_dir. unfold collect_hdf5_metadata, h5_files.
    induction (os_walk fs base_dir) as [|[root files] dirs IH]; [done|].
    cbn [map concat]. rewrite map_app, IH. f_equal.
    rewrite map_map. apply map_ext. intros file. apply profile_file_path.
  - intros path e Hopen. unfold profile_file. by rewrite Hopen.
  - intros path pre key rest Hopen Hpre. unfold profile_file. rewrite Hopen.
    by rewrite scan_keys_passed_over.
  - intros path pre key d rest rows cols Hopen Hpre Hshape.
    unfold profile_file. rewrite Hopen, scan_keys_passed_over by done.
    cbn [scan_keys get_shape]. rewrite Hshape. by destruct (column_names_of d).
  - intros path members Hopen Hall. unfold profile_file. rewrite Hopen.
    rewrite <- (app_nil_r members). by rewrite scan_keys_passed_over.
Qed.

End Profiler.

(** ** The statements on the concrete corpus *)

Example batch_files_listed :
  batch_files = map (λ n, good_dir +:+ "/" +:+ n) batch_names ∧
  batch_files = batch_before ++ file_004 :: batch_after ∧
  length batch_before = 4 ∧ length batch_after = 5.
Proof. repeat split; vm_compute; reflexivity. Qed.

Lemma batch_before_listed :
  batch_before
  = [ "../data/raw/M01/OP00/good/M01_Feb_2019_OP00_000.h5";
      "../data/raw/M01/OP00/good/M01_Feb_2019_OP00_001.h5";
      "../data/raw/M01/OP00/good/M01_Feb_2019_OP00_002.h5";
      "../data/raw/M01/OP00/good/M01_Feb_2019_OP00_003.h5" ].
Proof. vm_compute. reflexivity. Qed.

Lemma batch_after_listed :
  batch_after
  = [ "../data/raw/M01/OP00/good/M01_Feb_2019_OP00_005.h5";
      "../data/raw/M01/OP00/good/M01_Feb_2019_OP00_006.h5";
      "../data/raw/M01/OP00/good/M01_Feb_2019_OP00_007.h5";
      "../data/raw/M01/OP00/good/M01_Feb_2019_OP00_008.h5";
      "../data/raw/M01/OP00/good/M01_Feb_2019_OP00_009.h5" ].
Proof. vm_compute. reflexivity. Qed.

Lemma batch_before_ingestible : Forall (ingestible batch_fs) batch_before.
Proof.
  rewrite batch_before_listed.
  repeat first [apply List.Forall_nil | apply List.Forall_cons; [ingestible_here|]].
Defined.

Lemma batch_after_ingestible : Forall (ingestible batch_fs) batch_after.
Proof.
  rewrite batch_after_listed.
  repeat first [apply List.Forall_nil | apply List.Forall_cons; [ingestible_here|]].
Defined.

Lemma empty_table_ok : table_ok (start (Some empty_table)).
Proof. exists empty_table. split; reflexivity. Defined.

(** The batch of ten files whose fifth lacks the dataset: nine successes,
    one failure, one failure line. *)
Lemma failures_are_caught_witness :
  ∃ s1 s2,
    (run to_double batch_fs batch_files (start (Some empty_table))).2
    = s1 ++ Failed file_004 (mkExc ValueError "Missing 'vibration_data'") :: s2 ∧
    length s1 = 4 ∧
    length s2 = 5 ∧
    Forall (λ s, is_failed s = false) (s1 ++ s2) ∧
    FAILED_LOG (run to_double batch_fs batch_files (start (Some empty_table))).1
    = [file_004 +:+ " | Missing 'vibration_data'"] ∧
    length (SUCCESS_LOG (run to_double batch_fs batch_files (start (Some empty_table))).1)
    = 9.
Proof.
  apply (proj2 (proj2 (failures_are_caught to_double batch_fs))
           batch_before file_004 batch_after (start (Some empty_table))
           (mkMeta "M01" "Feb" "2019" "OP00" "004") no_dataset_file).
  - exact empty_table_ok.
  - exact batch_before_ingestible.
  - exact batch_after_ingestible.
  - vm_compute. reflexivity.
  - vm_compute. reflexivity.
  - vm_compute. reflexivity.
  - apply not_elem_of_nil.
  - rewrite batch_before_listed. apply (bool_decide_unpack _). vm_compute. exact I.
Defined.

(** One failure per place of the [try] block: a name with three segments,
    a missing table, a file that cannot be opened, a rejected write. *)
Example each_stage_is_caught :
  process_file to_double faulty_fs "../data/raw/M01/OP00/good/M01_Feb_2019.h5"
    (start (Some empty_table))
  = (mkWorld (Some empty_table) []
       ["../data/raw/M01/OP00/good/M01_Feb_2019.h5 | list index out of range"] 0 0,
     Failed "../data/raw/M01/OP00/good/M01_Feb_2019.h5"
            (mkExc IndexError "list index out of range")) ∧
  process_file to_double one_file_fs file_004 (start None)
  = (mkWorld None [] [file_004 +:+ " | Path is not a Delta table"] 0 0,
     Failed file_004 (mkExc AnalysisException "Path is not a Delta table")) ∧
  process_file to_double faulty_fs file_004 (start (Some empty_table))
  = (mkWorld (Some empty_table) []
       [file_004 +:+ " | Unable to open file (file signature not found)"] 0 0,
     Failed file_004 (mkExc OSError "Unable to open file (file signature not found)")) ∧
  process_file to_double one_file_fs file_004 (start (Some year_partitioned_table))
  = (mkWorld (Some year_partitioned_table) []
       [file_004 +:+ " | Partition columns do not match the partition columns of the table"]
       0 0,
     Failed file_004
            (mkExc AnalysisException
                   "Partition columns do not match the partition columns of the table")).
Proof. repeat split; vm_compute; reflexivity. Qed.

(** The file of the notebook on the table an earlier run left with the
    rows of another file. *)
Lemma metadata_fidelity_witness :
  let rows :=
    map (λ s, mkRow (to_double (s.1.1)) (to_double (s.1.2)) (to_double (s.2))
                    (Some "M01") (Some "Feb") (Some "2019") (Some "OP00") (Some "004")
                    (Some "good"))
        [ (1227, -407, -894); (1079, -19, -853); (1100, 314, -860);
          (1323, -68, -1056); (1389, -491, -1139) ]%Z in
  (process_file to_double one_file_fs file_004 (start earlier_table)).2 = Appended file_004 ∧
  ∃ tbl',
    delta (process_file to_double one_file_fs file_004 (start earlier_table)).1 = Some tbl' ∧
    table_rows tbl' = table_rows (the_table earlier_table) ++ rows ∧
    length rows = 5 ∧
    dt_schema tbl' = dt_schema (the_table earlier_table).
Proof.
  apply (metadata_fidelity to_double one_file_fs "../data/raw/M01/OP00"
           (start earlier_table) (the_table earlier_table) sample_file
           (mkDataset (array_of vibration_rows) None)).
  - vm_compute. reflexivity.
  - reflexivity.
  - reflexivity.
  - vm_compute. reflexivity.
  - reflexivity.
  - apply (bool_decide_unpack _). vm_compute. exact I.
Defined.

Lemma missing_dataset_fails_witness :
  let e := mkExc ValueError "Missing 'vibration_data'" in
  let w := start (Some empty_table) in
  let w' := (process_file to_double batch_fs file_004 w).1 in
  raised_at to_double batch_fs file_004 w Reading e ∧
  (process_file to_double batch_fs file_004 w).2 = Failed file_004 e ∧
  delta w' = delta w ∧
  SUCCESS_LOG w' = SUCCESS_LOG w ∧
  FAILED_LOG w' = FAILED_LOG w ++ [file_004 +:+ " | Missing 'vibration_data'"].
Proof.
  apply (missing_dataset_fails to_double batch_fs file_004 (start (Some empty_table))
           (mkMeta "M01" "Feb" "2019" "OP00" "004") empty_table no_dataset_file);
    vm_compute; reflexivity.
Defined.

Lemma no_table_all_fail_witness :
  let r := run to_double batch_fs batch_files (start None) in
  ∃ errors,
    length errors = length batch_files ∧
    r.2 = zip_with Failed batch_files errors ∧
    FAILED_LOG r.1
    = FAILED_LOG (start None)
      ++ zip_with (λ path e, path +:+ " | " +:+ str e) batch_files errors ∧
    SUCCESS_LOG r.1 = SUCCESS_LOG (start None) ∧
    delta r.1 = None.
Proof.
  exact (proj2 (no_table_all_fail to_double batch_fs (start None) eq_refl) batch_files).
Defined.

Example no_table_batch :
  (run to_double batch_fs batch_files (start None)).2
  = map (λ p, Failed p (mkExc AnalysisException "Path is not a Delta table")) batch_files ∧
  length (FAILED_LOG (run to_double batch_fs batch_files (start None)).1) = 10.
Proof. split; vm_compute; reflexivity. Qed.

Lemma batch_files_not_empty : Forall (λ p, ¬ holds_samples batch_fs p 0) batch_files.
Proof.
  rewrite (proj1 (proj2 batch_files_listed)), batch_before_listed, batch_after_listed.
  repeat first [apply List.Forall_nil | apply List.Forall_cons; [not_empty_here|]].
Defined.

Lemma batch_files_matchable : Forall matchable batch_files.
Proof.
  rewrite (proj1 (proj2 batch_files_listed)), batch_before_listed, batch_after_listed.
  repeat first [apply List.Forall_nil | apply List.Forall_cons; [matchable_here|]].
Defined.

(** The batch of ten on an empty table: nine tuples, nine success lines. *)
Lemma count_invariant_witness :
  ∃ tbl', delta (run to_double batch_fs batch_files (start (Some empty_table))).1 = Some tbl' ∧
          distinct_count tbl'
          = length (SUCCESS_LOG (run to_double batch_fs batch_files
                                     (start (Some empty_table))).1).
Proof.
  apply (count_invariant to_double batch_fs batch_files (start (Some empty_table))
           empty_table).
  - reflexivity.
  - reflexivity.
  - apply (bool_decide_unpack _). vm_compute. exact I.
  - intros t Ht. by apply elem_of_nil in Ht.
  - exact batch_files_not_empty.
Defined.

Example batch_counts :
  (distinct_count <$> delta (run to_double batch_fs batch_files (start (Some empty_table))).1)
  = Some 9 ∧
  length (SUCCESS_LOG (run to_double batch_fs batch_files (start (Some empty_table))).1) = 9.
Proof. split; vm_compute; reflexivity. Qed.

(** C4 as stated fails: a run over the corpus holding [file_004] alone, on
    the table an earlier run left with the rows of another file, ends with
    two distinct tuples in the table and one line in its success log. *)
Lemma count_differs_on_earlier_table :
  let r := run to_double one_file_fs (h5_files one_file_fs "../data/raw")
               (start earlier_table) in
  h5_files one_file_fs "../data/raw" = [file_004] ∧
  (distinct_count <$> earlier_table) = Some 1 ∧
  r.2 = [Appended file_004] ∧
  FAILED_LOG r.1 = [] ∧
  SUCCESS_LOG r.1 = [Appended file_004] ∧
  (distinct_count <$> delta r.1) = Some 2 ∧
  (distinct_count <$> delta r.1) ≠ Some (length (SUCCESS_LOG r.1)).
Proof. cbv zeta. repeat split; try (vm_compute; reflexivity). vm_compute. discriminate. Qed.

(** Two files of one run with the same metadata tuple: the second is
    skipped, and the skip is a line of the success log. *)
Example count_differs_on_twin_names :
  let files := h5_files twin_fs "../data/raw" in
  let r := run to_double twin_fs files (start (Some empty_table)) in
  r.2 = [Appended file_004;
         Skipped "../data/raw/M01/OP00/good/M01_Feb_2019_OP00_004_copy.h5"] ∧
  (distinct_count <$> delta r.1) = Some 1 ∧
  length (SUCCESS_LOG r.1) = 2.
Proof. repeat split; vm_compute; reflexivity. Qed.

(** A run over a file holding an array of shape (0, 3): one success line,
    no tuple in the table. *)
Example count_differs_on_empty_array :
  let r := run to_double zero_row_fs (h5_files zero_row_fs "../data/raw")
               (start (Some empty_table)) in
  r.2 = [Appended file_004] ∧
  (distinct_count <$> delta r.1) = Some 0 ∧
  length (SUCCESS_LOG r.1) = 1.
Proof. repeat split; vm_compute; reflexivity. Qed.

(** A file holding an array of shape (0, 3): each call appends an empty
    batch and reports success, the table never holds a row of the file. *)
Example empty_array_is_appended_again :
  let r1 := process_file to_double zero_row_fs file_004 (start (Some empty_table)) in
  let r2 := process_file to_double zero_row_fs file_004 r1.1 in
  r1.2 = Appended file_004 ∧ r2.2 = Appended file_004 ∧
  (table_rows <$> delta r2.1) = Some [] ∧
  SUCCESS_LOG r2.1 = [Appended file_004; Appended file_004].
Proof. repeat split; vm_compute; reflexivity. Qed.

(** Part two of the theorem on the batch: its first file was appended, and
    the directory machine_id=M01/operation=OP00/label=good has a data
    file. *)
Lemma partition_scheme_and_completeness_witness :
  ∃ tbl, delta (run to_double batch_fs batch_files (start (Some empty_table))).1 = Some tbl ∧
         has_data_file tbl (partition_dir "M01" "OP00" "good").
Proof.
  apply (proj2 (partition_scheme_and_completeness to_double batch_fs)
           batch_files (start (Some empty_table)) 0
           "../data/raw/M01/OP00/good/M01_Feb_2019_OP00_000.h5" 5
           (mkMeta "M01" "Feb" "2019" "OP00" "000")).
  - vm_compute. reflexivity.
  - exists sample_file, (mkDataset (array_of vibration_rows) None).
    repeat split; vm_compute; reflexivity.
  - lia.
  - vm_compute. reflexivity.
Defined.

(** C8 as stated fails: the file holding an array of shape (0, 3) is
    appended and logged as a success, and the table has no data file, hence
    no partition directory for machine_id M01, operation OP00, label good. *)
Lemma no_directory_for_empty_file :
  let r := run to_double zero_row_fs (h5_files zero_row_fs "../data/raw")
               (start (Some empty_table)) in
  r.2 = [Appended file_004] ∧
  SUCCESS_LOG r.1 = [Appended file_004] ∧
  FAILED_LOG r.1 = [] ∧
  file_tuple file_004
  = Some (Some "M01", Some "Feb", Some "2019", Some "OP00", Some "004", Some "good") ∧
  ∃ tbl, delta r.1 = Some tbl ∧ table_files tbl = [] ∧
         ¬ has_data_file tbl (partition_dir "M01" "OP00" "good").
Proof.
  cbv zeta. repeat split; try (vm_compute; reflexivity).
  eexists. split; [vm_compute; reflexivity|]. split; [reflexivity|].
  intros (f & Hf & _). vm_compute in Hf. by apply elem_of_nil in Hf.
Qed.

(** The profiler on the concrete corpus: four records for the four [.h5]
    files. *)
Example profiler_on_corpus :
  collect_hdf5_metadata profiler_fs "../data/raw"
  = [ mkRecord file_004 (Some 5) (Some 3) [] None;
      mkRecord file_005 None None []
               (Some "Unable to open file (file signature not found)");
      mkRecord file_006 (Some 5) (Some 3) [] (Some "object is not iterable");
      mkRecord file_007 None None [] (Some "'Group' object has no attribute 'shape'") ].
Proof. vm_compute. reflexivity. Qed.

Lemma profiler_records_witness :
  profile_file profiler_fs file_005
  = mkRecord file_005 None None [] (Some "Unable to open file (file signature not found)").
Proof.
  apply (proj1 (proj2 (profiler_records profiler_fs)) file_005
           (mkExc OSError "Unable to open file (file signature not found)")).
  vm_compute. reflexivity.
Defined.

(** C9 as stated fails.  Reading [file_006] raises, in the listing of the
    [column_names] attribute, after the counts were set: its record has an
    error and the row and column counts.  And [file_007] opens and holds a
    5 x 3 dataset, yet its record has no counts: the loop met a group
    first. *)
Lemma profiler_error_with_counts :
  (h5py_File profiler_fs file_006 = Return scalar_attr_file ∧
   raises (column_names_of (mkDataset (array_of vibration_rows) (Some AttrScalar))) ∧
   error (profile_file profiler_fs file_006) = Some "object is not iterable" ∧
   num_rows (profile_file profiler_fs file_006) = Some 5 ∧
   num_columns (profile_file profiler_fs file_006) = Some 3) ∧
  (h5py_File profiler_fs file_007 = Return group_first_file ∧
   (∃ d, h5_getitem group_first_file "vibration_data" = Return (H5Dataset d) ∧
         shape (ds_data d) = [5; 3]) ∧
   error (profile_file profiler_fs file_007)
   = Some "'Group' object has no attribute 'shape'" ∧
   num_rows (profile_file profiler_fs file_007) = None ∧
   num_columns (profile_file profiler_fs file_007) = None).
Proof.
  split; repeat split; try (vm_compute; reflexivity).
  - eexists. reflexivity.
  - eexists. split; vm_compute; reflexivity.
Qed.

Lemma schema_invariant_witness :
  ∃ tbl',
    delta (run to_double batch_fs batch_files (start (Some empty_table))).1 = Some tbl' ∧
    map (λ f, (name f, dataType f)) (dt_schema tbl')
    = [ ("x", DoubleType); ("y", DoubleType); ("z", DoubleType);
        ("machine_id", StringType); ("month", StringType); ("year", StringType);
        ("operation", StringType); ("example_no", StringType);
        ("label", StringType) ] ∧
    forallb (field_accepted (dt_schema empty_table)) schema = true.
Proof.
  destruct (schema_invariant to_double batch_fs batch_files (start (Some empty_table))
              empty_table eq_refl) as (tbl' & Hw' & _ & _ & Hnine & Happ).
  exists tbl'. split; [exact Hw'|]. split.
  - exact (proj2 (Hnine eq_refl)).
  - apply (Happ 0 "../data/raw/M01/OP00/good/M01_Feb_2019_OP00_000.h5").
    vm_compute. reflexivity.
Defined.

(** C5 as stated fails.  A table created with a tenth column next to the
    nine of the notebook takes the worker's write, which leaves a column
    the batch does not have to null: the file is appended, its five rows
    are in the table, and reading the table yields ten columns. *)
Example ten_columns_after_an_append :
  let r := process_file to_double one_file_fs file_004 (start (Some ten_column_table)) in
  r.2 = Appended file_004 ∧
  ∃ tbl', delta r.1 = Some tbl' ∧
          length (table_rows tbl') = 5 ∧
          map name (dt_schema tbl')
          = ["x"; "y"; "z"; "machine_id"; "month"; "year"; "operation"; "example_no";
             "label"; "sensor"].
Proof.
  split; [vm_compute; reflexivity|]. eexists. split; [vm_compute; reflexivity|].
  split; vm_compute; reflexivity.
Qed.



(** ** Further properties of the worker *)

Section Bookkeeping.

Context {num float64 : Type}.
Variable astype_float64 : num → float64.
Variable fs : FileSystem (num := num).

Implicit Types (w : World (float64 := float64)) (tbl : DeltaTable (float64 := float64)).
Implicit Types (path : string) (files : list string).

Lemma div_25_succ n : S n / 25 = n / 25 + (if Nat.eqb (S n mod 25) 0 then 1 else 0).
Proof.
  pose proof (Nat.div_mod_eq n 25) as Hn.
  pose proof (Nat.div_mod_eq (S n) 25) as HSn.
  pose proof (Nat.mod_upper_bound n 25) as Hb.
  pose proof (Nat.mod_upper_bound (S n) 25) as HSb.
  destruct (Nat.eqb_spec (S n mod 25) 0) as [E|E]; lia.
Qed.

Lemma process_file_counters path w :
  let r := process_file astype_float64 fs path w in
  file_count r.1 = file_count w + (if is_appended r.2 then 1 else 0) ∧
  cleanups r.1 + file_count w / 25 = cleanups w + file_count r.1 / 25.
Proof.
  cbv zeta. destruct (process_file_step astype_float64 fs path w);
    cbn [fst snd log_failure log_success after_write file_count cleanups is_appended].
  - lia.
  - lia.
  - rewrite (div_25_succ (file_count w)).
    destruct (Nat.eqb (S (file_count w) mod 25) 0); lia.
Qed.

(** X1 (clean-up policy).  The per-worker counter counts the files that
    were appended (a skip or a failure leaves it alone), and a clean-up is
    requested each time the counter reaches a multiple of 25. *)
Theorem cleanup_every_25_appended files w :
  let r := run astype_float64 fs files w in
  file_count r.1 = file_count w + length (List.filter is_appended r.2) ∧
  cleanups r.1 + file_count w / 25 = cleanups w + file_count r.1 / 25.
Proof.
  cbv zeta. revert w. induction files as [|p files IH]; intros w.
  - cbn. lia.
  - rewrite run_cons. cbn [fst snd List.filter].
    destruct (process_file_counters p w) as [Hc Hk].
    destruct (IH (process_file astype_float64 fs p w).1) as [Hc' Hk'].
    destruct (is_appended (process_file astype_float64 fs p w).2); cbn [length]; lia.
Qed.

(** X2 (append only).  The table is only appended to: after a run the
    files and the rows that were in the table come first, unchanged, and
    the new ones follow. *)
Theorem table_only_grows files w tbl :
  delta w = Some tbl →
  ∃ tbl' new_files,
    delta (run astype_float64 fs files w).1 = Some tbl' ∧
    table_files tbl' = table_files tbl ++ new_files ∧
    table_rows tbl' = table_rows tbl ++ concat (map read_file new_files).
Proof.
  revert w tbl. induction files as [|p files IH]; intros w tbl Hw.
  - exists tbl, []. cbn. by rewrite !app_nil_r.
  - rewrite run_cons. cbn [fst].
    destruct (process_file_table astype_float64 fs p w)
      as [Heq|(tbl0 & rows & _ & Hw0 & _ & Heq & _)].
    + rewrite <- Heq in Hw. by apply IH.
    + rewrite Hw in Hw0. injection Hw0 as <-.
      destruct (IH _ _ Heq) as (tbl' & new_files & Hd & Hf & Hr).
      exists tbl', (write_files partitionBy rows ++ new_files).
      split; [done|]. rewrite Hf, Hr. unfold table_rows.
      rewrite table_files_appended, !map_app, !concat_app.
      by rewrite !app_assoc.
Qed.

End Bookkeeping.

(** X3 (name and label).  Where the worker takes the file name and the
    label from: for the path [pre/d/f] they are [f] and [d]. *)
Theorem name_and_label_of_path pre d f :
  d ≠ "" → has_slash d = false → has_slash f = false →
  basename (pre +:+ "/" +:+ d +:+ "/" +:+ f) = f ∧
  label_of (pre +:+ "/" +:+ d +:+ "/" +:+ f) = d.
Proof.
  intros Hne Hd Hf. split.
  - replace (pre +:+ "/" +:+ d +:+ "/" +:+ f)
      with ((pre +:+ "/" +:+ d) +:+ String slash f)
      by (by rewrite !string_app_assoc).
    by apply basename_in_dir.
  - by apply (label_in_dir pre d f).
Qed.

Lemma name_and_label_of_path_witness :
  basename ("../data/raw/M01/OP03" +:+ "/" +:+ "bad" +:+ "/" +:+ "M01_Aug_2019_OP03_000.h5")
  = "M01_Aug_2019_OP03_000.h5" ∧
  label_of ("../data/raw/M01/OP03" +:+ "/" +:+ "bad" +:+ "/" +:+ "M01_Aug_2019_OP03_000.h5")
  = "bad".
Proof.
  apply (name_and_label_of_path "../data/raw/M01/OP03" "bad" "M01_Aug_2019_OP03_000.h5");
    done.
Defined.

Lemma table_only_grows_witness :
  ∃ tbl' new_files,
    delta (run to_double batch_fs batch_files (start (Some empty_table))).1 = Some tbl' ∧
    table_files tbl' = table_files empty_table ++ new_files ∧
    table_rows tbl' = table_rows empty_table ++ concat (map read_file new_files).
Proof.
  apply (table_only_grows to_double batch_fs batch_files (start (Some empty_table))
           empty_table).
  reflexivity.
Defined.

Example batch_of_ten_counters :
  file_count (run to_double batch_fs batch_files (start (Some empty_table))).1 = 9 ∧
  cleanups (run to_double batch_fs batch_files (start (Some empty_table))).1 = 0.
Proof. split; vm_compute; reflexivity. Qed.

(** ** The two outcome logs *)

Section Logs.

Context {num float64 : Type}.
Variable astype_float64 : num → float64.
Variable fs : FileSystem (num := num).

Implicit Types (w : World (float64 := float64)) (tbl : DeltaTable (float64 := float64)).
Implicit Types (path : string) (files : list string) (s : Status).

Lemma process_file_logs path w :
  let r := process_file astype_float64 fs path w in
  SUCCESS_LOG r.1 = SUCCESS_LOG w ++ List.filter (λ s, negb (is_failed s)) [r.2] ∧
  FAILED_LOG r.1 = FAILED_LOG w ++ failure_lines [r.2].
Proof.
  cbv zeta. destruct (process_file_step astype_float64 fs path w);
    cbn; by rewrite ?app_nil_r.
Qed.

Lemma failure_lines_cons s statuses :
  failure_lines (s :: statuses) = failure_lines [s] ++ failure_lines statuses.
Proof. unfold failure_lines. cbn. by destruct s. Qed.

Lemma logged_lines statuses :
  length (List.filter (λ s, negb (is_failed s)) statuses) + length (failure_lines statuses)
  = length statuses.
Proof.
  induction statuses as [|s statuses IH]; [done|].
  rewrite failure_lines_cons, length_app. destruct s; cbn in *; lia.
Qed.

(** X4 (every file is logged once).  After a run the success log holds,
    after the lines it had, the statuses of the calls that did not fail, in
    the order of the calls, and the failure log holds one line
    [path | message] for each call that failed; so every file of the run
    has put exactly one line in exactly one of the two logs. *)
Theorem every_file_is_logged_once files w :
  let r := run astype_float64 fs files w in
  SUCCESS_LOG r.1 = SUCCESS_LOG w ++ List.filter (λ s, negb (is_failed s)) r.2 ∧
  FAILED_LOG r.1 = FAILED_LOG w ++ failure_lines r.2 ∧
  length (SUCCESS_LOG r.1) + length (FAILED_LOG r.1)
  = length (SUCCESS_LOG w) + length (FAILED_LOG w) + length files.
Proof.
  cbv zeta.
  assert (SUCCESS_LOG (run astype_float64 fs files w).1
          = SUCCESS_LOG w ++ List.filter (λ s, negb (is_failed s))
                                         (run astype_float64 fs files w).2 ∧
          FAILED_LOG (run astype_float64 fs files w).1
          = FAILED_LOG w ++ failure_lines (run astype_float64 fs files w).2) as [Hs Hf].
  { revert w. induction files as [|p files IH]; intros w.
    - cbn. by rewrite !app_nil_r.
    - rewrite run_cons. cbn [fst snd].
      destruct (IH (process_file astype_float64 fs p w).1) as [Hs Hf].
      destruct (process_file_logs p w) as [Hs1 Hf1].
      split.
      + rewrite Hs, Hs1, <- app_assoc. f_equal. cbn [List.filter]. by destruct (negb _).
      + rewrite Hf, Hf1, <- app_assoc. f_equal. symmetry. apply failure_lines_cons. }
  repeat split; [done..|].
  rewrite Hs, Hf, !length_app.
  pose proof (logged_lines (run astype_float64 fs files w).2) as Hl.
  rewrite (run_length astype_float64 fs) in Hl. lia.
Qed.

(** *** Which way a call ends *)


Lemma read_holds_samples path h5f meta lbl rows :
  h5py_File fs path = Return h5f →
  read_rows astype_float64 h5f meta lbl = Return rows →
  holds_samples fs path (length rows).
Proof.
  intros Hopen (d & n & Hget & Hshape & ->)%read_rows_inv.
  rewrite length_with_metadata, length_samples. by exists h5f, d.
Qed.


End Logs.

(** ** One batch of rows per metadata tuple *)

Section ExactlyOnce.

Context {num float64 : Type}.
Variable astype_float64 : num → float64.
Variable fs : FileSystem (num := num).

Implicit Types (w : World (float64 := float64)) (tbl : DeltaTable (float64 := float64)).
Implicit Types (path : string) (files : list string) (meta : Meta) (lbl : string).

Lemma process_file_keeps_table path w tbl :
  delta w = Some tbl →
  ∃ tbl1, delta (process_file astype_float64 fs path w).1 = Some tbl1.
Proof.
  intros Hw.
  destruct (process_file_table astype_float64 fs path w) as [->|(? & ? & _ & _ & _ & -> & _)];
    by eexists.
Qed.

(** What one call does to the rows of a tuple of six values: nothing, or,
    when the table had none and the call is for a file of that tuple, it
    makes them the non-empty batch read from that file. *)
Lemma process_file_matching path w tbl tbl1 meta lbl :
  delta w = Some tbl →
  delta (process_file astype_float64 fs path w).1 = Some tbl1 →
  matching_rows tbl1 meta lbl = matching_rows tbl meta lbl ∨
  ( exists_in tbl meta lbl = false ∧
    (process_file astype_float64 fs path w).2 = Appended path ∧
    parse_filename (basename path) = Return meta ∧ label_of path = lbl ∧
    matching_rows tbl1 meta lbl ≠ [] ∧
    ∃ h5f, h5py_File fs path = Return h5f ∧
           read_rows astype_float64 h5f meta lbl = Return (matching_rows tbl1 meta lbl) ).
Proof.
  intros Hw.
  pose proof (process_file_step astype_float64 fs path w) as Hstep.
  destruct Hstep as [stage e Hr|meta' tbl' H1 H2 H3|meta' tbl' h5f rows tbl'' H1 H2 H3 H4 H5 H6];
    cbn [fst snd log_failure log_success after_write delta]; rewrite ?Hw;
    try (intros [= <-]; by left).
  intros [= <-]. rewrite Hw in H2. injection H2 as <-.
  apply delta_append_existing in H6 as [_ ->].
  destruct (read_rows_with_metadata _ _ _ _ _ H5) as [df_pd ->].
  destruct (decide (tuple_read meta' (label_of path) = tuple_of meta lbl)) as [Heq|Hne].
  2: { left. by apply matching_rows_other. }
  apply tuple_read_tuple_of in Heq as (-> & <- & Hvalues).
  rewrite matching_rows_appended by done.
  apply exists_in_false_matching in H3 as Hnone. rewrite Hnone, app_nil_l.
  destruct (with_metadata astype_float64 meta (label_of path) df_pd) as [|r rows] eqn:E.
  - by left.
  - right. repeat split; try done. by exists h5f.
Qed.

(** X6 (one batch per tuple of values).  Take six strings, one for each
    metadata column.  After a run on an existing table, if a scan of the
    table returned rows with these six strings, it returns the same ones;
    if it returned none, it returns none or exactly the batch read from one
    file of the run that has these six values and whose call appended.  So
    rows with six given strings never come from two files, or on top of
    rows the table had.  Rows that a scan returns with a null in a metadata
    column are not rows with six strings: the statement says nothing of
    them, and they can come from two files. *)
Theorem one_batch_per_tuple files w tbl :
  delta w = Some tbl →
  ∃ tbl',
    delta (run astype_float64 fs files w).1 = Some tbl' ∧
    ∀ meta lbl,
      (tuple_of meta lbl ∈ map metadata_tuple (table_rows tbl) →
       rows_with_tuple (tuple_of meta lbl) tbl' = rows_with_tuple (tuple_of meta lbl) tbl) ∧
      (tuple_of meta lbl ∉ map metadata_tuple (table_rows tbl) →
       rows_with_tuple (tuple_of meta lbl) tbl' = [] ∨
       ∃ i path h5f,
         files !! i = Some path ∧
         (run astype_float64 fs files w).2 !! i = Some (Appended path) ∧
         parse_filename (basename path) = Return meta ∧ label_of path = lbl ∧
         h5py_File fs path = Return h5f ∧
         read_rows astype_float64 h5f meta lbl
         = Return (rows_with_tuple (tuple_of meta lbl) tbl')).
Proof.
  intros Hw.
  assert (∃ tbl',
    delta (run astype_float64 fs files w).1 = Some tbl' ∧
    ∀ meta lbl,
      (exists_in tbl meta lbl = true →
       matching_rows tbl' meta lbl = matching_rows tbl meta lbl) ∧
      (exists_in tbl meta lbl = false →
       matching_rows tbl' meta lbl = [] ∨
       ∃ i path h5f,
         files !! i = Some path ∧
         (run astype_float64 fs files w).2 !! i = Some (Appended path) ∧
         parse_filename (basename path) = Return meta ∧ label_of path = lbl ∧
         h5py_File fs path = Return h5f ∧
         read_rows astype_float64 h5f meta lbl = Return (matching_rows tbl' meta lbl)))
    as (tbl' & Hw' & Hrows).
  { revert w tbl Hw. induction files as [|p files IH]; intros w tbl Hw.
    - exists tbl. split; [done|]. intros meta lbl. split; [done|].
      intros Hex. left. by apply exists_in_false_matching.
    - rewrite run_cons. cbn [fst snd].
      destruct (process_file_keeps_table p w tbl Hw) as [tbl1 Hw1].
      destruct (IH _ _ Hw1) as (tbl' & Hw' & Hrows).
      exists tbl'. split; [done|]. intros meta lbl.
      destruct (Hrows meta lbl) as [Hkept Hnew].
      destruct (process_file_matching p w tbl tbl1 meta lbl Hw Hw1)
        as [Hsame|(Hex & Hs & Hparse & Hlbl & Hne & h5f & Hopen & Hread)].
      + split.
        * intros Hex. rewrite <- Hsame. apply Hkept.
          apply exists_in_matching. rewrite Hsame. by apply exists_in_matching.
        * intros Hex.
          assert (exists_in tbl1 meta lbl = false) as Hex1.
          { apply exists_in_false_matching. rewrite Hsame. by apply exists_in_false_matching. }
          destruct (Hnew Hex1) as [Hnone|(i & path & h5f & Hi & Hsi & Hrest)]; [by left|].
          right. by exists (S i), path, h5f.
      + split; [congruence|]. intros _. right.
        assert (matching_rows tbl' meta lbl = matching_rows tbl1 meta lbl) as ->
          by (by apply Hkept, exists_in_matching).
        exists 0, p, h5f. repeat split; try done. cbn. by rewrite Hs. }
  exists tbl'. split; [done|]. intros meta lbl.
  rewrite <- !matching_rows_tuple. destruct (Hrows meta lbl) as [Hkept Hnew]. split.
  - intros Hin. by apply Hkept, exists_in_tuple.
  - intros Hin. by apply Hnew, exists_in_false_tuple.
Qed.

End ExactlyOnce.

(** ** Running the coordinator again *)

Section Rerun.

Context {num float64 : Type}.
Variable astype_float64 : num → float64.
Variable fs : FileSystem (num := num).

Implicit Types (w : World (float64 := float64)) (tbl : DeltaTable (float64 := float64)).
Implicit Types (t : option (DeltaTable (float64 := float64))).
Implicit Types (path : string) (files : list string) (meta : Meta) (lbl : string).

Lemma later_table_refl t : later_table t t.
Proof. destruct t as [tbl|]; [|done]. repeat split. exists []. by rewrite app_nil_r. Qed.

Lemma later_table_trans t1 t2 t3 : later_table t1 t2 → later_table t2 t3 → later_table t1 t3.
Proof.
  destruct t1 as [tbl1|], t2 as [tbl2|], t3 as [tbl3|]; try done.
  intros (Hs & Hp & more & Hr) (Hs' & Hp' & more' & Hr'). repeat split; [congruence..|].
  exists (more ++ more'). by rewrite Hr', Hr, app_assoc.
Qed.

Lemma process_file_later path w :
  later_table (delta w) (delta (process_file astype_float64 fs path w).1).
Proof.
  destruct (process_file_table astype_float64 fs path w)
    as [->|(tbl & rows & _ & Hw & _ & -> & meta & df_pd & _ & ->)].
  - apply later_table_refl.
  - rewrite Hw. repeat split. eexists. apply table_rows_worker.
Qed.

Lemma run_later files w : later_table (delta w) (delta (run astype_float64 fs files w).1).
Proof.
  revert w. induction files as [|p files IH]; intros w; [apply later_table_refl|].
  rewrite run_cons. cbn [fst]. eapply later_table_trans; [apply process_file_later | apply IH].
Qed.

Lemma later_table_accepts tbl tbl' :
  later_table (Some tbl) (Some tbl') →
  accepts_worker_writes tbl' = accepts_worker_writes tbl.
Proof. intros (Hs & Hp & _). unfold accepts_worker_writes. by rewrite Hs, Hp. Qed.

Lemma later_table_exists tbl tbl' meta lbl :
  later_table (Some tbl) (Some tbl') →
  exists_in tbl meta lbl = true → exists_in tbl' meta lbl = true.
Proof.
  intros (_ & _ & more & Hr). rewrite !exists_in_tuple, Hr, map_app.
  intros Hin. apply elem_of_app. by left.
Qed.

Lemma later_table_Some tbl t : later_table (Some tbl) t → ∃ tbl', t = Some tbl'.
Proof. destruct t as [tbl'|]; [by exists tbl' | done]. Qed.

Lemma matchable_values path meta :
  parse_filename (basename path) = Return meta →
  matchable path ↔ partition_values_not_empty meta (label_of path).
Proof.
  intros Hparse. split; [by intros H; apply H|].
  intros Hne meta' Hparse'. rewrite Hparse in Hparse'. by injection Hparse' as <-.
Qed.

Lemma has_empty_or_not path meta :
  parse_filename (basename path) = Return meta →
  partition_values_not_empty meta (label_of path) ∨ has_empty_partition_value path.
Proof.
  intros Hparse. unfold partition_values_not_empty, has_empty_partition_value.
  destruct (decide (meta_machine_id meta = "")) as [?|?]; [right; exists meta; auto|].
  destruct (decide (meta_operation meta = "")) as [?|?]; [right; exists meta; auto|].
  destruct (decide (label_of path = "")) as [?|?]; [right; exists meta; auto|].
  by left.
Qed.

(** A call that was skipped, or that appended a batch with rows for a file
    without empty partition value, leaves rows in the table that the check
    of the file finds. *)
Lemma present_after path w :
  let r := process_file astype_float64 fs path w in
  r.2 = Skipped path ∨ (r.2 = Appended path ∧ ¬ holds_samples fs path 0 ∧ matchable path) →
  ∃ meta tbl1, parse_filename (basename path) = Return meta ∧
               delta r.1 = Some tbl1 ∧ exists_in tbl1 meta (label_of path) = true.
Proof.
  cbv zeta. pose proof (process_file_step astype_float64 fs path w) as Hstep.
  destruct Hstep as [stage e Hr|meta tbl H1 H2 H3|meta tbl h5f rows tbl' H1 H2 H3 H4 H5 H6];
    cbn [fst snd log_success after_write delta].
  - intros [?|[? _]]; done.
  - intros _. by exists meta, tbl.
  - intros [?|(_ & Hne & Hvalues)]; [done|]. exists meta, tbl'. repeat split; try done.
    pose proof (proj1 (matchable_values path meta H1) Hvalues) as Hvalues'.
    apply delta_append_existing in H6 as [_ ->].
    pose proof (read_holds_samples astype_float64 fs path h5f meta _ rows H4 H5) as Hn.
    destruct (read_rows_with_metadata _ _ _ _ _ H5) as [df_pd ->].
    apply exists_in_matching. rewrite matching_rows_appended by done.
    destruct (with_metadata astype_float64 meta (label_of path) df_pd); [done|].
    by destruct (matching_rows tbl meta (label_of path)).
Qed.

Lemma skipped_in_later path w' meta tbl1 :
  parse_filename (basename path) = Return meta →
  exists_in tbl1 meta (label_of path) = true →
  later_table (Some tbl1) (delta w') →
  process_file astype_float64 fs path w' = (log_success (Skipped path) w', Skipped path).
Proof.
  intros Hparse Hex Hlater.
  destruct (later_table_Some _ _ Hlater) as [tbl' Hw']. rewrite Hw' in Hlater.
  eapply process_file_skipped; [done..|]. by eapply later_table_exists.
Qed.

(** After the call for a file without empty partition value, a later call
    for it that gets to the write has no row to write. *)
Lemma nothing_left_to_append path w w' meta tbl2 h5f rows :
  later_table (delta (process_file astype_float64 fs path w).1) (delta w') →
  parse_filename (basename path) = Return meta →
  partition_values_not_empty meta (label_of path) →
  delta w' = Some tbl2 →
  exists_in tbl2 meta (label_of path) = false →
  h5py_File fs path = Return h5f →
  read_rows astype_float64 h5f meta (label_of path) = Return rows →
  accepts_worker_writes tbl2 = true →
  rows = [].
Proof.
  intros Hlater H1 Hvalues H2 H3 H4 H5 Hacc.
  destruct rows as [|r rows]; [done|]. exfalso.
  assert (¬ holds_samples fs path 0) as Hne.
  { intros (h5f' & d & Hopen & Hget & Hshape).
    rewrite H4 in Hopen. injection Hopen as <-.
    rewrite (read_rows_samples _ _ _ _ _ _ Hget Hshape) in H5. by injection H5. }
  pose proof (proj2 (matchable_values path meta H1) Hvalues) as Hmatch.
  pose proof (present_after path w) as Hpresent. cbv zeta in Hpresent.
  pose proof (process_file_step astype_float64 fs path w) as Hstep.
  revert Hlater Hpresent.
  destruct Hstep as [stage e Hr|meta' tbl' E1 E2 E3|meta' tbl' h5f' rows' tbl3 E1 E2 E3 E4 E5 E6];
    cbn [fst snd log_failure log_success after_write delta]; intros Hlater Hpresent.
  - destruct Hr as [e E1 | meta' e E1 E2 | meta' tbl' e E1 E2 E3 E4
                   | meta' tbl' h5f' e E1 E2 E3 E4 E5
                   | meta' tbl' h5f' rows' e E1 E2 E3 E4 E5 E6];
      rewrite H1 in E1; try done; injection E1 as <-.
    + destruct (delta w); [done|]. by rewrite H2 in Hlater.
    + congruence.
    + rewrite H4 in E4. injection E4 as <-. congruence.
    + apply delta_load_Return in E2. rewrite E2 in E6, Hlater. rewrite H2 in Hlater.
      rewrite (later_table_accepts _ _ Hlater) in Hacc.
      assert (delta_append schema partitionBy rows' (Some tbl') = Return (appended tbl' rows'))
        by by apply delta_append_existing.
      congruence.
  - destruct Hpresent as (meta0 & tbl1 & Hparse & Hw1 & Hex); [by left|].
    rewrite H1 in Hparse. injection Hparse as <-. rewrite Hw1, H2 in Hlater.
    pose proof (later_table_exists _ _ _ _ Hlater Hex). congruence.
  - destruct Hpresent as (meta0 & tbl1 & Hparse & Hw1 & Hex); [by right|].
    rewrite H1 in Hparse. injection Hparse as <-. injection Hw1 as <-.
    rewrite H2 in Hlater.
    pose proof (later_table_exists _ _ _ _ Hlater Hex). congruence.
Qed.

(** After its call a file is settled. *)
Lemma settled_after path w :
  settled astype_float64 fs path (delta (process_file astype_float64 fs path w).1).
Proof.
  intros w' Hlater.
  pose proof (process_file_step astype_float64 fs path w') as Hstep'.
  destruct Hstep' as [stage e Hr|meta tbl2 H1 H2 H3|meta tbl2 h5f rows tbl'' H1 H2 H3 H4 H5 H6];
    cbn [fst snd]; try done.
  apply delta_append_existing in H6 as [Hacc ->].
  assert (partition_values_not_empty meta (label_of path) → rows = []) as Hnone
    by (intros Hvalues; by eapply nothing_left_to_append).
  split.
  - intros Hmatch. pose proof (proj1 (matchable_values path meta H1) Hmatch) as Hvalues.
    rewrite (Hnone Hvalues). unfold world_rows. cbn [log_success after_write delta].
    rewrite H2. apply table_rows_appended_nil.
  - intros _. destruct (has_empty_or_not path meta H1) as [Hvalues|Hempty]; [|by right].
    left. specialize (Hnone Hvalues). subst rows.
    apply (read_holds_samples astype_float64 fs path h5f meta _ [] H4 H5).
Qed.

Lemma settled_later path t t' :
  settled astype_float64 fs path t → later_table t t' → settled astype_float64 fs path t'.
Proof. intros Hs Hlater w' Hw'. apply Hs. by eapply later_table_trans. Qed.

Lemma run_settled files w :
  Forall (λ p, settled astype_float64 fs p (delta (run astype_float64 fs files w).1)) files.
Proof.
  revert w. induction files as [|p files IH]; intros w; [done|].
  rewrite run_cons. cbn [fst]. constructor; [|apply IH].
  eapply settled_later; [apply settled_after | apply run_later].
Qed.

Lemma run_of_settled files w :
  Forall (λ p, settled astype_float64 fs p (delta w)) files →
  (Forall (matchable) files →
   world_rows (run astype_float64 fs files w).1 = world_rows w) ∧
  ∀ i path, (run astype_float64 fs files w).2 !! i = Some (Appended path) →
            holds_samples fs path 0 ∨ has_empty_partition_value path.
Proof.
  intros Hfiles. revert w Hfiles. induction files as [|p files IH]; intros w Hfiles; [done|].
  apply Forall_cons in Hfiles as [Hp Hfiles]. rewrite run_cons. cbn [fst snd].
  destruct (Hp w (later_table_refl _)) as [Hrows Hempty].
  destruct (IH (process_file astype_float64 fs p w).1) as [Hrows' Hempty'].
  { eapply Forall_impl; [exact Hfiles|]. intros q Hq. cbv beta in Hq.
    eapply settled_later; [exact Hq | apply process_file_later]. }
  split.
  - intros [Hm Hms]%Forall_cons. by rewrite Hrows', Hrows.
  - intros [|i] path; cbn; [|by apply Hempty'].
    intros [= Hs]. pose proof (process_file_step astype_float64 fs p w) as Hstep.
    apply step_status_path in Hstep as [Hp'|[Hp'|[e Hp']]]; rewrite Hp' in Hs; try done.
    injection Hs as <-. by apply Hempty.
Qed.

Lemma run_nth l1 p l2 w :
  (run astype_float64 fs (l1 ++ p :: l2) w).2 !! length l1
  = Some (process_file astype_float64 fs p (run astype_float64 fs l1 w).1).2.
Proof.
  rewrite run_app, run_cons. cbn [snd].
  rewrite <- (run_length astype_float64 fs l1 w) at 1. by rewrite list_lookup_middle.
Qed.

(** X7 (running again).  Run the coordinator a second time over the same
    files, on the state the first run left.  A call of the second run
    appends only for a file that holds an empty array or whose machine_id,
    operation or label is empty; when no file of the run has such an empty
    value, the table has the same rows after the second run as before it.
    Every file whose call in the first run was skipped, or appended rows
    for a file without empty value, is skipped. *)
Theorem second_run_adds_no_rows files w :
  let r1 := run astype_float64 fs files w in
  let r2 := run astype_float64 fs files r1.1 in
  (Forall matchable files → world_rows r2.1 = world_rows r1.1) ∧
  (∀ i path, r2.2 !! i = Some (Appended path) →
             holds_samples fs path 0 ∨ has_empty_partition_value path) ∧
  (∀ i path,
     r1.2 !! i = Some (Skipped path) ∨
     (r1.2 !! i = Some (Appended path) ∧ ¬ holds_samples fs path 0 ∧ matchable path) →
     r2.2 !! i = Some (Skipped path)).
Proof.
  cbv zeta.
  destruct (run_of_settled files (run astype_float64 fs files w).1 (run_settled files w))
    as [Hrows Hempty].
  split; [done|]. split; [done|].
  intros i path Hi.
  assert (∃ s, (run astype_float64 fs files w).2 !! i = Some s) as [s Hs]
    by (destruct Hi as [?|[? _]]; by eexists).
  destruct (run_lookup astype_float64 fs files w i s Hs) as (l1 & p & l2 & -> & <- & ->).
  rewrite Hs in Hi.
  assert (p = path) as ->.
  { pose proof (process_file_step astype_float64 fs p (run astype_float64 fs l1 w).1) as Hstep.
    apply step_status_path in Hstep as [Hp|[Hp|[e Hp]]]; rewrite Hp in Hi;
      destruct Hi as [Hi|[Hi _]]; congruence. }
  destruct (present_after path (run astype_float64 fs l1 w).1) as (meta & tbl1 & Hparse & Hw1 & Hex).
  { destruct Hi as [[= ->]|[[= ->] Hne]]; [by left | by right]. }
  rewrite run_nth. f_equal.
  erewrite skipped_in_later; [done..|].
  rewrite <- Hw1. eapply later_table_trans; [|apply run_later].
  rewrite run_app, run_cons. cbn [fst]. apply run_later.
Qed.

End Rerun.

(** ** The order in which the files are ingested *)

Section Order.

Context {num float64 : Type}.
Variable astype_float64 : num → float64.
Variable fs : FileSystem (num := num).

Implicit Types (w : World (float64 := float64)) (tbl : DeltaTable (float64 := float64)).
Implicit Types (t : option (DeltaTable (float64 := float64))).
Implicit Types (path p q : string) (files : list string) (meta : Meta) (lbl : string).
Implicit Types (s : Status).

(** *** States with the same content *)

Lemma same_table_refl t : same_table t t.
Proof. by destruct t. Qed.

Lemma same_table_trans t1 t2 t3 : same_table t1 t2 → same_table t2 t3 → same_table t1 t3.
Proof.
  destruct t1, t2, t3; try done. intros (Hs & Hp & Hf) (Hs' & Hp' & Hf').
  repeat split; [congruence..|]. by rewrite Hf.
Qed.

Lemma same_content_refl w : same_content w w.
Proof. repeat split; try done. apply same_table_refl. Qed.

Lemma same_content_trans w1 w2 w3 :
  same_content w1 w2 → same_content w2 w3 → same_content w1 w3.
Proof.
  intros (Ht & Hs & Hf & Hc & Hk) (Ht' & Hs' & Hf' & Hc' & Hk').
  repeat split; [by eapply same_table_trans | by rewrite Hs | by rewrite Hf | congruence..].
Qed.

Lemma concat_Permutation {A} (l l' : list (list A)) : l ≡ₚ l' → concat l ≡ₚ concat l'.
Proof.
  induction 1 as [|a l l' _ IH|a b l|l1 l2 l3 _ IH1 _ IH2]; cbn.
  - done.
  - by rewrite IH.
  - rewrite !app_assoc. f_equiv. apply Permutation_app_comm.
  - by rewrite IH1.
Qed.

Lemma same_table_rows tbl tbl' :
  same_table (Some tbl) (Some tbl') → table_rows tbl ≡ₚ table_rows tbl'.
Proof.
  intros (_ & _ & Hf). unfold table_rows. apply concat_Permutation. by rewrite Hf.
Qed.

Lemma same_content_rows w w' : same_content w w' → world_rows w ≡ₚ world_rows w'.
Proof.
  intros (Ht & _). unfold world_rows.
  destruct (delta w), (delta w'); try done. by apply same_table_rows.
Qed.

(** *** The status of a call depends on the table only *)

Lemma exists_in_matching_eq tbl tbl' meta lbl :
  (∀ r, matches meta lbl r = true → r ∈ table_rows tbl ↔ r ∈ table_rows tbl') →
  exists_in tbl meta lbl = exists_in tbl' meta lbl.
Proof.
  intros H.
  assert (∀ tbl1 tbl2 : DeltaTable (float64 := float64),
            (∀ r, matches meta lbl r = true → r ∈ table_rows tbl1 → r ∈ table_rows tbl2) →
            exists_in tbl1 meta lbl = true → exists_in tbl2 meta lbl = true) as Himp.
  { intros tbl1 tbl2 Hsub. rewrite !exists_in_tuple, !list_elem_of_fmap.
    intros (r & Heq & Hin). exists r. split; [done|]. apply Hsub; [|done].
    by apply matches_tuple. }
  destruct (exists_in tbl meta lbl) eqn:E, (exists_in tbl' meta lbl) eqn:E'; try done.
  - apply (Himp tbl tbl') in E; [congruence|]. intros r Hr. by apply H.
  - apply (Himp tbl' tbl) in E'; [congruence|]. intros r Hr. by apply H.
Qed.

Lemma delta_append_status tbl tbl' (rows rows' : list (Row (float64 := float64))) :
  dt_schema tbl = dt_schema tbl' →
  dt_partitionColumns tbl = dt_partitionColumns tbl' →
  match delta_append schema partitionBy rows (Some tbl),
        delta_append schema partitionBy rows' (Some tbl') with
  | Return _, Return _ => True
  | Raise e, Raise e' => e = e'
  | _, _ => False
  end.
Proof.
  intros Hs Hp. unfold delta_append. rewrite Hs, Hp.
  destruct (negb (forallb _ partitionBy)); [done|].
  destruct (negb (forallb _ schema)); [done|]. by destruct (negb (bool_decide _)).
Qed.

Lemma status_same path w w' tbl tbl' :
  delta w = Some tbl → delta w' = Some tbl' →
  dt_schema tbl = dt_schema tbl' →
  dt_partitionColumns tbl = dt_partitionColumns tbl' →
  (∀ meta, parse_filename (basename path) = Return meta →
           exists_in tbl meta (label_of path) = exists_in tbl' meta (label_of path)) →
  (process_file astype_float64 fs path w).2 = (process_file astype_float64 fs path w').2.
Proof.
  intros Hw Hw' Hs Hp Hex. unfold process_file, try_process_file. fold (label_of path).
  destruct (parse_filename (basename path)) as [meta|e]; [|done].
  rewrite !bind_Return, Hw, Hw'. cbn [delta_load]. rewrite !bind_Return.
  rewrite <- (Hex meta eq_refl).
  destruct (exists_in tbl meta (label_of path)); [done|].
  destruct (h5py_File fs path) as [h5f|e]; [|done]. rewrite !bind_Return.
  destruct (read_rows astype_float64 h5f meta (label_of path)) as [rows|e]; [|done].
  rewrite !bind_Return.
  pose proof (delta_append_status tbl tbl' rows rows Hs Hp) as Happ.
  destruct (delta_append schema partitionBy rows (Some tbl)),
           (delta_append schema partitionBy rows (Some tbl')); try done.
  by subst.
Qed.

Lemma status_no_table path w w' :
  delta w = None → delta w' = None →
  (process_file astype_float64 fs path w).2 = (process_file astype_float64 fs path w').2.
Proof.
  intros Hw Hw'. unfold process_file, try_process_file.
  destruct (parse_filename (basename path)) as [meta|e]; [|done].
  by rewrite !bind_Return, Hw, Hw'.
Qed.

Lemma status_same_table path w w' :
  same_table (delta w) (delta w') →
  (process_file astype_float64 fs path w).2 = (process_file astype_float64 fs path w').2.
Proof.
  destruct (delta w) as [tbl|] eqn:Hw, (delta w') as [tbl'|] eqn:Hw'; try done.
  - intros Hsame. pose proof Hsame as (Hs & Hp & _).
    eapply status_same; try done. intros meta _.
    apply exists_in_matching_eq. intros r _.
    by rewrite (same_table_rows _ _ Hsame).
  - intros _. by apply status_no_table.
Qed.

(** *** What a call does, from its status *)

Lemma process_file_effect path w :
  process_file astype_float64 fs path w
  = (effect astype_float64 fs (process_file astype_float64 fs path w).2 w,
     (process_file astype_float64 fs path w).2).
Proof.
  pose proof (process_file_step astype_float64 fs path w) as Hstep.
  destruct (process_file astype_float64 fs path w) as [w1 s]. cbn [fst snd] in *.
  f_equal.
  destruct Hstep as [stage e Hr|meta tbl H1 H2 H3|meta tbl h5f rows tbl' H1 H2 H3 H4 H5 H6];
    cbn [effect]; try done.
  rewrite H2. apply delta_append_existing in H6 as [_ ->].
  unfold frame_of. by rewrite H1, H4, H5.
Qed.

Lemma effect_same_content s w w' :
  same_content w w' →
  same_content (effect astype_float64 fs s w) (effect astype_float64 fs s w').
Proof.
  intros (Ht & Hs & Hf & Hc & Hk). destruct s as [path|path|path e]; cbn [effect].
  - destruct (delta w) as [tbl|] eqn:Hw, (delta w') as [tbl'|] eqn:Hw'; try done.
    + destruct Ht as (Hsch & Hp & Hfiles).
      repeat split; cbn [log_success after_write delta SUCCESS_LOG FAILED_LOG file_count
                         cleanups appended dt_schema dt_partitionColumns]; try done.
      * rewrite !table_files_appended. by rewrite Hfiles.
      * by rewrite Hs.
      * by rewrite Hc.
      * by rewrite Hc, Hk.
    + repeat split; try done. by rewrite Hw, Hw'.
  - repeat split; cbn [log_success delta SUCCESS_LOG FAILED_LOG file_count cleanups];
      try done. by rewrite Hs.
  - repeat split; cbn [log_failure delta SUCCESS_LOG FAILED_LOG file_count cleanups];
      try done. by rewrite Hf.
Qed.

Lemma process_file_same_content path w w' :
  same_content w w' →
  (process_file astype_float64 fs path w).2 = (process_file astype_float64 fs path w').2 ∧
  same_content (process_file astype_float64 fs path w).1
               (process_file astype_float64 fs path w').1.
Proof.
  intros Hsame. pose proof Hsame as [Ht _].
  pose proof (status_same_table path w w' Ht) as Hs. split; [done|].
  rewrite (process_file_effect path w), (process_file_effect path w'). cbn [fst].
  rewrite Hs. by apply effect_same_content.
Qed.

Lemma run_same_content files w w' :
  same_content w w' →
  (run astype_float64 fs files w).2 = (run astype_float64 fs files w').2 ∧
  same_content (run astype_float64 fs files w).1 (run astype_float64 fs files w').1.
Proof.
  revert w w'. induction files as [|p files IH]; intros w w' Hsame; [done|].
  rewrite !run_cons. cbn [fst snd].
  destruct (process_file_same_content p w w' Hsame) as [Hs Hsame1].
  destruct (IH _ _ Hsame1) as [Hss Hsame2]. split; [|done]. by rewrite Hs, Hss.
Qed.

(** *** Two calls, one after the other *)

Lemma perm_snoc_swap {A} (l : list A) a b : (l ++ [a]) ++ [b] ≡ₚ (l ++ [b]) ++ [a].
Proof. rewrite <- !app_assoc. f_equiv. apply Permutation_app_comm. Qed.

Lemma perm_app_swap {A} (l l1 l2 : list A) : (l ++ l1) ++ l2 ≡ₚ (l ++ l2) ++ l1.
Proof. rewrite <- !app_assoc. f_equiv. apply Permutation_app_comm. Qed.

Lemma effect_comm s1 s2 w :
  same_content (effect astype_float64 fs s1 (effect astype_float64 fs s2 w))
               (effect astype_float64 fs s2 (effect astype_float64 fs s1 w)).
Proof.
  destruct s1 as [p|p|p e], s2 as [q|q|q e']; cbn [effect];
    destruct (delta w) as [tbl|] eqn:Hw;
    cbn [effect log_success log_failure after_write delta];
    rewrite ?Hw;
    repeat split;
    cbn [log_success log_failure after_write delta SUCCESS_LOG FAILED_LOG file_count
         cleanups appended dt_schema dt_partitionColumns same_table];
    rewrite ?Hw; try done;
    try apply perm_snoc_swap; try apply same_table_refl.
  repeat split. rewrite !table_files_appended. apply perm_app_swap.
Qed.

(** The batch written for one file does not change what the existence check
    of a file with another tuple finds. *)
Lemma status_unaffected p q w :
  (∀ tp, file_tuple p = Some tp → file_tuple q ≠ Some tp) →
  (process_file astype_float64 fs p (process_file astype_float64 fs q w).1).2
  = (process_file astype_float64 fs p w).2.
Proof.
  intros Hne.
  destruct (process_file_table astype_float64 fs q w)
    as [Heq|(tbl & rows & _ & Hw & _ & Hw1 & meta_q & df_pd & Hq & ->)].
  - apply status_same_table. rewrite Heq. apply same_table_refl.
  - eapply status_same; [done..|]. intros meta Hp.
    rewrite (exists_in_other astype_float64); [done|].
    intros (-> & Heq & _)%tuple_read_tuple_of. apply (Hne (tuple_of meta (label_of p))).
    + unfold file_tuple. by rewrite Hp.
    + unfold file_tuple. by rewrite Hq, Heq.
Qed.

Lemma run_swap p q w :
  (∀ tp, file_tuple p = Some tp → file_tuple q ≠ Some tp) →
  (run astype_float64 fs [p; q] w).2 ≡ₚ (run astype_float64 fs [q; p] w).2 ∧
  same_content (run astype_float64 fs [p; q] w).1 (run astype_float64 fs [q; p] w).1.
Proof.
  intros Hne. rewrite !run_cons. cbn [run fst snd].
  assert (∀ tq, file_tuple q = Some tq → file_tuple p ≠ Some tq) as Hne'
    by (intros tq Hq Hp; by apply (Hne tq)).
  rewrite (process_file_effect q (process_file astype_float64 fs p w).1).
  rewrite (process_file_effect p (process_file astype_float64 fs q w).1). cbn [fst snd].
  rewrite (status_unaffected q p w Hne'), (status_unaffected p q w Hne).
  rewrite (process_file_effect p w), (process_file_effect q w). cbn [fst snd].
  split; [apply Permutation_swap | apply effect_comm].
Qed.

Lemma NoDup_omap_tail p files : NoDup (omap file_tuple (p :: files)) → NoDup (omap file_tuple files).
Proof.
  cbn [omap list_omap]. destruct (file_tuple p); [|done]. by intros [_ ?]%NoDup_cons.
Qed.

Lemma NoDup_omap_perm files files' :
  files ≡ₚ files' → NoDup (omap file_tuple files) → NoDup (omap file_tuple files').
Proof. intros Hperm. by rewrite Hperm. Qed.

Lemma run_permuted files files' :
  files ≡ₚ files' →
  NoDup (omap file_tuple files) →
  ∀ w w', same_content w w' →
    (run astype_float64 fs files w).2 ≡ₚ (run astype_float64 fs files' w').2 ∧
    same_content (run astype_float64 fs files w).1 (run astype_float64 fs files' w').1.
Proof.
  induction 1 as [|p l l' Hperm IH|p q l|l1 l2 l3 Hperm1 IH1 Hperm2 IH2];
    intros Hnodup w w' Hsame.
  - done.
  - rewrite !run_cons. cbn [fst snd].
    destruct (process_file_same_content p w w' Hsame) as [Hs Hsame1].
    destruct (IH (NoDup_omap_tail _ _ Hnodup) _ _ Hsame1) as [Hss Hsame2].
    split; [|done]. rewrite Hs. by constructor.
  - change (q :: p :: l) with ([q; p] ++ l). change (p :: q :: l) with ([p; q] ++ l).
    rewrite !run_app. cbn [fst snd].
    destruct (run_same_content [q; p] w w' Hsame) as [Hs Hsame1].
    destruct (run_swap q p w') as [Hs2 Hsame2].
    { intros tq Hq Hp. cbn [omap list_omap] in Hnodup. rewrite Hq, Hp in Hnodup.
      apply NoDup_cons in Hnodup as [Hin _]. apply Hin. by left. }
    destruct (run_same_content l _ _ (same_content_trans _ _ _ Hsame1 Hsame2)) as [Hss Hsame3].
    split; [|done]. rewrite Hs, Hss. by f_equiv.
  - destruct (IH1 Hnodup w w (same_content_refl w)) as [Hs1 Hsame1].
    destruct (IH2 (NoDup_omap_perm _ _ Hperm1 Hnodup) w w' Hsame) as [Hs2 Hsame2].
    split; [by rewrite Hs1 | by eapply same_content_trans].
Qed.

(** X8 (the order does not matter).  Take the files of a run in another
    order, their metadata tuples being pairwise distinct.  The two runs
    then end every file the same way (the statuses are the same up to their
    order), and they leave states with the same content: a table with the
    same schema, partition columns and data files, hence the same rows, up
    to order, the same lines in each log up to order, the same counters. *)
Theorem ingestion_order_is_irrelevant files files' w :
  files ≡ₚ files' →
  NoDup (omap file_tuple files) →
  (run astype_float64 fs files w).2 ≡ₚ (run astype_float64 fs files' w).2 ∧
  same_content (run astype_float64 fs files w).1 (run astype_float64 fs files' w).1 ∧
  world_rows (run astype_float64 fs files w).1 ≡ₚ world_rows (run astype_float64 fs files' w).1.
Proof.
  intros Hperm Hnodup.
  destruct (run_permuted files files' Hperm Hnodup w w (same_content_refl w)) as [Hs Hsame].
  repeat split; try done; try apply Hsame. by apply same_content_rows.
Qed.

End Order.

(** ** File names of the documented pattern *)

(** X9 (names of the pattern).  For a file name
    [machine_month_year_operation_example.h5] whose five fields hold no
    underscore, and with no [.h5] inside the stem, [parse_filename] returns
    the five fields; and it returns the same five fields when further
    underscore-separated segments follow the fifth, which it ignores. *)
Theorem parse_filename_of_pattern m mo y op ex extra :
  count_char "_" m = 0 → count_char "_" mo = 0 → count_char "_" y = 0 →
  count_char "_" op = 0 → count_char "_" ex = 0 →
  (occurs ".h5" (m +:+ "_" +:+ mo +:+ "_" +:+ y +:+ "_" +:+ op +:+ "_" +:+ ex) = false →
   parse_filename ((m +:+ "_" +:+ mo +:+ "_" +:+ y +:+ "_" +:+ op +:+ "_" +:+ ex) +:+ ".h5")
   = Return (mkMeta m mo y op ex)) ∧
  (occurs ".h5" (m +:+ "_" +:+ mo +:+ "_" +:+ y +:+ "_" +:+ op +:+ "_" +:+ ex +:+ "_" +:+ extra)
   = false →
   parse_filename ((m +:+ "_" +:+ mo +:+ "_" +:+ y +:+ "_" +:+ op +:+ "_" +:+ ex
                      +:+ "_" +:+ extra) +:+ ".h5")
   = Return (mkMeta m mo y op ex)).
Proof.
  intros Hm Hmo Hy Hop Hex. split; intros Hocc.
  - pose proof (parse_filename_parts
                  ((m +:+ "_" +:+ mo +:+ "_" +:+ y +:+ "_" +:+ op +:+ "_" +:+ ex) +:+ ".h5"))
      as Hparts.
    rewrite (replace_extension _ Hocc) in Hparts. rewrite !sep_app in Hparts.
    rewrite !split_app_sep in Hparts by done. by rewrite split_no_sep in Hparts.
  - pose proof (parse_filename_parts
                  ((m +:+ "_" +:+ mo +:+ "_" +:+ y +:+ "_" +:+ op +:+ "_" +:+ ex
                      +:+ "_" +:+ extra) +:+ ".h5")) as Hparts.
    rewrite (replace_extension _ Hocc) in Hparts. rewrite !sep_app in Hparts.
    rewrite !split_app_sep in Hparts by done.
    by destruct (split "_" extra).
Qed.

Lemma parse_filename_of_pattern_witness :
  parse_filename (("M01" +:+ "_" +:+ "Aug" +:+ "_" +:+ "2019" +:+ "_" +:+ "OP03" +:+ "_" +:+ "000")
                    +:+ ".h5")
  = Return (mkMeta "M01" "Aug" "2019" "OP03" "000") ∧
  parse_filename (("M01" +:+ "_" +:+ "Aug" +:+ "_" +:+ "2019" +:+ "_" +:+ "OP03" +:+ "_" +:+ "000"
                     +:+ "_" +:+ "copy_2") +:+ ".h5")
  = Return (mkMeta "M01" "Aug" "2019" "OP03" "000").
Proof.
  split.
  - apply (proj1 (parse_filename_of_pattern "M01" "Aug" "2019" "OP03" "000" ""
                    eq_refl eq_refl eq_refl eq_refl eq_refl)).
    reflexivity.
  - apply (proj2 (parse_filename_of_pattern "M01" "Aug" "2019" "OP03" "000" "copy_2"
                    eq_refl eq_refl eq_refl eq_refl eq_refl)).
    reflexivity.
Defined.

(** ** The list of files to ingest *)

Section Listing.

Context {num : Type}.
Variable fs : FileSystem (num := num).

Lemma endswith_app pre f suffix :
  endswith f suffix = true → endswith (pre +:+ f) suffix = true.
Proof.
  intros H. induction pre as [|c pre IH]; [done|].
  rewrite app_cons. cbn [endswith]. rewrite IH. apply orb_true_r.
Qed.

Lemma endswith_path_join root f suffix :
  endswith f suffix = true → endswith (path_join root f) suffix = true.
Proof.
  intros H. unfold path_join. destruct (_ || _); by repeat apply endswith_app.
Qed.

Lemma append_matching root files (acc : list string) :
  foldl (λ h5_files f,
           if endswith f ".h5" then h5_files ++ [path_join root f] else h5_files)
        acc files
  = acc ++ map (path_join root) (List.filter (λ f, endswith f ".h5") files).
Proof.
  revert acc. induction files as [|f files IH]; intros acc; cbn [foldl List.filter].
  - by rewrite app_nil_r.
  - rewrite IH. destruct (endswith f ".h5"); [|done]. by rewrite <- app_assoc.
Qed.

Lemma collect_paths base_dir :
  map file_path (collect_hdf5_metadata fs base_dir) = h5_files fs base_dir.
Proof.
  unfold collect_hdf5_metadata, h5_files.
  induction (os_walk fs base_dir) as [|[root files] dirs IH]; [done|].
  cbn [map concat]. rewrite map_app, IH. f_equal.
  rewrite map_map. apply map_ext. intros file. apply profile_file_path.
Qed.

Lemma remove_dups_NoDup_id {A} `{EqDecision A} (l : list A) : NoDup l → remove_dups l = l.
Proof.
  induction 1 as [|a l Ha _ IH]; [done|]. cbn.
  destruct (decide_rel _ _ _); [done|]. by rewrite IH.
Qed.

Lemma length_remove_dups {A} `{EqDecision A} (l : list A) :
  (length (remove_dups l) ≤ length l)%nat.
Proof.
  induction l as [|a l IH]; [done|]. cbn. destruct (decide_rel _ _ _); cbn; lia.
Qed.

(** X10 (the list of files).  The loop that builds [h5_files] before the
    coordinator gives the list of the comprehension that checked for files,
    in the same order.  A path is listed exactly when it is the join of a
    directory of the walk with one of its file names ending in [.h5]; every
    listed path ends in [.h5]. *)
Theorem h5_files_listing base_dir :
  h5_files_loop fs base_dir = h5_files fs base_dir ∧
  (∀ p, p ∈ h5_files fs base_dir ↔
        ∃ root files f, (root, files) ∈ os_walk fs base_dir ∧ f ∈ files ∧
                        endswith f ".h5" = true ∧ p = path_join root f) ∧
  (∀ p, p ∈ h5_files fs base_dir → endswith p ".h5" = true).
Proof.
  assert (∀ p, p ∈ h5_files fs base_dir ↔
               ∃ root files f, (root, files) ∈ os_walk fs base_dir ∧ f ∈ files ∧
                               endswith f ".h5" = true ∧ p = path_join root f) as Hin.
  { intros p. unfold h5_files. rewrite list_elem_of_In, in_concat. split.
    - intros (l & Hl & Hp).
      apply in_map_iff in Hl as ([root files] & <- & Hd).
      apply in_map_iff in Hp as (f & <- & Hf).
      apply filter_In in Hf as [Hf Hend].
      exists root, files, f. repeat split; try done; by apply list_elem_of_In.
    - intros (root & files & f & Hd & Hf & Hend & ->).
      exists (map (path_join root) (List.filter (λ f, endswith f ".h5") files)). split.
      + apply in_map_iff. exists (root, files). split; [done|]. by apply list_elem_of_In.
      + apply in_map_iff. exists f. split; [done|].
        apply filter_In. split; [by apply list_elem_of_In | done]. }
  split; [|split; [done|]].
  - unfold h5_files_loop, h5_files.
    assert (∀ dirs (acc : list string),
              foldl (λ h5_files '(root, files),
                       foldl (λ h5_files f,
                                if endswith f ".h5" then h5_files ++ [path_join root f]
                                else h5_files) h5_files files) acc dirs
              = acc ++ concat (map (λ '(root, files),
                                      map (path_join root)
                                          (List.filter (λ f, endswith f ".h5") files)) dirs))
      as Hloop.
    { induction dirs as [|[root files] dirs IH]; intros acc; cbn [foldl map concat].
      - by rewrite app_nil_r.
      - by rewrite IH, append_matching, <- app_assoc. }
    by rewrite Hloop.
  - intros p (root & files & f & _ & _ & Hend & ->)%Hin. by apply endswith_path_join.
Qed.

(** X11 (number of files of the profile).  The number of files the
    profiling cell prints, the number of distinct paths among the
    profiler's records, is at most the number of files listed, and equal to
    it when the walk lists no path twice. *)
Theorem profiled_files_count base_dir :
  (nunique_file_path (collect_hdf5_metadata fs base_dir) ≤ length (h5_files fs base_dir))%nat ∧
  (NoDup (h5_files fs base_dir) →
   nunique_file_path (collect_hdf5_metadata fs base_dir) = length (h5_files fs base_dir)).
Proof.
  unfold nunique_file_path. rewrite collect_paths. split.
  - apply length_remove_dups.
  - intros Hnodup. by rewrite remove_dups_NoDup_id.
Qed.

End Listing.

(** ** The counts per label of the verification notebook *)

Section LabelCounts.

Context {float64 : Type}.

Implicit Types (tbl : DeltaTable (float64 := float64)).
Implicit Types (lbl l : option string) (groups : list (option string * nat)).
Implicit Types (tuples : list MetaTuple).

Lemma count_for_count_label l lbl groups :
  count_for l (count_label lbl groups)
  = if bool_decide (lbl = l) then S (count_for l groups) else count_for l groups.
Proof.
  induction groups as [|[l0 n0] groups IH]; [done|]. cbn [count_label count_for].
  destruct (decide (l0 = lbl)) as [->|Hne].
  - rewrite bool_decide_eq_true_2 by done. cbn [count_for].
    by destruct (bool_decide (lbl = l)).
  - rewrite (bool_decide_eq_false_2 (l0 = lbl)) by done. cbn [count_for]. rewrite IH.
    destruct (decide (l0 = l)) as [->|Hne'].
    + rewrite (bool_decide_eq_true_2 (l = l)) by done.
      by rewrite (bool_decide_eq_false_2 (lbl = l)) by congruence.
    + by rewrite (bool_decide_eq_false_2 (l0 = l)) by done.
Qed.

Lemma sum_count_label lbl groups :
  sum_list (map snd (count_label lbl groups)) = S (sum_list (map snd groups)).
Proof.
  induction groups as [|[l0 n0] groups IH]; [done|]. cbn [count_label].
  destruct (bool_decide (l0 = lbl)); cbn in *; lia.
Qed.

Lemma keys_count_label l lbl groups :
  l ∈ map fst (count_label lbl groups) ↔ l = lbl ∨ l ∈ map fst groups.
Proof.
  induction groups as [|[l0 n0] groups IH]; cbn [count_label map fst].
  - rewrite list_elem_of_singleton. split; [by left | intros [?|?%elem_of_nil]; done].
  - destruct (decide (l0 = lbl)) as [->|Hne].
    + rewrite bool_decide_eq_true_2 by done. cbn [map fst]. rewrite !elem_of_cons.
      split; [by right | intros [->|?]; [by left | done]].
    + rewrite bool_decide_eq_false_2 by done. cbn [map fst]. rewrite !elem_of_cons.
      rewrite IH. split; [intros [?|[?|?]] | intros [?|[?|?]]]; auto.
Qed.

Lemma NoDup_count_label lbl groups :
  NoDup (map fst groups) → NoDup (map fst (count_label lbl groups)).
Proof.
  induction groups as [|[l0 n0] groups IH]; cbn [count_label map fst].
  - intros _. apply NoDup_singleton.
  - intros [Hnew Hnodup]%NoDup_cons.
    destruct (decide (l0 = lbl)) as [->|Hne].
    + rewrite bool_decide_eq_true_2 by done. cbn [map fst]. by apply NoDup_cons.
    + rewrite bool_decide_eq_false_2 by done. cbn [map fst].
      apply NoDup_cons. split; [|by apply IH].
      rewrite keys_count_label. by intros [?|?].
Qed.

Lemma positive_count_label lbl groups :
  Forall (λ g, 0 < g.2) groups → Forall (λ g, 0 < g.2) (count_label lbl groups).
Proof.
  induction 1 as [|[l0 n0] groups Hg Hgs IH]; cbn [count_label].
  - repeat constructor.
  - destruct (bool_decide (l0 = lbl)); constructor; cbn in *; try done; lia.
Qed.

Lemma count_for_elem_of l n groups :
  NoDup (map fst groups) → (l, n) ∈ groups → count_for l groups = n.
Proof.
  induction groups as [|[l0 n0] groups IH]; [by intros _ ?%elem_of_nil|].
  cbn [map fst count_for]. intros [Hnew Hnodup]%NoDup_cons [[= <- <-]|Hin]%elem_of_cons.
  - by rewrite bool_decide_eq_true_2.
  - destruct (decide (l0 = l)) as [->|Hne].
    + exfalso. apply Hnew. apply list_elem_of_fmap. by exists (l, n).
    + rewrite bool_decide_eq_false_2 by done. by apply IH.
Qed.

Lemma elem_of_count_for l groups :
  0 < count_for l groups → (l, count_for l groups) ∈ groups.
Proof.
  induction groups as [|[l0 n0] groups IH]; cbn [count_for]; [lia|].
  destruct (decide (l0 = l)) as [->|Hne].
  - rewrite bool_decide_eq_true_2 by done. intros _. by left.
  - rewrite bool_decide_eq_false_2 by done. intros H. right. by apply IH.
Qed.

(** The loop of the grouping, from any groups collected so far. *)
Lemma groups_of_tuples tuples groups :
  (NoDup (map fst groups) →
   NoDup (map fst (foldl (λ groups (t : MetaTuple), count_label t.2 groups) groups tuples))) ∧
  (Forall (λ g, 0 < g.2) groups →
   Forall (λ g, 0 < g.2)
          (foldl (λ groups (t : MetaTuple), count_label t.2 groups) groups tuples)) ∧
  sum_list (map snd (foldl (λ groups (t : MetaTuple), count_label t.2 groups) groups tuples))
  = sum_list (map snd groups) + length tuples ∧
  ∀ l, count_for l (foldl (λ groups (t : MetaTuple), count_label t.2 groups) groups tuples)
       = count_for l groups + length (filter (λ t : MetaTuple, t.2 = l) tuples).
Proof.
  revert groups. induction tuples as [|t tuples IH]; intros groups; cbn [foldl].
  - repeat split; try done; lia.
  - destruct (IH (count_label t.2 groups)) as (Hnodup & Hpos & Hsum & Hcount).
    repeat split.
    + intros H. by apply Hnodup, NoDup_count_label.
    + intros H. by apply Hpos, positive_count_label.
    + rewrite Hsum, sum_count_label. cbn. lia.
    + intros l. rewrite Hcount, count_for_count_label.
      destruct (decide (t.2 = l)) as [Heq|Hne].
      * rewrite bool_decide_eq_true_2 by done.
        rewrite filter_cons_True by done. cbn. lia.
      * rewrite bool_decide_eq_false_2 by done. by rewrite filter_cons_False.
Qed.

(** X12 (counts per label).  The counts per label that the verification
    notebook shows add up to its count of distinct metadata tuples; no
    label is shown twice; and a label is shown with a count exactly when
    that count is positive and is the number of distinct tuples of the
    table with that label. *)
Theorem label_counts_add_up tbl :
  sum_list (map snd (label_counts tbl)) = distinct_count tbl ∧
  NoDup (map fst (label_counts tbl)) ∧
  ∀ l n,
    (l, n) ∈ label_counts tbl ↔
    0 < n ∧
    n = length (filter (λ t : MetaTuple, t.2 = l)
                       (remove_dups (map metadata_tuple (table_rows tbl)))).
Proof.
  unfold label_counts, groupBy_label_count, distinct_count.
  destruct (groups_of_tuples (remove_dups (map metadata_tuple (table_rows tbl))) [])
    as (Hnodup & Hpos & Hsum & Hcount).
  specialize (Hnodup (NoDup_nil_2)). specialize (Hpos (Forall_nil_2 _)).
  split; [by rewrite Hsum|]. split; [done|].
  intros l n. specialize (Hcount l). cbn [count_for] in Hcount.
  rewrite Nat.add_0_l in Hcount. split.
  - intros Hin. split.
    + by apply (proj1 (Forall_forall _ _) Hpos (l, n)).
    + rewrite <- (count_for_elem_of l n _ Hnodup Hin). by rewrite Hcount.
  - intros [Hn ->]. rewrite <- Hcount in Hn |- *. by apply elem_of_count_for.
Qed.

End LabelCounts.

(** ** The further statements on the concrete corpus *)


(** On the table an earlier run left, the same file is skipped when the
    table has its tuple, appended when it has not. *)
Example outcomes_on_earlier_table :
  (process_file to_double earlier_fs earlier_file (start earlier_table)).2
  = Skipped earlier_file ∧
  (process_file to_double one_file_fs file_004 (start earlier_table)).2
  = Appended file_004 ∧
  (process_file to_double one_file_fs file_004 (start (Some year_partitioned_table))).2
  = Failed file_004
      (mkExc AnalysisException
             "Partition columns do not match the partition columns of the table").
Proof. repeat split; vm_compute; reflexivity. Qed.

Lemma one_batch_per_tuple_witness :
  ∃ tbl',
    delta (run to_double twin_fs (h5_files twin_fs "../data/raw") (start (Some empty_table))).1
    = Some tbl' ∧
    ∀ meta lbl,
      (tuple_of meta lbl ∈ map metadata_tuple (table_rows empty_table) →
       rows_with_tuple (tuple_of meta lbl) tbl'
       = rows_with_tuple (tuple_of meta lbl) empty_table) ∧
      (tuple_of meta lbl ∉ map metadata_tuple (table_rows empty_table) →
       rows_with_tuple (tuple_of meta lbl) tbl' = [] ∨
       ∃ i path h5f,
         h5_files twin_fs "../data/raw" !! i = Some path ∧
         (run to_double twin_fs (h5_files twin_fs "../data/raw")
              (start (Some empty_table))).2 !! i = Some (Appended path) ∧
         parse_filename (basename path) = Return meta ∧ label_of path = lbl ∧
         h5py_File twin_fs path = Return h5f ∧
         read_rows to_double h5f meta lbl
         = Return (rows_with_tuple (tuple_of meta lbl) tbl')).
Proof.
  apply (one_batch_per_tuple to_double twin_fs (h5_files twin_fs "../data/raw")
           (start (Some empty_table)) empty_table).
  reflexivity.
Defined.

(** Two files with the same tuple: the rows of the tuple are those of the
    first file, five and not ten. *)
Example twin_rows_once :
  let r := run to_double twin_fs (h5_files twin_fs "../data/raw") (start (Some empty_table)) in
  r.2 = [Appended file_004;
         Skipped "../data/raw/M01/OP00/good/M01_Feb_2019_OP00_004_copy.h5"] ∧
  length (world_rows r.1) = 5.
Proof. split; vm_compute; reflexivity. Qed.

(** A second run over the corpus of ten files skips the nine ingested files
    and fails again on the tenth. *)
Example second_run_of_batch :
  let r1 := run to_double batch_fs batch_files (start (Some empty_table)) in
  let r2 := run to_double batch_fs batch_files r1.1 in
  length (world_rows r1.1) = 45 ∧ length (world_rows r2.1) = 45 ∧
  map is_appended r2.2 = repeat false 10 ∧
  length (List.filter is_failed r2.2) = 1.
Proof. repeat split; vm_compute; reflexivity. Qed.

(** A file with an empty array is appended again by a second run, which
    adds no row. *)
Example second_run_of_empty_file :
  let r1 := run to_double zero_row_fs [file_004] (start (Some empty_table)) in
  let r2 := run to_double zero_row_fs [file_004] r1.1 in
  r2.2 = [Appended file_004] ∧ world_rows r2.1 = [].
Proof. split; vm_compute; reflexivity. Qed.

(** Files with an empty machine_id.  A scan returns their rows with a null
    machine_id, which the existence check of no file matches: two files
    with the same six values are both appended, the rows with the null
    come from both, and a further run appends the file again. *)
Example empty_machine_id_twins :
  let r := run to_double nameless_fs [nameless_file; nameless_copy] (start (Some empty_table)) in
  let r2 := run to_double nameless_fs [nameless_file] r.1 in
  file_tuple nameless_file = file_tuple nameless_copy ∧
  has_empty_partition_value nameless_file ∧
  r.2 = [Appended nameless_file; Appended nameless_copy] ∧
  map metadata_tuple (world_rows r.1)
  = repeat (None, Some "Feb", Some "2019", Some "OP00", Some "004", Some "good") 10 ∧
  r2.2 = [Appended nameless_file] ∧
  length (world_rows r2.1) = 15.
Proof.
  split; [reflexivity|]. split.
  - exists (mkMeta "" "Feb" "2019" "OP00" "004"). split; [reflexivity | by left].
  - repeat split; vm_compute; reflexivity.
Qed.

Lemma ingestion_order_is_irrelevant_witness :
  (run to_double profiler_fs [file_005; file_004] (start (Some empty_table))).2
  ≡ₚ (run to_double profiler_fs [file_004; file_005] (start (Some empty_table))).2 ∧
  same_content (run to_double profiler_fs [file_005; file_004] (start (Some empty_table))).1
               (run to_double profiler_fs [file_004; file_005] (start (Some empty_table))).1 ∧
  world_rows (run to_double profiler_fs [file_005; file_004] (start (Some empty_table))).1
  ≡ₚ world_rows (run to_double profiler_fs [file_004; file_005] (start (Some empty_table))).1.
Proof.
  apply (ingestion_order_is_irrelevant to_double profiler_fs
           [file_005; file_004] [file_004; file_005] (start (Some empty_table))).
  - apply perm_swap.
  - apply (bool_decide_unpack _). vm_compute. exact I.
Defined.

(** With two files of the same tuple the order does matter for the
    statuses: the one that comes first is appended, the other skipped. *)
Example order_of_twins :
  (run to_double twin_fs (h5_files twin_fs "../data/raw") (start (Some empty_table))).2
  = [Appended file_004; Skipped "../data/raw/M01/OP00/good/M01_Feb_2019_OP00_004_copy.h5"] ∧
  (run to_double twin_fs (reverse (h5_files twin_fs "../data/raw"))
       (start (Some empty_table))).2
  = [Appended "../data/raw/M01/OP00/good/M01_Feb_2019_OP00_004_copy.h5"; Skipped file_004].
Proof. split; vm_compute; reflexivity. Qed.

Example listing_of_profiler_corpus :
  h5_files_loop profiler_fs "../data/raw" = [file_004; file_005; file_006; file_007] ∧
  nunique_file_path (collect_hdf5_metadata profiler_fs "../data/raw") = 4.
Proof. split; vm_compute; reflexivity. Qed.

(** The two queries of the verification notebook on the table after the
    ten files were ingested on top of the earlier table. *)
Example label_counts_of_batch :
  let r := run to_double batch_fs batch_files (start earlier_table) in
  (distinct_count <$> delta r.1) = Some 10 ∧
  (label_counts <$> delta r.1) = Some [(Some "bad", 1); (Some "good", 9)].
Proof. split; vm_compute; reflexivity. Qed.

Example logs_of_batch :
  let r := run to_double batch_fs batch_files (start (Some empty_table)) in
  length (SUCCESS_LOG r.1) = 9 ∧
  FAILED_LOG r.1
  = ["../data/raw/M01/OP00/good/M01_Feb_2019_OP00_004.h5 | Missing 'vibration_data'"].
Proof. split; vm_compute; reflexivity. Qed.

(** ** What a run leaves in the table *)

Section Contents.

Context {num float64 : Type}.
Variable astype_float64 : num → float64.
Variable fs : FileSystem (num := num).

Implicit Types (w : World (float64 := float64)) (tbl : DeltaTable (float64 := float64)).
Implicit Types (path : string) (files : list string) (meta : Meta) (s : Status).

Lemma appended_paths_cons s statuses :
  appended_paths (s :: statuses) = appended_paths [s] ++ appended_paths statuses.
Proof. unfold appended_paths. cbn. by destruct s. Qed.

Lemma process_file_rows path w :
  world_rows (process_file astype_float64 fs path w).1
  = world_rows w
    ++ concat (map (batch_of astype_float64 fs)
                   (appended_paths [(process_file astype_float64 fs path w).2])).
Proof.
  pose proof (process_file_step astype_float64 fs path w) as Hstep.
  destruct Hstep as [stage e Hr|meta tbl H1 H2 H3|meta tbl h5f rows tbl' H1 H2 H3 H4 H5 H6];
    unfold world_rows; cbn [fst snd log_failure log_success after_write delta appended_paths
                            omap list_omap map concat];
    rewrite ?app_nil_r; try done.
  rewrite H2. apply delta_append_existing in H6 as [_ ->].
  assert (frame_of astype_float64 fs path = rows) as Hframe
    by (unfold frame_of; by rewrite H1, H4, H5).
  unfold batch_of. rewrite Hframe.
  destruct (read_rows_with_metadata _ _ _ _ _ H5) as [df_pd ->].
  apply table_rows_worker.
Qed.

(** X13 (the rows after a run).  After a run a scan of the table returns
    the rows it returned before, followed by the batches of the files whose
    calls appended, in the order of the calls and with nothing else in
    between.  The batch of a file that holds an [n] x 3 array under
    [vibration_data] is its [n] samples cast to float64, each with the
    month, the year and the example number of the file name, and with the
    machine_id, the operation and the label of the directory as a scan
    returns a partition value: the string that was written, or null where
    that string is empty. *)
Theorem rows_after_a_run files w :
  world_rows (run astype_float64 fs files w).1
  = world_rows w
    ++ concat (map (batch_of astype_float64 fs)
                   (appended_paths (run astype_float64 fs files w).2)) ∧
  ∀ path meta h5f d n,
    parse_filename (basename path) = Return meta →
    h5py_File fs path = Return h5f →
    h5_getitem h5f "vibration_data" = Return (H5Dataset d) →
    shape (ds_data d) = [n; 3] →
    batch_of astype_float64 fs path
    = map (λ '(a, b, c),
             mkRow (astype_float64 a) (astype_float64 b) (astype_float64 c)
                   (partition_value_read (Some (meta_machine_id meta)))
                   (Some (meta_month meta)) (Some (meta_year meta))
                   (partition_value_read (Some (meta_operation meta)))
                   (Some (meta_example_no meta))
                   (partition_value_read (Some (label_of path))))
          (samples (ds_data d) n).
Proof.
  split.
  - revert w. induction files as [|p files IH]; intros w.
    + cbn. by rewrite app_nil_r.
    + rewrite run_cons. cbn [fst snd].
      rewrite appended_paths_cons, map_app, concat_app, IH, process_file_rows.
      by rewrite app_assoc.
  - intros path meta h5f d n Hparse Hopen Hget Hshape. unfold batch_of, frame_of.
    rewrite Hparse, Hopen, (read_rows_samples _ _ _ _ _ _ Hget Hshape).
    unfold with_metadata. rewrite map_map. apply map_ext. by intros [[a b] c].
Qed.

(** *** Files that were skipped or failed *)

Lemma same_table_and_counters_refl w : same_table_and_counters w w.
Proof. done. Qed.

Lemma status_same_delta path w w' :
  delta w = delta w' →
  (process_file astype_float64 fs path w).2 = (process_file astype_float64 fs path w').2.
Proof. intros H. apply status_same_table. rewrite H. apply same_table_refl. Qed.

Lemma process_file_agree path w w' :
  same_table_and_counters w w' →
  (process_file astype_float64 fs path w).2 = (process_file astype_float64 fs path w').2 ∧
  same_table_and_counters (process_file astype_float64 fs path w).1
                          (process_file astype_float64 fs path w').1.
Proof.
  intros (Hd & Hc & Hk). pose proof (status_same_delta path w w' Hd) as Hs.
  split; [done|].
  rewrite (process_file_effect astype_float64 fs path w).
  rewrite (process_file_effect astype_float64 fs path w'). cbn [fst]. rewrite <- Hs.
  destruct (process_file astype_float64 fs path w).2 as [p|p|p e]; cbn [effect];
    [|by repeat split..].
  rewrite <- Hd. destruct (delta w) as [tbl|] eqn:Hw; [|repeat split; congruence].
  repeat split; cbn [log_success after_write delta file_count cleanups];
    by rewrite ?Hc, ?Hk.
Qed.

Lemma process_file_no_trace path w :
  is_appended (process_file astype_float64 fs path w).2 = false →
  same_table_and_counters (process_file astype_float64 fs path w).1 w.
Proof.
  rewrite (process_file_effect astype_float64 fs path w) at 2. cbn [fst].
  by destruct (process_file astype_float64 fs path w).2; [|repeat split..].
Qed.

Lemma same_table_and_counters_trans w1 w2 w3 :
  same_table_and_counters w1 w2 → same_table_and_counters w2 w3 →
  same_table_and_counters w1 w3.
Proof. intros (? & ? & ?) (? & ? & ?). repeat split; congruence. Qed.

Lemma run_of_appended files w w' :
  same_table_and_counters w w' →
  (run astype_float64 fs (appended_paths (run astype_float64 fs files w).2) w').2
  = map Appended (appended_paths (run astype_float64 fs files w).2) ∧
  same_table_and_counters
    (run astype_float64 fs files w).1
    (run astype_float64 fs (appended_paths (run astype_float64 fs files w).2) w').1.
Proof.
  revert w w'. induction files as [|p files IH]; intros w w' Hsame; [done|].
  rewrite run_cons. cbn [fst snd]. rewrite appended_paths_cons.
  pose proof (process_file_step astype_float64 fs p w) as Hstep.
  apply step_status_path in Hstep as Hs.
  destruct Hs as [Hs|[Hs|[e Hs]]].
  - assert (appended_paths [(process_file astype_float64 fs p w).2] = [p]) as ->
      by by rewrite Hs.
    cbn [app]. rewrite run_cons. cbn [fst snd].
    destruct (process_file_agree p w w' Hsame) as [Hs' Hsame1].
    destruct (IH _ _ Hsame1) as [Hss Hsame2].
    split; [|done]. cbn [map]. by rewrite <- Hs', Hs, Hss.
  - assert (appended_paths [(process_file astype_float64 fs p w).2] = []) as ->
      by by rewrite Hs.
    cbn [app]. apply IH.
    eapply same_table_and_counters_trans; [|exact Hsame].
    apply process_file_no_trace. by rewrite Hs.
  - assert (appended_paths [(process_file astype_float64 fs p w).2] = []) as ->
      by by rewrite Hs.
    cbn [app]. apply IH.
    eapply same_table_and_counters_trans; [|exact Hsame].
    apply process_file_no_trace. by rewrite Hs.
Qed.

(** X14 (skipped and failed files leave no trace).  Run the coordinator
    over only the files that a run appended, in the same order and from the
    same state: every one of them is appended, and the table and the
    counters end as in the full run.  Beyond their log lines, the files
    that were skipped or that failed had no part in the result. *)
Theorem only_appended_files_matter files w :
  let r := run astype_float64 fs files w in
  let r' := run astype_float64 fs (appended_paths r.2) w in
  r'.2 = map Appended (appended_paths r.2) ∧
  delta r'.1 = delta r.1 ∧ file_count r'.1 = file_count r.1 ∧ cleanups r'.1 = cleanups r.1.
Proof.
  cbv zeta.
  destruct (run_of_appended files w w (same_table_and_counters_refl w))
    as [Hs (Hd & Hc & Hk)].
  by repeat split.
Qed.

End Contents.

(** The files appended from the corpus of ten are the nine with a dataset;
    a run over these nine alone ends with the same table. *)
Example appended_of_batch :
  let r := run to_double batch_fs batch_files (start (Some empty_table)) in
  appended_paths r.2 = batch_before ++ batch_after ∧
  delta (run to_double batch_fs (batch_before ++ batch_after) (start (Some empty_table))).1
  = delta r.1 ∧
  length (world_rows r.1) = 9 * length (batch_of to_double batch_fs file_005).
Proof. repeat split; vm_compute; reflexivity. Qed.

(** ** From the corpus to the counts of the verification notebook *)

Section EndToEnd.

Context {num float64 : Type}.
Variable astype_float64 : num → float64.
Variable fs : FileSystem (num := num).

Implicit Types (w : World (float64 := float64)) (tbl : DeltaTable (float64 := float64)).
Implicit Types (path : string) (files : list string) (meta : Meta) (l : string).

Lemma ingestible_tuple path :
  ingestible fs path →
  ∃ meta, file_tuple path = Some (tuple_of meta (label_of path)) ∧
          file_tuple_read path = Some (tuple_read meta (label_of path)).
Proof.
  intros [[meta Hparse] _]. exists meta. unfold file_tuple, file_tuple_read.
  by rewrite Hparse.
Qed.

Lemma tuples_of_ingestible files l :
  Forall (ingestible fs) files →
  length (omap file_tuple_read files) = length files ∧
  length (filter (λ t : MetaTuple, t.2 = partition_value_read (Some l))
                 (omap file_tuple_read files))
  = length (filter (λ p, label_of p = l) files).
Proof.
  induction 1 as [|p files Hp _ [IH1 IH2]]; [done|].
  destruct (ingestible_tuple p Hp) as (meta & _ & Ht). cbn [omap list_omap]. rewrite Ht.
  split; [cbn; by rewrite IH1|].
  destruct (decide (label_of p = l)) as [Hl|Hl].
  - rewrite (filter_cons_True (λ p, label_of p = l)) by done.
    rewrite filter_cons_True by (by rewrite <- Hl).
    cbn [length]. by rewrite IH2.
  - rewrite (filter_cons_False (λ p, label_of p = l)) by done.
    rewrite filter_cons_False; [done|].
    intros Heq. apply Hl. by apply partition_value_read_inj.
Qed.

(** Files with distinct tuples are shown with distinct tuples by a scan. *)
Lemma NoDup_file_tuple_read files :
  NoDup (omap file_tuple files) → NoDup (omap file_tuple_read files).
Proof.
  induction files as [|p files IH]; [done|]. cbn [omap list_omap].
  unfold file_tuple at 1, file_tuple_read at 1.
  destruct (parse_filename (basename p)) as [meta|] eqn:Hparse; [|done].
  intros [Hnew Hnodup]%NoDup_cons. apply NoDup_cons. split; [|by apply IH].
  intros (q & Hq & Hqt)%list_elem_of_omap. apply Hnew.
  apply list_elem_of_omap. exists q. split; [done|].
  rewrite <- (file_tuple_read_inj p q (tuple_read meta (label_of p))); [| |done].
  - unfold file_tuple. by rewrite Hparse.
  - unfold file_tuple_read. by rewrite Hparse.
Qed.

Lemma known_files_empty files : known_files files ∅ = 0.
Proof.
  unfold known_files. induction (omap file_tuple files) as [|t ts IH]; [done|].
  by rewrite filter_cons_False by set_solver.
Qed.

(** X15 (the counts of the verification notebook).  Let the coordinator
    run on an empty table that takes the worker's writes, over files that
    can all be ingested, none of them holding an empty array, with pairwise
    distinct metadata tuples.  Then the number of distinct metadata tuples
    the verification notebook counts is the number of files, and the count
    it shows for each label is the number of files in directories of that
    name; the files with an empty label are shown under the null label. *)
Theorem verification_counts_match_corpus files w :
  Forall (ingestible fs) files →
  table_ok w →
  world_rows w = [] →
  NoDup (omap file_tuple files) →
  Forall (λ p, ¬ holds_samples fs p 0) files →
  ∃ tbl',
    delta (run astype_float64 fs files w).1 = Some tbl' ∧
    distinct_count tbl' = length files ∧
    sum_list (map snd (label_counts tbl')) = length files ∧
    ∀ l, count_for (partition_value_read (Some l)) (label_counts tbl')
         = length (filter (λ p, label_of p = l) files).
Proof.
  intros Hing Hok Hempty Hnodup Hne.
  pose proof Hok as (tbl & Hw & Hacc).
  destruct (run_ingestible astype_float64 fs files w Hing Hok) as (_ & _ & _ & Hlog & Hsound).
  assert (world_tuples w = []) as Hnone.
  { unfold world_rows in Hempty. unfold world_tuples. rewrite Hw in Hempty |- *.
    by rewrite Hempty. }
  assert (tuple_set w = ∅) as Hset by (unfold tuple_set; by rewrite Hnone).
  assert (no_null_twin files (tuple_set w)) as Htwin.
  { intros p t' _ _ Hin. rewrite Hset in Hin. by apply not_elem_of_empty in Hin. }
  destruct (run_count astype_float64 fs files w (ex_intro _ tbl Hw) Hnodup Hne Htwin)
    as [[tbl' Hw'] Hcount].
  exists tbl'. split; [done|].
  rewrite Hset, known_files_empty, size_empty in Hcount.
  pose proof (NoDup_file_tuple_read files Hnodup) as Hnodup'.
  assert (tuple_set (run astype_float64 fs files w).1
          = list_to_set (omap file_tuple_read files)) as Htuples.
  { apply set_subseteq_size_eq.
    - intros t Ht. unfold tuple_set in Ht. apply elem_of_list_to_set in Ht.
      apply elem_of_list_to_set. apply Hsound in Ht as [Ht|Ht].
      + rewrite Hnone in Ht. by apply elem_of_nil in Ht.
      + apply list_elem_of_fmap in Ht as (p & Hp & Hin).
        apply list_elem_of_omap. by exists p.
    - rewrite size_list_to_set by done.
      rewrite (proj1 (tuples_of_ingestible files "" Hing)). lia. }
  assert (remove_dups (map metadata_tuple (table_rows tbl')) ≡ₚ omap file_tuple_read files)
    as Hperm.
  { apply NoDup_Permutation; [apply NoDup_remove_dups | done |].
    intros t. rewrite elem_of_remove_dups.
    assert (t ∈ map metadata_tuple (table_rows tbl')
            ↔ t ∈ tuple_set (run astype_float64 fs files w).1) as ->.
    { unfold tuple_set, world_tuples. rewrite Hw'. by rewrite elem_of_list_to_set. }
    by rewrite Htuples, elem_of_list_to_set. }
  destruct (groups_of_tuples (remove_dups (map metadata_tuple (table_rows tbl'))) [])
    as (_ & _ & Hsum & Hfor).
  assert (length (remove_dups (map metadata_tuple (table_rows tbl'))) = length files) as Hlen.
  { rewrite Hperm. apply (tuples_of_ingestible files "" Hing). }
  split; [exact Hlen|]. split.
  - unfold label_counts, groupBy_label_count. rewrite Hsum, Hlen. done.
  - intros l. unfold label_counts, groupBy_label_count. rewrite Hfor. cbn [count_for].
    rewrite Hperm. apply (tuples_of_ingestible files l Hing).
Qed.

End EndToEnd.

Lemma verification_counts_match_corpus_witness :
  ∃ tbl',
    delta (run to_double batch_fs batch_before (start (Some empty_table))).1 = Some tbl' ∧
    distinct_count tbl' = length batch_before ∧
    sum_list (map snd (label_counts tbl')) = length batch_before ∧
    ∀ l, count_for (partition_value_read (Some l)) (label_counts tbl')
         = length (filter (λ p, label_of p = l) batch_before).
Proof.
  apply (verification_counts_match_corpus to_double batch_fs batch_before
           (start (Some empty_table))).
  - exact batch_before_ingestible.
  - exact empty_table_ok.
  - reflexivity.
  - apply (bool_decide_unpack _). vm_compute. exact I.
  - unfold batch_before. apply Forall_take, batch_files_not_empty.
Defined.

(** ** Files whose dataset cannot be used *)

Section Unreadable.

Context {num float64 : Type}.
Variable astype_float64 : num → float64.
Variable fs : FileSystem (num := num).

Implicit Types (w : World (float64 := float64)) (tbl : DeltaTable (float64 := float64)).
Implicit Types (path : string) (meta : Meta).

(** X16 (a dataset that cannot be used).  Take a file whose name parses,
    whose tuple is not in the table, and which opens and has a member
    [vibration_data].  If the member is a group, reading it raises a
    [TypeError]; if it is an array whose shape is not [n] x 3, building the
    frame with the columns x, y, z raises a [ValueError].  Either way the
    call fails: the state is the one of before with one more line in the
    failure log, and the table is untouched. *)
Theorem unusable_dataset_fails path w meta tbl h5f obj :
  parse_filename (basename path) = Return meta →
  delta w = Some tbl →
  exists_in tbl meta (label_of path) = false →
  h5py_File fs path = Return h5f →
  h5_getitem h5f "vibration_data" = Return obj →
  (obj = H5Group ∨ ∃ d, obj = H5Dataset d ∧ ∀ n, shape (ds_data d) ≠ [n; 3]) →
  ∃ e,
    process_file astype_float64 fs path w
    = (log_failure (path +:+ " | " +:+ str e) w, Failed path e) ∧
    exc_class e = (match obj with H5Group => TypeError | H5Dataset _ => ValueError end) ∧
    delta (process_file astype_float64 fs path w).1 = Some tbl.
Proof.
  intros Hparse Hw Hex Hopen Hget Hobj.
  assert (∃ e, read_rows astype_float64 h5f meta (label_of path) = Raise e ∧
               exc_class e = match obj with H5Group => TypeError | H5Dataset _ => ValueError end)
    as (e & Hread & Hclass).
  { unfold read_rows. rewrite (h5_getitem_contains _ _ _ Hget). cbn [negb].
    rewrite Hget, bind_Return.
    destruct Hobj as [->|(d & -> & Hshape)]; cbn [read_all].
    - eexists. split; [by rewrite bind_Raise | done].
    - rewrite bind_Return.
      destruct (pd_DataFrame (ds_data d)) as [df_pd|e] eqn:Hdf.
      + apply pd_DataFrame_inv in Hdf as (n & Hn & _). by apply Hshape in Hn.
      + exists e. split; [by rewrite bind_Raise|].
        unfold pd_DataFrame in Hdf.
        repeat match type of Hdf with
               | match ?x with _ => _ end = _ => destruct x
               end; try discriminate Hdf; by injection Hdf as <-. }
  exists e.
  assert (raised_at astype_float64 fs path w Reading e) as Hr.
  { eapply raised_reading; try done. by apply delta_load_Return. }
  rewrite (process_file_raised _ _ _ _ _ _ Hr). by repeat split.
Qed.

End Unreadable.

Lemma unusable_dataset_fails_witness :
  ∃ e,
    process_file to_double unreadable_fs file_004 (start (Some empty_table))
    = (log_failure (file_004 +:+ " | " +:+ str e) (start (Some empty_table)),
       Failed file_004 e) ∧
    exc_class e = TypeError ∧
    delta (process_file to_double unreadable_fs file_004 (start (Some empty_table))).1
    = Some empty_table.
Proof.
  apply (unusable_dataset_fails to_double unreadable_fs file_004 (start (Some empty_table))
           (mkMeta "M01" "Feb" "2019" "OP00" "004") empty_table group_named_file H5Group).
  - reflexivity.
  - reflexivity.
  - reflexivity.
  - vm_compute. reflexivity.
  - reflexivity.
  - by left.
Defined.

Example two_columns_are_rejected :
  (process_file to_double unreadable_fs file_005 (start (Some empty_table))).2
  = Failed file_005 (mkExc ValueError "Shape of passed values does not fit columns x, y, z") ∧
  (process_file to_double unreadable_fs file_004 (start (Some empty_table))).2
  = Failed file_004 (mkExc TypeError "Accessing a group is done with bytes or str").
Proof. split; vm_compute; reflexivity. Qed.

Lemma second_run_adds_no_rows_witness :
  world_rows (run to_double batch_fs batch_files
                  (run to_double batch_fs batch_files (start (Some empty_table))).1).1
  = world_rows (run to_double batch_fs batch_files (start (Some empty_table))).1 ∧
  (run to_double batch_fs batch_files
       (run to_double batch_fs batch_files (start (Some empty_table))).1).2 !! 0
  = Some (Skipped "../data/raw/M01/OP00/good/M01_Feb_2019_OP00_000.h5").
Proof.
  split.
  - apply (proj1 (second_run_adds_no_rows to_double batch_fs batch_files
                    (start (Some empty_table)))).
    exact batch_files_matchable.
  - apply (proj2 (proj2 (second_run_adds_no_rows to_double batch_fs batch_files
                           (start (Some empty_table))))
             0 "../data/raw/M01/OP00/good/M01_Feb_2019_OP00_000.h5").
    right. split; [vm_compute; reflexivity | split; [not_empty_here | matchable_here]].
Defined.

Lemma profiled_files_count_witness :
  nunique_file_path (collect_hdf5_metadata profiler_fs "../data/raw")
  = length (h5_files profiler_fs "../data/raw").
Proof.
  apply (proj2 (profiled_files_count profiler_fs "../data/raw")).
  apply (bool_decide_unpack _). vm_compute. exact I.
Defined.

Lemma rows_after_a_run_witness :
  batch_of to_double nameless_fs nameless_file
  = map (λ '(a, b, c),
           mkRow (to_double a) (to_double b) (to_double c)
                 (partition_value_read (Some "")) (Some "Feb") (Some "2019")
                 (partition_value_read (Some "OP00")) (Some "004")
                 (partition_value_read (Some (label_of nameless_file))))
        (samples (array_of vibration_rows) 5).
Proof.
  apply (proj2 (rows_after_a_run to_double nameless_fs [] (start None))
           nameless_file (mkMeta "" "Feb" "2019" "OP00" "004") sample_file
           (mkDataset (array_of vibration_rows) None) 5).
  - reflexivity.
  - vm_compute. reflexivity.
  - reflexivity.
  - reflexivity.
Defined.
